(** * Firepower kickstart: console sessions, dialogs and provisioning

    A shallow embedding of the Kilburn Park (Kp) and Westminster (Wm)
    device drivers:

    - [kick/device2/chassis/actions/dialogs.py]  (ChassisDialogs)
    - [kick/device2/kp/actions/dialogs.py]       (KpDialogs)
    - [kick/device2/kp/actions/statemachine.py]  (KpStateMachine)
    - [kick/device2/kp/actions/kp.py]            (Kp, KpLine)
    - [kick/device2/wm/actions/wm.py]            (Wm, WmLine)

    Text is ASCII ([string]); wall-clock time is counted in whole seconds
    ([Z]); the console, the power bar and the metrics sink are an
    environment ([Device]) whose answers may depend on everything that
    happened on the line so far. *)

From Stdlib Require Import String Ascii List ZArith Bool Arith Lia.
Import ListNotations.
Local Open Scope string_scope.

(* ===================================================================== *)
(** * Python string operations *)
(* ===================================================================== *)

Module PyStr.

(** [s.startswith(p)] *)
Definition startswith (s p : string) : bool := String.prefix p s.

(** [sub in s] *)
Fixpoint contains (sub s : string) : bool :=
  if String.prefix sub s then true
  else match s with
       | EmptyString => false
       | String _ rest => contains sub rest
       end.

(** [str.isspace] on one ASCII character: TAB, LF, VT, FF, CR, FS, GS, RS,
    US and SPACE. *)
Definition isspace (c : ascii) : bool :=
  let n := nat_of_ascii c in
  ((9 <=? n)%nat && (n <=? 13)%nat) || ((28 <=? n)%nat && (n <=? 32)%nat).

Definition isdigit (c : ascii) : bool :=
  let n := nat_of_ascii c in (48 <=? n)%nat && (n <=? 57)%nat.

Definition isalpha (c : ascii) : bool :=
  let n := nat_of_ascii c in
  ((65 <=? n)%nat && (n <=? 90)%nat) || ((97 <=? n)%nat && (n <=? 122)%nat).

(** The class [\w] restricted to ASCII. *)
Definition isword (c : ascii) : bool :=
  isalpha c || isdigit c || Ascii.eqb c "_".

Fixpoint lstrip (s : string) : string :=
  match s with
  | String c rest => if isspace c then lstrip rest else s
  | EmptyString => EmptyString
  end.

(** Drops trailing white space: a character is kept when something that
    is not white space follows it or when it is not white space itself. *)
Fixpoint rstrip (s : string) : string :=
  match s with
  | EmptyString => EmptyString
  | String c rest =>
      match rstrip rest with
      | EmptyString => if isspace c then EmptyString else String c EmptyString
      | kept => String c kept
      end
  end.

(** [s.strip()] *)
Definition strip (s : string) : string := rstrip (lstrip s).

(** [s.split(sep)] for a one-character separator: never empty. *)
Fixpoint split (sep : ascii) (s : string) : list string :=
  match s with
  | EmptyString => [EmptyString]
  | String c rest =>
      if Ascii.eqb c sep then EmptyString :: split sep rest
      else match split sep rest with
           | first :: others => String c first :: others
           | [] => [String c EmptyString]
           end
  end.

(** [s.split()]: the maximal runs of characters that are not white space.
    [cur] is the run being read, in reverse. *)
Fixpoint words_aux (cur : list ascii) (s : string) : list string :=
  let flush := match cur with
               | [] => []
               | _ => [string_of_list_ascii (rev cur)]
               end in
  match s with
  | EmptyString => flush
  | String c rest =>
      if isspace c then flush ++ words_aux [] rest
      else words_aux (c :: cur) rest
  end.

Definition words (s : string) : list string := words_aux [] s.

(** [xs[-1]] of a list known to be non-empty, with a default. *)
Definition last_item (xs : list string) : string := List.last xs EmptyString.

(** [os.path.basename(p)]: what follows the last slash. *)
Definition basename (p : string) : string := last_item (split "/" p).

(** [s[n:]] *)
Fixpoint drop (n : nat) (s : string) : string :=
  match n, s with
  | O, _ => s
  | S m, String _ rest => drop m rest
  | S _, EmptyString => EmptyString
  end.

(** [s[:n]] *)
Fixpoint take (n : nat) (s : string) : string :=
  match n, s with
  | O, _ => EmptyString
  | S m, String c rest => String c (take m rest)
  | S _, EmptyString => EmptyString
  end.

(** A value that is either [None] or a [str]. *)
Definition t := option string.

(** Truth value of a [None]-or-[str] value: [None] and [''] are false. *)
Definition truthy (v : t) : bool :=
  match v with
  | None => false
  | Some EmptyString => false
  | Some _ => true
  end.

(** [v == ''] *)
Definition is_empty_str (v : t) : bool :=
  match v with
  | Some EmptyString => true
  | _ => false
  end.

(** Decimal rendering of a non-negative count, as [str.format] prints it. *)
Definition digit_of (n : nat) : ascii := ascii_of_nat (48 + n).

Fixpoint decimal_aux (fuel n : nat) (acc : string) : string :=
  match fuel with
  | O => acc
  | S f =>
      let acc' := String (digit_of (n mod 10)) acc in
      if (n <? 10)%nat then acc' else decimal_aux f (n / 10) acc'
  end.

Definition decimal (n : nat) : string := decimal_aux (S n) n EmptyString.

End PyStr.

(* ===================================================================== *)
(** * The regular expressions the drivers use *)
(* ===================================================================== *)

(** The patterns applied by the code under [re.search] and [re.findall] are
    concatenations of literal characters, single characters of a class and
    greedy runs [cls+]; the matcher below is the backtracking matcher for
    that fragment, with the text matched by every atom reported so that
    groups can be read off. *)
Module Re.

Inductive atom : Type :=
  | Lit (c : ascii)
  | One (cls : ascii -> bool)
  | Plus (cls : ascii -> bool).

Fixpoint lits (s : string) : list atom :=
  match s with
  | EmptyString => []
  | String c rest => Lit c :: lits rest
  end.

(** Length of the longest prefix of [s] made of [cls] characters. *)
Fixpoint run (cls : ascii -> bool) (s : string) : nat :=
  match s with
  | String c rest => if cls c then S (run cls rest) else O
  | EmptyString => O
  end.

(** [match_here p s]: the atoms of [p] matched at the start of [s]; the
    result lists the text taken by each atom and what is left of [s].  A
    greedy run tries its longest extent first and gives characters back
    one at a time. *)
Fixpoint match_here (p : list atom) (s : string) : option (list string * string) :=
  match p with
  | [] => Some ([], s)
  | Lit c :: p' =>
      match s with
      | String c' rest =>
          if Ascii.eqb c c' then
            match match_here p' rest with
            | Some (ms, r) => Some (String c' EmptyString :: ms, r)
            | None => None
            end
          else None
      | EmptyString => None
      end
  | One cls :: p' =>
      match s with
      | String c' rest =>
          if cls c' then
            match match_here p' rest with
            | Some (ms, r) => Some (String c' EmptyString :: ms, r)
            | None => None
            end
          else None
      | EmptyString => None
      end
  | Plus cls :: p' =>
      (fix give_back (n : nat) : option (list string * string) :=
         match n with
         | O => None
         | S m =>
             match match_here p' (PyStr.drop n s) with
             | Some (ms, r) => Some (PyStr.take n s :: ms, r)
             | None => give_back m
             end
         end) (run cls s)
  end.

(** [re.search(p, s)]: the leftmost position where [p] matches. *)
Fixpoint search (p : list atom) (s : string) : option (list string * string) :=
  match match_here p s with
  | Some r => Some r
  | None =>
      match s with
      | EmptyString => None
      | String _ rest => search p rest
      end
  end.

(** Concatenation of the texts of atoms [from .. from+len-1]: a group. *)
Definition group (ms : list string) (from len : nat) : string :=
  String.concat EmptyString (firstn len (skipn from ms)).

Definition is_char (c : ascii) : ascii -> bool := Ascii.eqb c.

(** [[0-9\.]] *)
Definition digit_or_dot (c : ascii) : bool := PyStr.isdigit c || Ascii.eqb c ".".

(** [[\w\-\./]] *)
Definition path_char (c : ascii) : bool :=
  PyStr.isword c || Ascii.eqb c "-" || Ascii.eqb c "." || Ascii.eqb c "/".

End Re.

(* ===================================================================== *)
(** * Dialogs *)
(* ===================================================================== *)

(** A dialog statement is written in the sources as the list
    [[pattern, action, args, loop_continue, continue_timer]]; the action is
    a string such as ['sendline(yes)'], a Python callable, or [None]. *)
Module Dialogs.

(** What a callable action does to the line. *)
Inductive Effect : Type :=
  | Sleep (milliseconds : Z)
  | Put (text : string) (newline : bool).

Inductive Action : Type :=
  | Sendline (text : string)        (* 'sendline(text)' *)
  | Send (text : string)            (* 'send(text)' *)
  | SendlineCtx (key : string)      (* 'sendline_ctx(key)' *)
  | Call (body : list Effect)       (* a callable *)
  | NoAction.                       (* None *)

Record Rule : Type := mkRule {
    pattern : string;
    action : Action;
    args : option string;
    loop_continue : bool;     (* continue after this statement matched *)
    continue_timer : bool     (* keep going after a timeout *)
  }.

Definition Dialog := list Rule.

(** [chr(n)] as a one-character string. *)
Definition chr (n : nat) : string := String (ascii_of_nat n) EmptyString.

(** [action_mio_to_fpr_module(spawn)] of chassis/actions/dialogs.py *)
Definition action_mio_to_fpr_module : list Effect :=
  [Sleep 500; Put EmptyString true; Put EmptyString true].

(** The prompts of the chassis pattern table that the chassis dialogs
    refer to ([self.patterns.prompt.*]). *)
Record ChassisPrompts : Type := {
    c_password_prompt : string;
    c_fireos_prompt : string;
    c_expert_cli : string;
    c_sudo_prompt : string;
    c_enable_prompt : string;
    c_disable_prompt : string;
    c_config_prompt : string
  }.

Section ChassisDialogs.
Variable prompt : ChassisPrompts.
Variable chassis_login_password ftd_password : string.

(** From login to MIO *)
Definition d_prelogin_to_mio : Dialog :=
  [mkRule (c_password_prompt prompt) (Sendline chassis_login_password)
     None true true].

(** from MIO to module boot cli *)
Definition d_mio_to_fpr_module : Dialog :=
  [mkRule "Close Network Connection to Exit" (Call action_mio_to_fpr_module)
     None true true;
   mkRule (c_fireos_prompt prompt) (Sendline "exit") None true true;
   mkRule (c_expert_cli prompt) (Sendline "exit") None true true;
   mkRule (c_sudo_prompt prompt) (Sendline "exit") None true true;
   mkRule "\x07" (Sendline (chr 3)) None true true].

Definition d_fireos_to_fpr : Dialog :=
  [mkRule "Disconnected.*>d" (Sendline (chr 8)) None true true].

Definition d_fpr_to_fpr : Dialog :=
  [mkRule "ftd not installed" (Sendline (chr 3)) None true true].

(** from module boot cli to FTD *)
Definition d_fpr_module_to_ftd : Dialog :=
  [mkRule "Connecting to.*ftd.*console" NoAction None true true;
   mkRule "\r\nEnter new password:" (Sendline ftd_password) None true true;
   mkRule "\r\nConfirm new password:" (Sendline ftd_password) None true true;
   mkRule "to return to bootCLI" (Sendline EmptyString) None true true;
   mkRule "configure manager add DONTRESOLVE" (Sendline EmptyString) None true true].

(** from enable to disable *)
Definition d_enable_to_disable : Dialog :=
  [mkRule (c_enable_prompt prompt) (Sendline "disable") None true true;
   mkRule "Request refused. Exiting ..." NoAction None false false;
   mkRule (c_config_prompt prompt) (Sendline "end") None true true].

(** from disable to enable *)
Definition d_disable_to_enable : Dialog :=
  [mkRule (c_disable_prompt prompt) (Sendline "en") None true true;
   mkRule (c_password_prompt prompt) (Sendline EmptyString) None true true;
   mkRule "Request refused. Exiting ..." NoAction None false false;
   mkRule (c_config_prompt prompt) (Sendline "end") None true true].

(** from enable/disable to conf t *)
Definition d_endisable_to_conft : Dialog :=
  [mkRule (c_disable_prompt prompt) (Sendline "en") None true true;
   mkRule (c_password_prompt prompt) (Sendline EmptyString) None true true;
   mkRule "Request refused. Exiting ..." NoAction None false false;
   mkRule (c_enable_prompt prompt) (Sendline "conf t") None true true].

Definition disable_to_enable : Dialog :=
  [mkRule (c_password_prompt prompt) (Sendline EmptyString) None true true].

Definition d_disable_to_fireos : Dialog :=
  [mkRule (c_expert_cli prompt) (Sendline "exit") None true true].

Definition d_disable_to_expert : Dialog :=
  [mkRule (c_fireos_prompt prompt) (Sendline "expert") None true true].

Definition d_expert_to_sudo : Dialog :=
  [mkRule (c_password_prompt prompt) (Sendline ftd_password) None true true].
End ChassisDialogs.

(* --------------------------------------------------------------------- *)
(** ** Running a dialog *)

(** The engine that runs a dialog over a stream is [Dialog.process] of the
    expect library, which is not part of these sources; it is modelled
    from section 4.1 of the specification. *)
Section Engine.
(** [re_search pattern buffer]: the pattern occurs in the buffer. *)
Variable re_search : string -> string -> bool.

Inductive Failure : Type :=
  | DialogTimeout (unmatched : string)
  | ContextLookupError (key : string).

Record MatchResult : Type := {
    matched_rule : nat;
    match_output : string
  }.

Definition Context := list (string * string).

Fixpoint lookup (ctx : Context) (key : string) : option string :=
  match ctx with
  | [] => None
  | (k, v) :: rest => if String.eqb k key then Some v else lookup rest key
  end.

(** Modelled from the spec: the rule selection of the dialog engine
    ([Dialog.process] is missing), section 4.1: "the engine must test
    rules in declaration order against the current buffer state on every
    new chunk of input - earlier rules shadow later ones that would also
    match".  The result is the index and the rule of the first statement,
    in list order, whose pattern matches the buffer; [i] is the index of
    the head of [rules]. *)
Fixpoint first_match (rules : Dialog) (buffer : string) (i : nat)
  : option (nat * Rule) :=
  match rules with
  | [] => None
  | r :: later =>
      if re_search (pattern r) buffer then Some (i, r)
      else first_match later buffer (S i)
  end.

(** Modelled from the spec: the execution of an action by the dialog
    engine ([Dialog.process] is missing), section 4.1: a literal send
    writes the text followed by a line terminator, a templated send
    resolves a named value from the context and "fails with
    ContextLookupError if absent", a callback is invoked, a no-op sends
    nothing.  The result is what is written to the stream, or the key that
    the context lacks. *)
Definition perform (ctx : Context) (a : Action) : list Effect + string :=
  match a with
  | Sendline text => inl [Put text true]
  | Send text => inl [Put text false]
  | SendlineCtx key =>
      match lookup ctx key with
      | Some v => inl [Put v true]
      | None => inr key
      end
  | Call body => inl body
  | NoAction => inl []
  end.

Record Run : Type := {
    fired : list (nat * string);   (* rule executed, buffer it matched *)
    written : list Effect;
    result : MatchResult + Failure
  }.

(** Modelled from the spec: the loop of the dialog engine
    ([Dialog.process] is missing), section 4.1: the stream is read chunk by
    chunk; on a match the action of the selected rule is executed and the
    buffer that matched is used up; with continue-after-match the engine
    resumes waiting, otherwise the run returns with this rule as its
    result; when the timeout elapses (the chunks that arrive in time are
    exhausted) with no rule matched, the run fails with [DialogTimeout],
    carrying the unmatched buffer. *)
Fixpoint run_from (dialog : Dialog) (ctx : Context) (buffer : string)
    (chunks : list string) (done : list (nat * string))
    (out : list Effect) : Run :=
  match chunks with
  | [] => {| fired := done; written := out;
             result := inr (DialogTimeout buffer) |}
  | chunk :: later =>
      let buf := buffer ++ chunk in
      match first_match dialog buf 0 with
      | None => run_from dialog ctx buf later done out
      | Some (i, r) =>
          match perform ctx (action r) with
          | inr key => {| fired := done; written := out;
                          result := inr (ContextLookupError key) |}
          | inl effects =>
              if loop_continue r
              then run_from dialog ctx EmptyString later
                     (done ++ [(i, buf)]) (out ++ effects)
              else {| fired := done ++ [(i, buf)];
                      written := out ++ effects;
                      result := inl {| matched_rule := i;
                                       match_output := buf |} |}
          end
      end
  end.

(** Modelled from the spec: [run(dialog, stream, context, timeout)] of
    the dialog engine ([Dialog.process] is missing), section 4.1;
    [chunks] is what the stream delivers before the timeout. *)
Definition run (dialog : Dialog) (ctx : Context) (chunks : list string) : Run :=
  run_from dialog ctx EmptyString chunks [] [].
End Engine.

End Dialogs.

(* ===================================================================== *)
(** * The Kp state machine *)
(* ===================================================================== *)

Module StateMachine.
Import Dialogs.

(** [State(name, pattern)] *)
Record State : Type := mkState {
    name : string;
    state_pattern : string
  }.

(** [Path(from_state, to_state, command, dialog)] *)
Record Path : Type := mkPath {
    from_state : State;
    to_state : State;
    command : string;
    dialog : option Dialog
  }.

Record Machine : Type := {
    states : list State;
    paths : list Path;
    default_statements : list Rule
  }.

(** The prompt table of [KpPatterns] (kp/actions/patterns.py, not among
    these sources): the fields the drivers read. *)
Record KpPrompts : Type := {
    prelogin_prompt : string;
    fxos_prompt : string;
    fireos_prompt : string;
    expert_prompt : string;
    sudo_prompt : string;
    rommon_prompt : string;
    local_mgmt_prompt : string;
    enable_prompt : string;
    disable_prompt : string;
    config_prompt : string;
    password_prompt : string
  }.

Record KpPatterns : Type := {
    prompt : KpPrompts;
    login_username : string;
    login_password : string;
    default_password : string;
    sudo_password : string
  }.

(** The dialogs of [Ftd5500xDialog] (ftd5500x/actions/dialogs.py, not among
    these sources) that the Kp paths carry. *)
Record Ftd5500xDialog : Type := {
    ftd_d_expert_to_disable : Dialog;
    ftd_d_enable_to_disable : Dialog;
    ftd_d_disable_to_enable : Dialog;
    ftd_d_endisable_to_conft : Dialog;
    ftd_disable_to_enable : Dialog
  }.

Section Kp.
Variable patterns : KpPatterns.
Variable ftd_dialogs : Ftd5500xDialog.
(** [KpStatements(patterns).login_password] (kp/actions/statements.py) *)
Variable login_password_statement : Rule.

(** ** KpDialogs *)
Definition kp_d_expert_to_sudo : Dialog :=
  [mkRule (password_prompt (prompt patterns))
     (Sendline (sudo_password patterns)) None true true].

Definition kp_d_ftd_to_fxos : Dialog :=
  [mkRule "Please enter 'exit' to go back" (Sendline "exit") None true false].

Definition kp_d_prelogin_to_fxos : Dialog :=
  [mkRule (password_prompt (prompt patterns))
     (Sendline (login_password patterns)) None true true].

(** ** KpStateMachine.create *)
Definition prelogin_state := mkState "prelogin_state" (prelogin_prompt (prompt patterns)).
Definition fxos_state := mkState "fxos_state" (fxos_prompt (prompt patterns)).
Definition fireos_state := mkState "fireos_state" (fireos_prompt (prompt patterns)).
Definition expert_state := mkState "expert_state" (expert_prompt (prompt patterns)).
Definition sudo_state := mkState "sudo_state" (sudo_prompt (prompt patterns)).
Definition rommon_state := mkState "rommon_state" (rommon_prompt (prompt patterns)).
Definition local_mgmt_state := mkState "local_mgmt_state" (local_mgmt_prompt (prompt patterns)).
Definition enable_state := mkState "enable_state" (enable_prompt (prompt patterns)).
Definition disable_state := mkState "disable_state" (disable_prompt (prompt patterns)).
Definition config_state := mkState "config_state" (config_prompt (prompt patterns)).

Definition prelogin_to_fxos := mkPath prelogin_state fxos_state EmptyString (Some kp_d_prelogin_to_fxos).
Definition fxos_to_prelogin := mkPath fxos_state prelogin_state "top; exit" None.
Definition fxos_to_ftd := mkPath fxos_state fireos_state "connect ftd" None.
Definition fxos_to_local_mgmt := mkPath fxos_state local_mgmt_state "connect local-mgmt" None.
Definition ftd_to_expert := mkPath fireos_state expert_state "expert" None.
Definition ftd_expert_to_sudo := mkPath expert_state sudo_state "sudo su -" (Some kp_d_expert_to_sudo).
Definition ftd_sudo_to_expert := mkPath sudo_state expert_state "exit" None.
Definition expert_to_ftd := mkPath expert_state fireos_state "exit" None.
Definition local_mgmt_to_fxos := mkPath local_mgmt_state fxos_state "exit" None.
Definition ftd_to_fxos := mkPath fireos_state fxos_state "connect fxos" (Some kp_d_ftd_to_fxos).

Definition expert_to_disable_path :=
  mkPath expert_state disable_state "sudo lina_cli"
    (Some (ftd_d_expert_to_disable ftd_dialogs)).
Definition fireos_to_disable_state :=
  mkPath fireos_state disable_state "system support diagnostic-cli"
    (Some (ftd_d_enable_to_disable ftd_dialogs)).
Definition fireos_to_enable_state :=
  mkPath fireos_state enable_state "system support diagnostic-cli"
    (Some (ftd_d_disable_to_enable ftd_dialogs)).
Definition fireos_to_config_state :=
  mkPath fireos_state config_state "system support diagnostic-cli"
    (Some (ftd_d_endisable_to_conft ftd_dialogs)).
Definition disable_to_enable_state :=
  mkPath disable_state enable_state "en" (Some (ftd_disable_to_enable ftd_dialogs)).
Definition enable_to_disable_state := mkPath enable_state disable_state "disable" None.
Definition disable_to_fireos_path :=
  mkPath disable_state fireos_state (chr 1 ++ "d" ++ "exit") None.
Definition enable_to_config_path := mkPath enable_state config_state "conf t" None.
Definition config_to_enable_path := mkPath config_state enable_state "end" None.

Definition create : Machine := {|
    states :=
      [prelogin_state; fxos_state; fireos_state; expert_state; sudo_state;
       rommon_state; local_mgmt_state; enable_state; disable_state;
       config_state];
    paths :=
      [prelogin_to_fxos; fxos_to_prelogin; fxos_to_ftd; fxos_to_local_mgmt;
       ftd_to_expert; ftd_expert_to_sudo; ftd_sudo_to_expert; expert_to_ftd;
       ftd_to_fxos; local_mgmt_to_fxos; expert_to_disable_path;
       fireos_to_disable_state; fireos_to_enable_state;
       fireos_to_config_state; disable_to_enable_state;
       enable_to_disable_state; disable_to_fireos_path;
       enable_to_config_path; config_to_enable_path];
    default_statements := [login_password_statement]
  |}.
End Kp.

(** [sm.get_state(name)] *)
Definition get_state (sm : Machine) (n : string) : option State :=
  find (fun s => String.eqb (name s) n) (states sm).

(* --------------------------------------------------------------------- *)
(** ** Path finding and [go_to] *)

(** A route is a sequence of Paths, each starting where the one before it
    ended. *)
Inductive route (ps : list Path) : string -> list Path -> string -> Prop :=
  | route_here : forall a, route ps a [] a
  | route_step : forall p r b,
    In p ps -> route ps (name (to_state p)) r b ->
    route ps (name (from_state p)) (p :: r) b.

Definition mem (s : string) (l : list string) : bool := existsb (String.eqb s) l.

(** A state reached by the search, with the Paths that lead to it, the
    last one first. *)
Definition entry := (string * list Path)%type.

(** Modelled from the spec: the path finder ([StateMachine.go_to] is
    missing) looks at one Path from one state of the frontier. *)
Definition visit (e : entry) (acc : list string * list entry) (p : Path)
  : list string * list entry :=
  let '(seen, next) := acc in
  if String.eqb (name (from_state p)) (fst e) && negb (mem (name (to_state p)) seen)
  then (name (to_state p) :: seen, (next ++ [(name (to_state p), p :: snd e)])%list)
  else acc.

(** Modelled from the spec: one level of the breadth-first search of the
    path finder ([StateMachine.go_to] is missing), section 4.2: every Path
    leaving a state of the frontier, in declaration order, towards a state
    not seen yet. *)
Definition expand (ps : list Path) (seen : list string) (frontier : list entry)
  : list string * list entry :=
  fold_left (fun acc e => fold_left (visit e) ps acc) frontier (seen, []).

(** Modelled from the spec: the breadth-first search of the path finder
    ([StateMachine.go_to] is missing), section 4.2, level by level: the
    first level that contains the target gives the route. *)
Fixpoint search (ps : list Path) (levels : nat) (seen : list string)
    (frontier : list entry) (target : string) : option (list Path) :=
  match find (fun e => String.eqb (fst e) target) frontier with
  | Some e => Some (rev (snd e))
  | None =>
      match levels with
      | O => None
      | S l =>
          let '(seen', next) := expand ps seen frontier in
          match next with
          | [] => None
          | _ => search ps l seen' next target
          end
      end
  end.

(** Modelled from the spec: the path finder of the state machine library
    ([StateMachine.go_to] is not part of these sources).  Section 4.2:
    "find the shortest sequence of Paths from current-state to name in the
    directed graph (breadth-first over Paths; Paths are directed and not
    necessarily symmetric)".  Every level discovers a new state or ends the
    search, so there are at most as many levels as states. *)
Definition find_path (sm : Machine) (a b : string) : option (list Path) :=
  search (paths sm) (length (states sm)) [a] [(a, [])] b.

(** What a session shows of a [go_to]: the believed state, the Paths
    executed and the commands sent, in order. *)
Record Session : Type := {
  current_state : string;
  executed : list Path;
  sent : list string
  }.

Inductive GoTo : Type :=
  | Arrived (s : Session)
  | NoPathError (s : Session)
  | DialogFailed (p : Path) (s : Session).

Section GoTo.
Variable sm : Machine.
(** [completes p]: on this stream the dialog of [p] runs to completion
    (or, without a dialog, the prompt of its to-state is observed). *)
Variable completes : Path -> bool.

(** Modelled from the spec: executing the Paths found, section 4.2:
    "Execute each Path in order: send its command, run its Dialog (if
    any) to completion, update current-state to the Path's to-state only
    after the Dialog [...]. Any Dialog failure aborts the whole go_to
    with the underlying error, leaving current-state unchanged". *)
Fixpoint follow (r : list Path) (s : Session) : GoTo :=
  match r with
  | [] => Arrived s
  | p :: later =>
      let s1 := {| current_state := current_state s;
                   executed := executed s;
                   sent := (sent s ++ [command p])%list |} in
      if completes p
      then follow later {| current_state := name (to_state p);
                           executed := (executed s ++ [p])%list;
                           sent := sent s1 |}
      else DialogFailed p s1
  end.

(** Modelled from the spec: [go_to(name)], section 4.2: "if none exists,
    fails with NoPathError". *)
Definition go_to (target : string) (s : Session) : GoTo :=
  match find_path sm (current_state s) target with
  | None => NoPathError s
  | Some r => follow r s
  end.
End GoTo.

End StateMachine.

(* ===================================================================== *)
(** * A console line and its environment *)
(* ===================================================================== *)

Module Console.
Import Dialogs StateMachine.

Inductive Exn : Type :=
  | RuntimeError (msg : string)
  | AssertionError (msg : string)
  | StateMachineError (msg : string)
  | TimeoutError
  | IndexError
  | ValueError
  | AttributeError
  | OtherError (what : string).

(** Everything the driver does to the outside world. *)
Inductive Event : Type :=
  | EvGoTo (target : string)                            (* self.go_to(target) *)
  | EvExecute (cmd : string) (timeout : option Z)       (* self.execute(cmd, timeout) *)
  | EvExecuteLines (cmds : string)                      (* self.execute_lines(cmds) *)
  | EvExecuteOnly (cmd : string)                        (* self.execute_only(cmd) *)
  | EvSendline (text : string)                          (* self.spawn_id.sendline(text) *)
  | EvExpect (pat : string) (timeout : Z)               (* spawn.expect(pat, timeout) *)
  | EvProcess (d : Dialog) (timeout : option Z)         (* d.process(self.spawn_id, timeout) *)
  | EvSleep (seconds : Z)                               (* time.sleep(seconds) *)
  | EvPowerCycle (server port user pwd : PyStr.t)       (* power_cycle_all_ports(...) *)
  | EvMetric (metric : string) (value : Z)              (* publish_kick_metric(metric, value) *)
  | EvBasicDeviceInit.                                  (* BasicDevice.__init__() *)

Inductive Reply (A : Type) : Type :=
  | Ok (a : A)
  | Fails (e : Exn).
Arguments Ok {A} a.
Arguments Fails {A} e.

(** The device at the other end of the line, the power bar and the line
    methods inherited from [BasicLine] (general/actions/basic.py, not among
    these sources).  Every answer is a function of the history of the line:
    the events so far, the most recent first. *)
Record Device : Type := {
  on_go_to : list Event -> string -> Reply string;     (* the state the line is found in *)
  on_execute : list Event -> string -> option Z -> Reply string;
  on_execute_lines : list Event -> string -> Reply string;
  on_execute_only : list Event -> string -> Reply unit;
  on_expect : list Event -> string -> Z -> Reply unit;
  on_process : list Event -> Dialog -> option Z -> Reply string;   (* match_output *)
  on_power_cycle : list Event -> PyStr.t -> PyStr.t -> PyStr.t -> PyStr.t -> Reply bool;
  latency : list Event -> nat                          (* seconds an exchange takes *)
  }.

(** The attributes of a [KpLine] and the world it lives in. *)
Record Line : Type := mkLine {
  trace : list Event;               (* most recent first *)
  clock : Z;                        (* datetime.datetime.now(), in seconds *)
  sm : Machine;                     (* self.sm *)
  sm_patterns : KpPatterns;         (* self.sm.patterns *)
  sm_current_state : string;        (* self.sm.current_state *)
  power_bar_server : PyStr.t;
  power_bar_port : PyStr.t;
  power_bar_user : PyStr.t;
  power_bar_pwd : PyStr.t;
  change_password_flag : bool;
  chassis_line : bool
  }.

Definition with_trace (t : list Event) (l : Line) : Line :=
  mkLine t (clock l) (sm l) (sm_patterns l) (sm_current_state l)
    (power_bar_server l) (power_bar_port l) (power_bar_user l)
    (power_bar_pwd l) (change_password_flag l) (chassis_line l).

Definition with_clock (c : Z) (l : Line) : Line :=
  mkLine (trace l) c (sm l) (sm_patterns l) (sm_current_state l)
    (power_bar_server l) (power_bar_port l) (power_bar_user l)
    (power_bar_pwd l) (change_password_flag l) (chassis_line l).

Definition with_current_state (s : string) (l : Line) : Line :=
  mkLine (trace l) (clock l) (sm l) (sm_patterns l) s
    (power_bar_server l) (power_bar_port l) (power_bar_user l)
    (power_bar_pwd l) (change_password_flag l) (chassis_line l).

Definition with_power_bar (server port user pwd : PyStr.t) (l : Line) : Line :=
  mkLine (trace l) (clock l) (sm l) (sm_patterns l) (sm_current_state l)
    server port user pwd (change_password_flag l) (chassis_line l).

Definition with_change_password_flag (b : bool) (l : Line) : Line :=
  mkLine (trace l) (clock l) (sm l) (sm_patterns l) (sm_current_state l)
    (power_bar_server l) (power_bar_port l) (power_bar_user l)
    (power_bar_pwd l) b (chassis_line l).

(** How a call ends: it returns, it raises, or the number of loop
    iterations allowed to the model ([fuel]) is used up. *)
Inductive Outcome (A : Type) : Type :=
  | Returned (a : A) (l : Line)
  | Raised (e : Exn) (l : Line)
  | Unfinished.
Arguments Returned {A} a l.
Arguments Raised {A} e l.
Arguments Unfinished {A}.

Definition M (A : Type) : Type := Line -> Outcome A.

Definition ret {A} (a : A) : M A := fun l => Returned a l.

Definition bind {A B} (m : M A) (k : A -> M B) : M B :=
  fun l =>
    match m l with
    | Returned a l' => k a l'
    | Raised e l' => Raised e l'
    | Unfinished => Unfinished
    end.

Definition raise {A} (e : Exn) : M A := fun l => Raised e l.

(** [try: m / except <catches>: handler] *)
Definition try_except {A} (m : M A) (catches : Exn -> bool) (handler : M A) : M A :=
  fun l =>
    match m l with
    | Raised e l' => if catches e then handler l' else Raised e l'
    | o => o
    end.

Definition read {A} (f : Line -> A) : M A := fun l => Returned (f l) l.
Definition update (f : Line -> Line) : M unit := fun l => Returned tt (f l).

Declare Scope line_scope.
Delimit Scope line_scope with line.
Notation "x <- m ;; k" := (bind m (fun x => k))
  (at level 61, m at next level, right associativity) : line_scope.
Notation "m ;; k" := (bind m (fun _ => k))
  (at level 61, right associativity) : line_scope.
Local Open Scope line_scope.

Definition is_StateMachineError (e : Exn) : bool :=
  match e with StateMachineError _ => true | _ => false end.
Definition is_TimeoutError (e : Exn) : bool :=
  match e with TimeoutError => true | _ => false end.
Definition any_exception (e : Exn) : bool := true.

Section Primitives.
Variable dev : Device.

(** An exchange with the device: it is recorded, it takes the time the
    device takes, and it returns or raises what the device answers. *)
Definition exchange {A} (ev : Event) (answer : list Event -> Reply A) : M A :=
  fun l =>
    let h := trace l in
    let l' := with_clock (clock l + Z.of_nat (latency dev h)) (with_trace (ev :: h) l) in
    match answer h with
    | Ok a => Returned a l'
    | Fails e => Raised e l'
    end.

Definition emit (ev : Event) : M unit := update (fun l => with_trace (ev :: trace l) l).

(** [self.go_to(target)]: on success the state machine believes the line
    to be in [target], or for ['any'] in the state that was detected. *)
Definition go_to (target : string) : M unit :=
  found <- exchange (EvGoTo target) (fun h => on_go_to dev h target) ;;
  update (with_current_state (if String.eqb target "any" then found else target)).

Definition execute (cmd : string) (timeout : option Z) : M string :=
  exchange (EvExecute cmd timeout) (fun h => on_execute dev h cmd timeout).

Definition execute_lines (cmds : string) : M string :=
  exchange (EvExecuteLines cmds) (fun h => on_execute_lines dev h cmds).

Definition execute_only (cmd : string) : M unit :=
  exchange (EvExecuteOnly cmd) (fun h => on_execute_only dev h cmd).

Definition sendline (text : string) : M unit := emit (EvSendline text).

Definition expect (pat : string) (timeout : Z) : M unit :=
  exchange (EvExpect pat timeout) (fun h => on_expect dev h pat timeout).

(** [d.process(self.spawn_id, timeout=timeout)], returning [match_output] *)
Definition process (d : Dialog) (timeout : option Z) : M string :=
  exchange (EvProcess d timeout) (fun h => on_process dev h d timeout).

Definition sleep (seconds : Z) : M unit :=
  update (fun l => with_clock (clock l + seconds) (with_trace (EvSleep seconds :: trace l) l)).

Definition now : M Z := read clock.

Definition power_cycle_all_ports (server port user pwd : PyStr.t) : M bool :=
  exchange (EvPowerCycle server port user pwd)
    (fun h => on_power_cycle dev h server port user pwd).

Definition publish_kick_metric (metric : string) (value : Z) : M unit :=
  emit (EvMetric metric value).

(** [self.sm.update_cur_state(name)] *)
Definition update_cur_state (s : string) : M unit := update (with_current_state s).

(** [self.sm.get_state(name).pattern] *)
Definition get_state_pattern (n : string) : M string :=
  machine <- read sm ;;
  match get_state machine n with
  | Some s => ret (state_pattern s)
  | None => raise (StateMachineError n)
  end.
End Primitives.

End Console.

(* ===================================================================== *)
(** * kp/actions/kp.py: KpLine *)
(* ===================================================================== *)

Module Kp.
Import Dialogs StateMachine Console.
Local Open Scope line_scope.

(** The line feed of Python's ['\n']. *)
Definition nl : string := String (ascii_of_nat 10) EmptyString.

Definition spaces (n : nat) : string := string_of_list_ascii (repeat " "%char n).

(** A text of several lines, each indented by [n] blanks, as a
    triple-quoted literal lays it out: a line feed before every line. *)
Fixpoint block (n : nat) (lines : list string) : string :=
  match lines with
  | [] => EmptyString
  | line :: rest => nl ++ spaces n ++ line ++ block n rest
  end.

(** How [str.format] prints a value that is [None] or a [str]. *)
Definition fmt (v : PyStr.t) : string :=
  match v with
  | Some s => s
  | None => "None"
  end.

Definition KpInitCmds : string :=
  block 4 ["top"; "terminal length 0"; "terminal width 511"] ++ nl.

Definition MAX_RETRY_COUNT : Z := 3.
Definition DEFAULT_TIMEOUT : Z := 60.

(** [collections.namedtuple('Package', ['name', 'version'])] *)
Record Package : Type := { pkg_name : string; pkg_version : string }.

(** ** The regular expressions of kp.py *)

(** ['State: (\w+)'] and its group 1 *)
Definition re_State : list Re.atom := Re.lits "State: " ++ [Re.Plus PyStr.isword].
Definition re_State_group1 (ms : list string) : string := Re.group ms 7 1.

(** ['(\w+)://(\w+)@[0-9\.]+:([\w\-\./]+)'] and its group 3 *)
Definition re_scp_url : list Re.atom :=
  [Re.Plus PyStr.isword] ++ Re.lits "://" ++
  [Re.Plus PyStr.isword; Re.Lit "@"; Re.Plus Re.digit_or_dot; Re.Lit ":";
   Re.Plus Re.path_char].
Definition re_scp_url_group3 (ms : list string) : string := Re.group ms 8 1.

(** ['(\w+)://[0-9\.]+/([\w\-\./]+)'] and its group 2 *)
Definition re_tftp_url : list Re.atom :=
  [Re.Plus PyStr.isword] ++ Re.lits "://" ++
  [Re.Plus Re.digit_or_dot; Re.Lit "/"; Re.Plus Re.path_char].
Definition re_tftp_url_group2 (ms : list string) : string := Re.group ms 6 1.

(** ['Build\s(\d+)'] and its group 1 *)
Definition re_Build : list Re.atom :=
  Re.lits "Build" ++ [Re.One PyStr.isspace; Re.Plus PyStr.isdigit].
Definition re_Build_group1 (ms : list string) : string := Re.group ms 6 1.

(** [r'(Version\s){1}([0-9.]+\d)'] and its group 2 *)
Definition re_Version : list Re.atom :=
  Re.lits "Version" ++ [Re.One PyStr.isspace; Re.Plus Re.digit_or_dot; Re.One PyStr.isdigit].
Definition re_Version_group2 (ms : list string) : string := Re.group ms 8 2.

(** [r'[\d.]+-[\d]+'] and the whole match *)
Definition re_version_build : list Re.atom :=
  [Re.Plus Re.digit_or_dot; Re.Lit "-"; Re.Plus PyStr.isdigit].
Definition re_version_build_group0 (ms : list string) : string := Re.group ms 0 3.

(** [output[start:]] where [start] is the end of the last match of
    ['-{2,}'] in [output]: what follows the last run of two or more
    hyphens, if there is such a run. *)
Fixpoint skip_hyphens (s : string) : string :=
  match s with
  | String c rest => if Ascii.eqb c "-" then skip_hyphens rest else s
  | EmptyString => EmptyString
  end.

Fixpoint after_last_hyphens (s : string) : option string :=
  match s with
  | EmptyString => None
  | String c rest =>
      match after_last_hyphens rest with
      | Some r => Some r
      | None =>
          if Ascii.eqb c "-" && String.prefix "-" rest
          then Some (skip_hyphens rest)
          else None
      end
  end.

(** [uut_hostname.partition('.')[2]] *)
Fixpoint after_first_dot (s : string) : string :=
  match s with
  | EmptyString => EmptyString
  | String c rest => if Ascii.eqb c "." then rest else after_first_dot rest
  end.

Section KpLine.
Variable dev : Device.

(** [for i in range(n): body] *)
Fixpoint for_range (n : nat) (body : M unit) : M unit :=
  match n with
  | O => ret tt
  | S m => body ;; for_range m body
  end.

Definition set_power_bar (server port user pwd : PyStr.t) : M unit :=
  update (with_power_bar server port user pwd).

Fixpoint init_cmds (cmds : list string) : M unit :=
  match cmds with
  | [] => ret tt
  | cmd :: rest =>
      let cmd := PyStr.strip cmd in
      if String.eqb cmd EmptyString then init_cmds rest
      else execute_only dev cmd ;; init_cmds rest
  end.

Definition init_terminal (determine_state : bool) : M unit :=
  ready <- try_except
             ((if determine_state then go_to dev "any" else ret tt) ;;
              go_to dev "fxos_state" ;;
              ret true)
             is_StateMachineError
             (ret false) ;;
  if ready then init_cmds (PyStr.split (ascii_of_nat 10) KpInitCmds) else ret tt.

Definition wait_until_device_on (timeout : Z) : M unit :=
  process dev
    [mkRule "vdc 1 has come online" NoAction None false false;
     mkRule "SW-DRBG health test passed" NoAction None false false]
    (Some timeout) ;;
  sleep 120 ;;
  init_terminal true.

(** Returns [None], or the result of [power_cycle_all_ports]. *)
Definition power_cycle (power_bar_server power_bar_port : PyStr.t)
    (wait_until_device_is_on : bool) (timeout : Z)
    (power_bar_user power_bar_pwd : PyStr.t) : M (option bool) :=
  self_server <- read Console.power_bar_server ;;
  self_port <- read Console.power_bar_port ;;
  if (negb (PyStr.truthy self_server) && negb (PyStr.truthy power_bar_server))
     || PyStr.is_empty_str power_bar_server
     || (negb (PyStr.truthy self_port) && negb (PyStr.truthy power_bar_port))
     || PyStr.is_empty_str power_bar_port
  then ret None
  else
    (if PyStr.truthy power_bar_server || PyStr.truthy power_bar_port
     then set_power_bar power_bar_server power_bar_port power_bar_user power_bar_pwd
     else ret tt) ;;
    server <- read Console.power_bar_server ;;
    port <- read Console.power_bar_port ;;
    user <- read Console.power_bar_user ;;
    pwd <- read Console.power_bar_pwd ;;
    result <- power_cycle_all_ports dev server port user pwd ;;
    (if wait_until_device_is_on then wait_until_device_on timeout else ret tt) ;;
    ret (Some result).

Fixpoint parse_packages (lines : list string) : M (list Package) :=
  match lines with
  | [] => ret []
  | line :: rest =>
      match PyStr.words line with
      | [package_name; package_version] =>
          others <- parse_packages rest ;;
          ret ({| pkg_name := package_name; pkg_version := package_version |} :: others)
      | _ => raise ValueError
      end
  end.

Definition get_packages : M (list Package) :=
  go_to dev "fxos_state" ;;
  execute_lines dev ("top" ++ nl ++ "scope firmware") ;;
  output <- execute dev "show package" None ;;
  let output :=
    PyStr.strip (match after_last_hyphens output with
                 | Some rest => rest
                 | None => output
                 end) in
  if String.eqb output EmptyString then ret []
  else parse_packages (PyStr.split (ascii_of_nat 10) output).

Definition download_task_cmd (image_name : string) : string :=
  "show download-task " ++ image_name ++ " detail | grep State".

Definition _get_download_status (image_name : string) : M string :=
  go_to dev "fxos_state" ;;
  output <- execute dev (download_task_cmd image_name) None ;;
  match Re.search re_State output with
  | Some (ms, _) => ret (re_State_group1 ms)
  | None => raise AttributeError
  end.

(** The [while elapsed_time < wait_upto] loop of
    [_wait_till_download_complete]. *)
Fixpoint wait_loop (fuel : nat) (image_name : string)
    (start_time wait_upto elapsed_time : Z) : M string :=
  match fuel with
  | O => fun _ => Unfinished
  | S f =>
      if (elapsed_time <? wait_upto)%Z then
        sleep 10 ;;
        download_status <- _get_download_status image_name ;;
        if String.eqb download_status "Downloaded" then ret download_status
        else if String.eqb download_status "Downloading" then
          t <- now ;;
          wait_loop f image_name start_time wait_upto (t - start_time)%Z
        else if String.eqb download_status "Failed" then ret download_status
        else wait_loop f image_name start_time wait_upto elapsed_time
      else raise (RuntimeError ("download took too long: " ++ image_name))
  end.

Definition _wait_till_download_complete (fuel : nat) (file_url : string)
    (wait_upto : Z) : M string :=
  go_to dev "fxos_state" ;;
  full_path <-
    (if PyStr.startswith file_url "scp" then
       match Re.search re_scp_url file_url with
       | Some (ms, _) => ret (re_scp_url_group3 ms)
       | None => raise (AssertionError ("unknown file_url: " ++ file_url))
       end
     else if PyStr.startswith file_url "tftp" then
       match Re.search re_tftp_url file_url with
       | Some (ms, _) => ret (re_tftp_url_group2 ms)
       | None => raise (AssertionError ("unknown file_url: " ++ file_url))
       end
     else raise (RuntimeError "Incorrect file url download protocol")) ;;
  let image_name := PyStr.basename full_path in
  start_time <- now ;;
  wait_loop fuel image_name start_time wait_upto 0.

Definition is_firmware_fp2k_ready (version : string) : M bool :=
  go_to dev "fxos_state" ;;
  output <- execute_lines dev
              (block 12 ["top"; "scope system";
                         "show firmware package-version | grep Package-Vers"]
               ++ nl ++ spaces 8) ;;
  match PyStr.split ":" output with
  | _ :: second :: _ =>
      let fprm_ver := PyStr.strip second in
      if negb (String.eqb fprm_ver version) then ret false else ret true
  | _ => raise IndexError
  end.

Definition download_cmd (fxos_url : string) : string := "download image " ++ fxos_url.

Definition download_failed_msg (fxos_url : string) : string :=
  "Download failed after " ++ PyStr.decimal (Z.to_nat MAX_RETRY_COUNT) ++
  " tries. Please check details again: " ++ fxos_url.

(** The [while retry_count > 0] loop of [download_ftd_fp2k]; [wait_fuel]
    is the allowance of each wait for the download to complete. *)
Fixpoint download_loop (fuel wait_fuel : nat) (fxos_url file_server_password : string)
    (retry_count : Z) : M unit :=
  match fuel with
  | O => fun _ => Unfinished
  | S f =>
      if (retry_count >? 0)%Z then
        execute_lines dev (block 16 ["top"; "scope firmware"] ++ nl ++ spaces 16) ;;
        sendline (download_cmd fxos_url) ;;
        sleep 5 ;;
        fxos_pattern <- get_state_pattern "fxos_state" ;;
        process dev
          [mkRule "continue connecting (yes/no)?" (Sendline "yes") None true false;
           mkRule "Password:" (Sendline file_server_password) None true false;
           mkRule fxos_pattern NoAction None false false]
          None ;;
        status <- _wait_till_download_complete wait_fuel fxos_url 1800 ;;
        if String.eqb status "Failed" then
          let retry_count := (retry_count - 1)%Z in
          if (retry_count =? 0)%Z
          then raise (RuntimeError (download_failed_msg fxos_url))
          else
            for_range 30 (sendline (chr 3) ;; sleep 10) ;;
            download_loop f wait_fuel fxos_url file_server_password retry_count
        else if String.eqb status "Downloaded" then ret tt
        else
          for_range 30 (sendline (chr 3) ;; sleep 10) ;;
          download_loop f wait_fuel fxos_url file_server_password retry_count
      else ret tt
  end.

Definition download_ftd_fp2k (fuel : nat) (fxos_url ftd_version file_server_password : string)
  : M unit :=
  let bundle_package_name := PyStr.strip (PyStr.last_item (PyStr.split "/" fxos_url)) in
  go_to dev "fxos_state" ;;
  ready <- is_firmware_fp2k_ready ftd_version ;;
  if ready then ret tt
  else
    execute_lines dev ("top" ++ nl ++ "scope firmware") ;;
    packages <- get_packages ;;
    if existsb (String.eqb bundle_package_name) (map pkg_name packages) then ret tt
    else download_loop fuel fuel fxos_url file_server_password MAX_RETRY_COUNT.

Definition wait_for_rommon (timeout : Z) : M unit :=
  rommon_pattern <- get_state_pattern "rommon_state" ;;
  process dev
    [mkRule "Boot in 10 seconds." (Sendline (chr 27)) None false false;
     mkRule rommon_pattern NoAction None false false]
    (Some timeout) ;;
  update_cur_state "rommon_state".

Definition version_mismatch_msg (response ftd_version : string) : string :=
  ">>>>>> show version result:" ++ nl ++ response ++ nl ++
  "does not match ftd package image: " ++ ftd_version.

Definition validate_version (ftd_version : string) : M unit :=
  response <- execute dev "show version" (Some 30%Z) ;;
  response <- (if String.eqb response EmptyString then execute dev "show version" (Some 30%Z)
               else ret response) ;;
  build <- match Re.search re_Build response with
           | Some (ms, _) => ret (re_Build_group1 ms)
           | None => raise IndexError
           end ;;
  version <- match Re.search re_Version response with
             | Some (ms, _) => ret (re_Version_group2 ms)
             | None => raise IndexError
             end ;;
  (if PyStr.contains build ftd_version && PyStr.contains version ftd_version
   then ret tt
   else raise (RuntimeError (version_mismatch_msg response ftd_version))) ;;
  go_to dev "fxos_state".

Definition format_goto_rommon (timeout : Z) : M unit :=
  sendline "connect local-mgmt" ;;
  sendline "format everything" ;;
  process dev
    [mkRule "Do you still want to format" (Sendline "yes") None false false]
    (Some 30%Z) ;;
  wait_for_rommon timeout.

Definition power_cycle_goto_rommon (timeout : Z)
    (power_bar_server power_bar_port power_bar_user power_bar_pwd : PyStr.t) : M unit :=
  cur <- read sm_current_state ;;
  if String.eqb cur "rommon_state" then ret tt
  else
    power_cycle power_bar_server power_bar_port false 600
      power_bar_user power_bar_pwd ;;
    wait_for_rommon timeout.

(** ['[a-zA-Z0-9_-]+[^\bLast \b] login:']: in a Python literal that is
    not raw, [\b] is the backspace character. *)
Definition login_pattern (suffix : string) : string :=
  "[a-zA-Z0-9_-]+[^" ++ chr 8 ++ "Last " ++ chr 8 ++ "]" ++ suffix.

Definition __change_password : M unit :=
  p <- read sm_patterns ;;
  match_output <-
    process dev
      [mkRule "You are required to change your password" NoAction None true false;
       mkRule "System is coming up" (Call [Sleep 60000]) None true false;
       mkRule (login_pattern " login:") (Sendline (login_username p)) None true false;
       mkRule "Password: " (Sendline (default_password p)) None true false;
       mkRule "Enter old password:" (Sendline (default_password p)) None true false;
       mkRule "Enter new password:" (Sendline (login_password p)) None true false;
       mkRule "Confirm new password:" (Sendline (login_password p)) None true false;
       mkRule "Your password (was|has been) updated successfully" NoAction None false false;
       mkRule (fxos_prompt (prompt p)) NoAction None false false]
      (Some 900%Z) ;;
  if PyStr.contains "updated successfully" match_output
  then update (with_change_password_flag true)
  else ret tt.

Definition rommon_factory_reset_and_format (boot_timeout format_timeout : Z) : M unit :=
  cur <- read sm_current_state ;;
  (if negb (String.eqb cur "rommon_state") then
     go_to dev "any" ;;
     power_cycle_goto_rommon format_timeout None None (Some "admn") (Some "admn")
   else ret tt) ;;
  sendline "set" ;;
  process dev
    [mkRule "rommon.*> " (Sendline "factory-reset") None true false;
     mkRule " yes/no .*:" (Sendline "yes") None false false]
    (Some 30%Z) ;;
  sendline "boot" ;;
  p <- read sm_patterns ;;
  res <- process dev
           [mkRule "[a-zA-Z0-9_-]+.*login: " (Sendline "admin") None true false;
            mkRule "Password: " (Sendline (default_password p)) None false false;
            mkRule "boot: cannot determine first file name on device" NoAction
              None false false]
           (Some boot_timeout) ;;
  if negb (PyStr.contains "boot: cannot determine first file name on device" res)
  then
    __change_password ;;
    init_terminal true ;;
    format_goto_rommon format_timeout
  else ret tt.

(** [es_list]: the expected pattern, the string to send and, when the
    entry has a third element, its timeout. *)
Fixpoint expect_and_sendline (es_list : list (string * string * option Z))
    (timeout : Z) : M unit :=
  match es_list with
  | [] => ret tt
  | (exp_pattern, send_string, third) :: rest =>
      let to := match third with Some t => t | None => timeout end in
      sendline send_string ;;
      expect dev exp_pattern to ;;
      expect_and_sendline rest timeout
  end.

(** The [for i in range(n)] of [rommon_configure], with its [else]. *)
Fixpoint ping_loop (n : nat) (tftp_server : string) : M unit :=
  match n with
  | O => raise (RuntimeError (">>>>>> Ping to " ++ tftp_server ++ " server not working"))
  | S m =>
      sendline ("ping " ++ tftp_server) ;;
      answered <- try_except
                    (expect dev "Success rate is 100 percent" 5 ;; ret true)
                    is_TimeoutError
                    (sleep 60 ;; ret false) ;;
      if answered then ret tt else ping_loop m tftp_server
  end.

Definition rommon_configure (tftp_server rommon_file uut_ip uut_netmask uut_gateway : string)
  : M unit :=
  expect_and_sendline
    [("rommon", "address " ++ uut_ip, None);
     ("rommon", "netmask " ++ uut_netmask, None);
     ("rommon", "gateway " ++ uut_gateway, None);
     ("rommon", "server " ++ tftp_server, None);
     ("rommon", "image " ++ rommon_file, None);
     ("rommon", "sync", None)]
    10 ;;
  ping_loop 20 tftp_server.

Definition rommon_tftp_download (tftp_server rommon_file username : string) (timeout : Z)
  : M unit :=
  p <- read sm_patterns ;;
  try_except
    (process dev
       [mkRule "rommon.*> " (Sendline "tftpdnld") None true false;
        mkRule (login_pattern " login: ") (Sendline username) None true false;
        mkRule "Password: " (Sendline (default_password p)) None false false]
       (Some timeout) ;;
     ret tt)
    any_exception
    (raise (RuntimeError ("Download failed. Please check details - tftp_server: "
                          ++ tftp_server ++ ", image file: " ++ rommon_file))) ;;
  __change_password ;;
  sendline EmptyString.

Definition install_rommon_build_fp2k
    (tftp_server rommon_file uut_ip uut_netmask uut_gateway username : string)
    (format_timeout : Z) : M unit :=
  cur <- read sm_current_state ;;
  (if negb (String.eqb cur "rommon_state")
   then format_goto_rommon format_timeout
   else rommon_factory_reset_and_format 300 format_timeout) ;;
  rommon_configure tftp_server rommon_file uut_ip uut_netmask uut_gateway ;;
  rommon_tftp_download tftp_server rommon_file username 600 ;;
  sleep 60 ;;
  init_terminal true.

Definition upgrade_bundle_package_fp2k
    (bundle_package_name ftd_version uut_hostname uut_password
     uut_ip uut_netmask uut_gateway dns_servers search_domains mode : string)
    (uut_ip6 uut_prefix uut_gateway6 : PyStr.t) (firewall_mode : string)
    (timeout : Z) : M unit :=
  go_to dev "fxos_state" ;;
  execute_lines dev
    (block 12 ["top"; "scope firmware"; "scope auto-install"] ++ nl ++ spaces 8) ;;
  version <- match Re.search re_version_build ftd_version with
             | Some (ms, _) => ret (re_version_build_group0 ms)
             | None => raise AttributeError
             end ;;
  sendline ("install security-pack version " ++ version) ;;
  p <- read sm_patterns ;;
  resp <- process dev
    [mkRule "Invalid Software Version" NoAction None false false;
     mkRule "Do you want to proceed" (Sendline "yes") None true false;
     mkRule ("Triggered the install of software package version " ++ ftd_version)
       NoAction None true false;
     mkRule "Stopping Cisco Firepower 21[1-4]0 Threat Defense" NoAction None true false;
     mkRule "Rebooting..." NoAction None true false;
     mkRule "Cisco FTD begins installation ..." NoAction None true false;
     mkRule "Cisco FTD installation finished successfully." NoAction None true false;
     mkRule "Cisco FTD initialization finished successfully." NoAction None true false;
     mkRule "INFO: Power-On Self-Test complete." NoAction None true false;
     mkRule "INFO: SW-DRBG health test passed." NoAction None true false;
     mkRule "Failed logins since the last login:" NoAction None false false;
     mkRule (rommon_prompt (prompt p)) (Sendline "boot") None true false]
    (Some timeout) ;;
  (if PyStr.contains "Invalid Software Version" resp
   then raise (RuntimeError
                 "Invalid Software Version,  please check your installation package")
   else ret tt) ;;
  changed <- read change_password_flag ;;
  let fxos_login_password :=
    if changed then login_password p else default_password p in
  sendline EmptyString ;;
  process dev
    [mkRule (login_pattern " login: ") (Sendline "admin") None true false;
     mkRule "Password: " (Sendline fxos_login_password) None true false;
     mkRule "firepower.*#" (Sendline "connect ftd") None true false;
     mkRule "Press <ENTER> to display the EULA: " (Sendline EmptyString) None false false]
    (Some 180%Z) ;;
  process dev
    [mkRule "--More--" (Send "q") None false false;
     mkRule "Please enter 'YES' or press <ENTER> to AGREE to the EULA: "
       (Sendline EmptyString) None false false]
    (Some 180%Z) ;;
  process dev
    [mkRule "Please enter 'YES' or press <ENTER> to AGREE to the EULA: "
       (Sendline "YES") None true false;
     mkRule "Enter new password:" (Sendline uut_password) None true false;
     mkRule "Confirm new password:" (Sendline uut_password) None true false;
     mkRule "You must configure the network to continue." NoAction None false false]
    (Some 360%Z) ;;
  let d5 :=
    ([mkRule "Do you want to configure IPv4" (Sendline "y") None true false] ++
     [match uut_ip6 with
      | None => mkRule "Do you want to configure IPv6" (Sendline "n") None true false
      | Some _ => mkRule "Do you want to configure IPv6" (Sendline "y") None true false
      end] ++
     [mkRule "Configure IPv4 via DHCP or manually" (Sendline "manual") None true false;
      mkRule "Enter an IPv4 address for the management interface"
        (Sendline uut_ip) None true false;
      mkRule "Enter an IPv4 netmask for the management interface"
        (Sendline uut_netmask) None true false;
      mkRule "Enter the IPv4 default gateway for the management interface"
        (Sendline uut_gateway) None true false] ++
     match uut_ip6 with
     | None => []
     | Some ip6 =>
         [mkRule "Configure IPv6 via DHCP, router, or manually"
            (Sendline "manual") None true false;
          mkRule "Enter the IPv6 address for the management interface"
            (Sendline ip6) None true false;
          mkRule "Enter the IPv6 address prefix for the management interface"
            (Sendline (fmt uut_prefix)) None true false;
          mkRule "Enter the IPv6 gateway for the management interface"
            (Sendline (fmt uut_gateway6)) None true false]
     end ++
     [mkRule "Enter a fully qualified hostname for this system "
        (Sendline uut_hostname) None true false;
      mkRule "Enter a comma-separated list of DNS servers or"
        (Sendline dns_servers) None true false;
      mkRule "Enter a comma-separated list of search domains or"
        (Sendline search_domains) None false false])%list in
  process dev d5 (Some 600%Z) ;;
  let d6 :=
    ([mkRule "Configure (firewall|deployment) mode" (Sendline firewall_mode)
        None true false] ++
     [if String.eqb mode "local"
      then mkRule "Manage the device locally?" (Sendline "yes") None true false
      else mkRule "Manage the device locally?" (Sendline "no") None true false] ++
     [mkRule "Successfully performed firstboot initial configuration steps"
        (Sendline EmptyString) None true false;
      mkRule (fireos_prompt (prompt p)) (Sendline EmptyString) None false false])%list in
  process dev d6 (Some 900%Z) ;;
  ret tt.

Definition configure_manager (manager manager_key manager_nat_id : PyStr.t) : M unit :=
  response <-
    match manager_nat_id with
    | None =>
        execute dev ("configure manager add " ++ fmt manager ++ " " ++ fmt manager_key)
          (Some 120%Z)
    | Some nat_id =>
        execute dev ("configure manager add " ++ fmt manager ++ " " ++ fmt manager_key
                     ++ " " ++ nat_id)
          (Some 120%Z)
    end ;;
  if PyStr.contains "Manager successfully configured" response then ret tt
  else raise (RuntimeError (">>>>>> configure manager failed:" ++ nl ++ response ++ nl)).

Definition cmd_lines_initial (dns_server domain uut_ip uut_netmask uut_gateway : string)
  : string :=
  block 12 ["top"; "scope system"] ++
  block 16 ["scope services"] ++
  block 20 ["disable dhcp-server"; "create dns " ++ dns_server;
            "set domain-name " ++ domain; "show dns"; "show domain-name"] ++
  block 12 ["scope fabric a"] ++
  block 16 ["show detail";
            "set out-of-band static ip " ++ uut_ip ++ " netmask  " ++ uut_netmask
            ++ " gw " ++ uut_gateway;
            "commit-buffer"; "show detail"; "top"] ++
  block 12 ["scope system"] ++
  block 16 ["scope services"] ++
  block 20 ["show dns"; "show domain-name"; "top"] ++
  nl ++ spaces 12.

Definition baseline_fp2k_ftd (fuel : nat)
    (tftp_server rommon_file uut_hostname uut_username uut_password
     uut_ip uut_netmask uut_gateway dns_servers search_domains
     fxos_url ftd_version file_server_password : string)
    (power_cycle_flag : bool) (mode : string)
    (uut_ip6 uut_prefix uut_gateway6 manager manager_key manager_nat_id : PyStr.t)
    (firewall_mode : string) (timeout reboot_timeout : Z) : M unit :=
  publish_kick_metric "device.kp.baseline" 1 ;;
  (if power_cycle_flag then
     power_cycle_goto_rommon reboot_timeout None None (Some "admn") (Some "admn") ;;
     rommon_factory_reset_and_format 300 reboot_timeout
   else ret tt) ;;
  install_rommon_build_fp2k tftp_server rommon_file uut_ip uut_netmask uut_gateway
    uut_username reboot_timeout ;;
  let dns_server := hd EmptyString (PyStr.split "," dns_servers) in
  let domain := after_first_dot uut_hostname in
  let domain := if String.eqb domain EmptyString then search_domains else domain in
  execute_lines dev (cmd_lines_initial dns_server domain uut_ip uut_netmask uut_gateway) ;;
  download_ftd_fp2k fuel fxos_url ftd_version file_server_password ;;
  let bundle_package := PyStr.strip (PyStr.last_item (PyStr.split "/" fxos_url)) in
  upgrade_bundle_package_fp2k bundle_package ftd_version uut_hostname uut_password
    uut_ip uut_netmask uut_gateway dns_servers search_domains mode
    uut_ip6 uut_prefix uut_gateway6 firewall_mode timeout ;;
  go_to dev "any" ;;
  go_to dev "fireos_state" ;;
  (match manager with
   | Some _ =>
       if negb (String.eqb mode "local")
       then configure_manager manager manager_key manager_nat_id
       else ret tt
   | None => ret tt
   end) ;;
  validate_version ftd_version.
End KpLine.

(** ** Kp.__init__ *)

(** What the constructor leaves behind: the attributes of the device
    object and the module-level [KpConstants]. *)
Inductive LineClass : Type := KpLineClass | WmLineClass.

Record DeviceObject : Type := {
  default_timeout : Z;
  patterns : KpPatterns;
  machine : Machine;
  line_class : LineClass
  }.

Record KpConstants : Type := {
  const_power_bar_server : PyStr.t;
  const_power_bar_port : PyStr.t;
  const_power_bar_user : PyStr.t;
  const_power_bar_pwd : PyStr.t
  }.

Section KpInit.
(** [KpPatterns(hostname, login_username, login_password, sudo_password,
    config_hostname)], [Ftd5500xDialog(patterns)] and
    [KpStatements(patterns).login_password]: constructors of modules
    that are not among these sources. *)
Variable make_patterns : string -> string -> string -> string -> string -> KpPatterns.
Variable make_ftd_dialogs : KpPatterns -> Ftd5500xDialog.
Variable make_login_statement : KpPatterns -> Rule.

(** [published] is what has been sent to the metrics sink and the base
    class so far, the most recent first. *)
Definition Kp_init (hostname login_username login_password sudo_password : string)
    (power_bar_server power_bar_port power_bar_user power_bar_pwd : PyStr.t)
    (config_hostname : string) (published : list Event)
  : DeviceObject * KpConstants * list Event :=
  let published := EvBasicDeviceInit :: published in
  let published := EvMetric "device.kp.init" 1 :: published in
  let pats := make_patterns hostname login_username login_password sudo_password
                config_hostname in
  ({| default_timeout := DEFAULT_TIMEOUT;
      patterns := pats;
      machine := create pats (make_ftd_dialogs pats) (make_login_statement pats);
      line_class := KpLineClass |},
   {| const_power_bar_server := power_bar_server;
      const_power_bar_port := power_bar_port;
      const_power_bar_user := power_bar_user;
      const_power_bar_pwd := power_bar_pwd |},
   published).
End KpInit.

End Kp.

(* ===================================================================== *)
(** * wm/actions/wm.py: Wm and WmLine *)
(* ===================================================================== *)

Module Wm.
Import Dialogs StateMachine Console.
Local Open Scope line_scope.

Definition MAX_RETRY_COUNT : Z := 3.
Definition DEFAULT_TIMEOUT : Z := 60.

Section WmInit.
Variable make_patterns : string -> string -> string -> string -> string -> KpPatterns.
(** [WmStateMachine(patterns)] (wm/actions/statemachine.py, not among
    these sources) *)
Variable WmStateMachine : KpPatterns -> Machine.

(** [super(Kp, self).__init__()] skips [Kp.__init__] and runs the
    constructor of the base class. *)
Definition Wm_init (hostname login_username login_password sudo_password : string)
    (config_hostname : string) (published : list Event)
  : Kp.DeviceObject * list Event :=
  let published := EvBasicDeviceInit :: published in
  let published := EvMetric "device.wm.init" 1 :: published in
  let pats := make_patterns hostname login_username login_password sudo_password
                config_hostname in
  ({| Kp.default_timeout := DEFAULT_TIMEOUT;
      Kp.patterns := pats;
      Kp.machine := WmStateMachine pats;
      Kp.line_class := Kp.WmLineClass |},
   published).
End WmInit.

Section WmLine.
Variable dev : Device.

(** [WmLine.baseline]: [super().baseline_fp2k_ftd(...)] is the method
    of [KpLine]. *)
Definition baseline (fuel : nat)
    (tftp_server rommon_file uut_hostname uut_username uut_password
     uut_ip uut_netmask uut_gateway dns_servers search_domains
     fxos_url ftd_version file_server_password : string)
    (power_cycle_flag : bool) (mode : string)
    (uut_ip6 uut_prefix uut_gateway6 manager manager_key manager_nat_id : PyStr.t)
    (firewall_mode : string) (timeout reboot_timeout : Z) : M unit :=
  publish_kick_metric "device.wm.baseline" 1 ;;
  Kp.baseline_fp2k_ftd dev fuel tftp_server rommon_file uut_hostname uut_username
    uut_password uut_ip uut_netmask uut_gateway dns_servers search_domains
    fxos_url ftd_version file_server_password power_cycle_flag mode
    uut_ip6 uut_prefix uut_gateway6 manager manager_key manager_nat_id
    firewall_mode timeout reboot_timeout.
End WmLine.

End Wm.

(* ===================================================================== *)
(** * Notions used to state the properties *)
(* ===================================================================== *)

Module Notions.
Import Dialogs StateMachine Console Kp.
Local Open Scope line_scope.

(** ** Dialog runs *)

(** The effects of executing rule [k] of a dialog. *)
Definition effects_of (ctx : Context) (dialog : Dialog) (k : nat) : list Effect :=
  match nth_error dialog k with
  | Some r => match perform ctx (action r) with
              | inl effects => effects
              | inr _ => []
              end
  | None => []
  end.

Definition effects_of_all (ctx : Context) (dialog : Dialog)
    (done : list (nat * string)) : list Effect :=
  concat (map (fun e => effects_of ctx dialog (fst e)) done).

(** ** Routes in the state machine *)

(** An entry of the search is good when its Paths, read backwards, are a
    route from the origin to its state. *)
Definition good (ps : list Path) (origin : string) (e : entry) : Prop :=
  route ps origin (rev (snd e)) (fst e).

Definition names (sm : Machine) : list string := map name (states sm).

(** Number of Paths of the route found, if any. *)
Definition dist (sm : Machine) (a b : string) : option nat :=
  option_map (@length Path) (find_path sm a b).

(** Every state is at distance 0 from itself. *)
Definition diag_ok (sm : Machine) : bool :=
  forallb (fun b => match dist sm b b with Some O => true | _ => false end) (names sm).

(** For a Path [p] and a state [b], the source of [p] is at most one
    Path further from [b] than the target of [p]. *)
Definition triangle_ok (sm : Machine) : bool :=
  forallb (fun p =>
    forallb (fun b =>
      match dist sm (name (to_state p)) b with
      | Some n => match dist sm (name (from_state p)) b with
                  | Some m => (m <=? S n)%nat
                  | None => false
                  end
      | None => true
      end) (names sm)) (paths sm).

(** ** Traces *)

(** [grows P l l']: the line [l'] is [l] after some more events, all of
    them satisfying [P]; time has not gone backwards and the state machine
    is the same object. *)
Definition grows (P : Event -> Prop) (l l' : Line) : Prop :=
  (exists evs, trace l' = (evs ++ trace l)%list /\ Forall P evs) /\
  (clock l <= clock l')%Z /\ sm l' = sm l.

(** [adds P m]: however the call [m] ends, it has only added events that
    satisfy [P]. *)
Definition adds {A} (P : Event -> Prop) (m : M A) : Prop :=
  forall l,
    match m l with
    | Returned _ l' => grows P l l'
    | Raised _ l' => grows P l l'
    | Unfinished => True
    end.

(** What a call that returned or raised leaves behind. *)
Definition final {A} (o : Outcome A) : option Line :=
  match o with
  | Returned _ l => Some l
  | Raised _ l => Some l
  | Unfinished => None
  end.

(** Events other than sending a line and publishing a metric. *)
Definition quiet (e : Event) : Prop :=
  match e with
  | EvSendline _ | EvMetric _ _ => False
  | _ => True
  end.

Definition not_sendline (e : Event) : Prop :=
  match e with
  | EvSendline _ => False
  | _ => True
  end.

Definition not_metric (e : Event) : Prop :=
  match e with
  | EvMetric _ _ => False
  | _ => True
  end.

(** Number of status queries for an image among the events [h]. *)
Fixpoint polls (image_name : string) (h : list Event) : nat :=
  match h with
  | [] => O
  | EvExecute cmd None :: rest =>
      if String.eqb cmd (Kp.download_task_cmd image_name)
      then S (polls image_name rest) else polls image_name rest
  | _ :: rest => polls image_name rest
  end.

(** Number of events of [h] that publish the metric [m]. *)
Fixpoint published (m : string) (h : list Event) : nat :=
  match h with
  | [] => O
  | EvMetric m' _ :: rest =>
      if String.eqb m' m then S (published m rest) else published m rest
  | _ :: rest => published m rest
  end.

(** Number of times the line [text] was sent, among the events [h]. *)
Fixpoint sent_lines (text : string) (h : list Event) : nat :=
  match h with
  | [] => O
  | EvSendline t :: rest =>
      if String.eqb t text then S (sent_lines text rest) else sent_lines text rest
  | _ :: rest => sent_lines text rest
  end.

(** Number of [time.sleep(seconds)] among the events [h]. *)
Fixpoint sleeps (seconds : Z) (h : list Event) : nat :=
  match h with
  | [] => O
  | EvSleep s :: rest =>
      if Z.eqb s seconds then S (sleeps seconds rest) else sleeps seconds rest
  | _ :: rest => sleeps seconds rest
  end.

(** ** The download task *)

(** The dialog of [wait_for_rommon]. *)
Definition rommon_dialog (rommon_pattern : string) : Dialog :=
  [mkRule "Boot in 10 seconds." (Sendline (chr 27)) None false false;
   mkRule rommon_pattern NoAction None false false].

(** The version and the build that [validate_version] reads in the output
    of [show version]. *)
Definition shown_build (response : string) : option string :=
  match Re.search re_Build response with
  | Some (ms, _) => Some (re_Build_group1 ms)
  | None => None
  end.

Definition shown_version (response : string) : option string :=
  match Re.search re_Version response with
  | Some (ms, _) => Some (re_Version_group2 ms)
  | None => None
  end.

(** The image whose download [_wait_till_download_complete] follows, when
    the URL is one it accepts. *)
Definition image_of_url (file_url : string) : option string :=
  if PyStr.startswith file_url "scp" then
    match Re.search re_scp_url file_url with
    | Some (ms, _) => Some (PyStr.basename (re_scp_url_group3 ms))
    | None => None
    end
  else if PyStr.startswith file_url "tftp" then
    match Re.search re_tftp_url file_url with
    | Some (ms, _) => Some (PyStr.basename (re_tftp_url_group2 ms))
    | None => None
    end
  else None.

(** [reports dev img h status]: asked for the download task of [img] after
    the history [h], the device prints a text in which the driver reads
    the state [status]. *)
Definition reports (dev : Device) (img : string) (h : list Event) (status : string) : Prop :=
  exists out ms rest,
    on_execute dev h (download_task_cmd img) None = Ok out /\
    Re.search re_State out = Some (ms, rest) /\
    re_State_group1 ms = status.

(** [self.go_to('fxos_state')] always succeeds. *)
Definition reaches_fxos (dev : Device) : Prop :=
  forall h, exists s, on_go_to dev h "fxos_state" = Ok s.

(** The line after an exchange, after a sleep, after a successful
    [go_to('fxos_state')] and after one round of the polling loop. *)
Definition tick (dev : Device) (ev : Event) (l : Line) : Line :=
  with_clock (clock l + Z.of_nat (latency dev (trace l))) (with_trace (ev :: trace l) l).

Definition slept (n : Z) (l : Line) : Line :=
  with_clock (clock l + n) (with_trace (EvSleep n :: trace l) l).

Definition went (dev : Device) (l : Line) : Line :=
  with_current_state "fxos_state" (tick dev (EvGoTo "fxos_state") l).

Definition asked (dev : Device) (img : string) (l : Line) : Line :=
  tick dev (EvExecute (download_task_cmd img) None) (went dev l).

Definition after_poll (dev : Device) (img : string) (l : Line) : Line :=
  asked dev img (slept 10 l).

(** The state the driver reads when it queries the download task of [img]
    after the history [h], when the console answers and the answer shows
    one. *)
Definition status_at (dev : Device) (img : string) (h : list Event) : option string :=
  match on_execute dev h (download_task_cmd img) None with
  | Ok out =>
      match Re.search re_State out with
      | Some (ms, _) => Some (re_State_group1 ms)
      | None => None
      end
  | Fails _ => None
  end.

(** Events other than a query of the download task of [img] and a sleep. *)
Definition no_wait (img : string) (e : Event) : Prop :=
  match e with
  | EvExecute cmd None => String.eqb cmd (download_task_cmd img) = false
  | EvSleep _ => False
  | _ => True
  end.

(** What was read at the queries of the download task of [img] among the
    events [h], the most recent first. *)
Fixpoint states_read (dev : Device) (img : string) (h : list Event) : list (option string) :=
  match h with
  | [] => []
  | EvExecute cmd None :: rest =>
      if String.eqb cmd (download_task_cmd img)
      then status_at dev img rest :: states_read dev img rest
      else states_read dev img rest
  | _ :: rest => states_read dev img rest
  end.

End Notions.

(* ===================================================================== *)
(** * Scenarios: concrete devices and lines *)
(* ===================================================================== *)

Module Scenario.
Import Dialogs StateMachine Console Notions.

Definition prompts : KpPrompts := {|
  prelogin_prompt := "firepower login: ";
  fxos_prompt := "firepower#";
  fireos_prompt := "> ";
  expert_prompt := "admin@firepower:~\$";
  sudo_prompt := "root@firepower:~#";
  rommon_prompt := "rommon.*> ";
  local_mgmt_prompt := "firepower(local-mgmt)#";
  enable_prompt := "firepower# ";
  disable_prompt := "firepower> ";
  config_prompt := "firepower(config)#";
  password_prompt := "Password: "
  |}.

Definition patterns : KpPatterns := {|
  prompt := prompts;
  login_username := "admin";
  login_password := "cisco123";
  default_password := "Admin123";
  sudo_password := "cisco123"
  |}.

Definition no_ftd_dialogs : Ftd5500xDialog := {|
  ftd_d_expert_to_disable := [];
  ftd_d_enable_to_disable := [];
  ftd_d_disable_to_enable := [];
  ftd_d_endisable_to_conft := [];
  ftd_disable_to_enable := []
  |}.

Definition login_statement : Rule :=
  mkRule "Password: " (Sendline "cisco123") None true false.

Definition kp_machine : Machine := create patterns no_ftd_dialogs login_statement.

(** A fresh chassis line in the FXOS state, with the power bar unset. *)
Definition line0 : Line := {|
  trace := [];
  clock := 0;
  sm := kp_machine;
  sm_patterns := patterns;
  sm_current_state := "fxos_state";
  power_bar_server := Some EmptyString;
  power_bar_port := Some EmptyString;
  power_bar_user := Some "admn";
  power_bar_pwd := Some "admn";
  change_password_flag := false;
  chassis_line := true
  |}.

(** A device that answers every request at once; its download task is in
    the state [task h] and [show version] prints [version_text]. *)
Definition device (task : list Event -> string) (version_text : string)
    (firmware packages : string) : Device := {|
  on_go_to := fun _ target => Ok target;
  on_execute := fun h cmd _ =>
    if String.prefix "show download-task" cmd then Ok ("State: " ++ task h)
    else if String.eqb cmd "show version" then Ok version_text
    else if String.eqb cmd "show package" then Ok packages
    else Ok EmptyString;
  on_execute_lines := fun _ _ => Ok ("Package-Vers: " ++ firmware);
  on_execute_only := fun _ _ => Ok tt;
  on_expect := fun _ _ _ => Ok tt;
  on_process := fun _ _ _ => Ok EmptyString;
  on_power_cycle := fun _ _ _ _ _ => Ok true;
  latency := fun _ => O
  |}.

(** A device that does not answer at all: every wait times out. *)
Definition silent_device : Device := {|
  on_go_to := fun _ _ => Fails (StateMachineError "timeout");
  on_execute := fun _ _ _ => Fails TimeoutError;
  on_execute_lines := fun _ _ => Fails TimeoutError;
  on_execute_only := fun _ _ => Fails TimeoutError;
  on_expect := fun _ _ _ => Fails TimeoutError;
  on_process := fun _ _ _ => Fails TimeoutError;
  on_power_cycle := fun _ _ _ _ _ => Ok false;
  latency := fun _ => O
  |}.

Definition image : string := "cisco-ftd-fp2k.6.2.1-1088.SSA".
Definition url : string := "tftp://172.23.47.63/netboot/cisco-ftd-fp2k.6.2.1-1088.SSA".

Definition failing_download : Device :=
  device (fun _ => "Failed") "Version 6.2.1 (Build 1088)" "6.2.1-1052" EmptyString.

Definition endless_download : Device :=
  device (fun _ => "Downloading") "Version 6.2.1 (Build 1088)" "6.2.1-1052" EmptyString.

(** The task is reported as [Downloading] to the first three queries and
    as [Downloaded] from the fourth on. *)
Definition fourth_poll_download : Device :=
  device (fun h => if (polls image h <? 3)%nat then "Downloading" else "Downloaded")
    "Version 6.2.1 (Build 1088)" "6.2.1-1052" EmptyString.

(** A device whose download task stays in a state the driver does not
    know. *)
Definition pending_download : Device :=
  device (fun _ => "Pending") "Version 6.2.1 (Build 1088)" "6.2.1-1052" EmptyString.

(** The bundle is already installed. *)
Definition installed_device : Device :=
  device (fun _ => "Downloaded") "Version 6.2.1 (Build 1088)" "6.2.1-1088" EmptyString.

(** The bundle is not installed but already downloaded. *)
Definition downloaded_device : Device :=
  device (fun _ => "Downloaded") "Version 6.2.1 (Build 1088)" "6.2.1-1052"
    ("Name                 Package-Vers" ++ Kp.nl ++
     "-------------------- ------------" ++ Kp.nl ++
     "cisco-ftd-fp2k.6.2.1-1088.SSA 6.2.1-1088").

(** A device running version 6.2.1, build 117. *)
Definition build_117 : Device :=
  device (fun _ => "Downloaded") "Model : Cisco Firepower 2110 Threat Defense (77) Version 6.2.1 (Build 117)"
    "6.2.1-1052" EmptyString.

(** Example prompts of a chassis. *)
Definition chassis_prompts : ChassisPrompts :=
  {| c_password_prompt := "Password: ";
     c_fireos_prompt := "> ";
     c_expert_cli := "$ ";
     c_sudo_prompt := "# ";
     c_enable_prompt := "firepower# ";
     c_disable_prompt := "firepower> ";
     c_config_prompt := "(config)# " |}.

(** Three rules that all match the text [abc]. *)
Definition three_rules : Dialog :=
  [mkRule "a" (Sendline "first") None false false;
   mkRule "b" (Sendline "second") None false false;
   mkRule "c" (Sendline "third") None false false].

End Scenario.


(* ===================================================================== *)
(** * kp.py: wait_till *)
(* ===================================================================== *)

Module KpMore.
Import Dialogs StateMachine Console Kp.
Local Open Scope line_scope.

(** The [while elapsed_time < wait_upto] loop of [wait_till].
    [stop_func] stands for the call of the stop function on its
    arguments and the truth value of its result; [time.sleep] refuses a negative length with
    a [ValueError]. *)
Fixpoint wait_till_loop (fuel : nat) (stop_func : M bool) (message : string)
    (start_time wait_upto sleep_step elapsed_time : Z) : M unit :=
  match fuel with
  | O => fun _ => Unfinished
  | S f =>
      if (elapsed_time <? wait_upto)%Z then
        result <- stop_func ;;
        if result then ret tt
        else
          (if (sleep_step <? 0)%Z then raise ValueError else sleep sleep_step) ;;
          t <- now ;;
          wait_till_loop f stop_func message start_time wait_upto sleep_step
            (t - start_time)%Z
      else raise (RuntimeError message)
  end.

(** [wait_till(stop_func, stop_func_args, wait_upto, sleep_step)];
    [shown] is how [str.format] prints the function and its arguments in
    "{}({}) took too long to return True". *)
Definition wait_till (fuel : nat) (stop_func : M bool) (shown : string * string)
    (wait_upto sleep_step : Z) : M unit :=
  start_time <- now ;;
  wait_till_loop fuel stop_func
    (fst shown ++ "(" ++ snd shown ++ ") took too long to return True")
    start_time wait_upto sleep_step 0.

(** ** baseline_by_branch_and_version *)

(** [path.endswith(c)] for one character. *)
Fixpoint ends_with (c : ascii) (s : string) : bool :=
  match s with
  | EmptyString => false
  | String x EmptyString => Ascii.eqb x c
  | String _ rest => ends_with c rest
  end.

(** One step of [os.path.join]: an absolute component replaces what was
    joined so far, any other is added after a slash, which is left out
    when the path is empty or ends with one. *)
Definition join_step (path b : string) : string :=
  if PyStr.startswith b "/" then b
  else if String.eqb path EmptyString || ends_with "/" path then path ++ b
  else path ++ "/" ++ b.

(** [os.path.join] of a path and further components *)
Definition os_path_join (a : string) (p : list string) : string := fold_left join_step p a.

(** [files.remove(x)]: the first occurrence of [x] is taken out, a
    [ValueError] is raised when there is none. *)
Fixpoint list_remove (x : string) (files : list string) : option (list string) :=
  match files with
  | [] => None
  | f :: rest =>
      if String.eqb f x then Some rest
      else match list_remove x rest with
           | Some rest' => Some (f :: rest')
           | None => None
           end
  end.

(** The keyword arguments of a baseline, each given or absent; for the
    keys whose default is [None] the two are the same.  A key that the
    baseline does not have is a [TypeError] at the call and is not
    represented. *)
Record Kwargs : Type := {
  kw_ftd_version : PyStr.t;
  kw_search_domains : option string;
  kw_uut_hostname : option string;
  kw_uut_username : option string;
  kw_uut_password : option string;
  kw_file_server_password : option string;
  kw_power_cycle_flag : option bool;
  kw_mode : option string;
  kw_uut_ip6 : PyStr.t;
  kw_uut_prefix : PyStr.t;
  kw_uut_gateway6 : PyStr.t;
  kw_manager : PyStr.t;
  kw_manager_key : PyStr.t;
  kw_manager_nat_id : PyStr.t;
  kw_firewall_mode : option string;
  kw_timeout : option Z;
  kw_reboot_timeout : option Z
  }.

(** [kwargs.get(key, default)] *)
Definition get {A} (given : option A) (default : A) : A :=
  match given with
  | Some a => a
  | None => default
  end.

Section ByBranch.
Variable dev : Device.
(** The module-level flag [KICK_EXTERNAL]: true when the import of
    [kick.file_servers.file_servers] failed. *)
Variable KICK_EXTERNAL : bool.
(** [prepare_installation_files(site, device, branch, version)] of
    [kick.file_servers.file_servers] (not among these sources): the server,
    the tftp and scp prefixes and the files, or an exception. *)
Variable prepare_installation_files :
  string -> string -> string -> string -> Reply (string * string * string * list string).

(** [self.baseline_fp2k_ftd] called with the keyword arguments: the keys
    that the caller has not set take the defaults of the signature. *)
Definition baseline_fp2k_ftd_kwargs (fuel : nat)
    (tftp_server rommon_file uut_hostname uut_username uut_password
     uut_ip uut_netmask uut_gateway dns_servers search_domains
     fxos_url ftd_version : string) (kwargs : Kwargs) : M unit :=
  baseline_fp2k_ftd dev fuel tftp_server rommon_file uut_hostname uut_username
    uut_password uut_ip uut_netmask uut_gateway dns_servers search_domains
    fxos_url ftd_version
    (get (kw_file_server_password kwargs) EmptyString)
    (get (kw_power_cycle_flag kwargs) false)
    (get (kw_mode kwargs) "local")
    (kw_uut_ip6 kwargs) (kw_uut_prefix kwargs) (kw_uut_gateway6 kwargs)
    (kw_manager kwargs) (kw_manager_key kwargs) (kw_manager_nat_id kwargs)
    (get (kw_firewall_mode kwargs) "routed")
    (get (kw_timeout kwargs) 3600%Z)
    (get (kw_reboot_timeout kwargs) 300%Z).

(** [KpLine.baseline_by_branch_and_version] *)
Definition baseline_by_branch_and_version (fuel : nat)
    (site branch version uut_ip uut_netmask uut_gateway
     dns_server serverIp tftpPrefix scpPrefix : string) (docs : list string)
    (kwargs : Kwargs) : M unit :=
  prepared <-
    (if KICK_EXTERNAL then ret (serverIp, tftpPrefix, scpPrefix, docs)
     else match prepare_installation_files site "Kp" branch version with
          | Ok r => ret r
          | Fails e => raise e
          end) ;;
  let '(server_ip, tftp_prefix, scp_prefix, files) := prepared in
  rommon_file <-
    match filter (fun file => PyStr.startswith file "fxos-k8-fp2k-lfbff") files with
    | file :: _ => ret file
    | [] => raise (OtherError "Got list index out of range while getting fxos file")
    end ;;
  let rommon_image := os_path_join tftp_prefix [rommon_file] in
  files <- match list_remove rommon_file files with
           | Some rest => ret rest
           | None => raise ValueError
           end ;;
  pkg_file <- match files with
              | file :: _ => ret file
              | [] => raise IndexError
              end ;;
  let ftd_file := os_path_join ("tftp://" ++ server_ip) [tftp_prefix; pkg_file] in
  ftd_version <-
    (if negb (PyStr.truthy (kw_ftd_version kwargs)) then
       match Re.search re_version_build version with
       | Some (ms, _) => ret (re_version_build_group0 ms)
       | None => raise IndexError
       end
     else ret (fmt (kw_ftd_version kwargs))) ;;
  baseline_fp2k_ftd_kwargs fuel server_ip rommon_image
    (get (kw_uut_hostname kwargs) "firepower")
    (get (kw_uut_username kwargs) "admin")
    (get (kw_uut_password kwargs) "Admin123")
    uut_ip uut_netmask uut_gateway dns_server
    (get (kw_search_domains kwargs) "cisco.com")
    ftd_file ftd_version kwargs.
End ByBranch.

End KpMore.

(* ===================================================================== *)
(** * wm.py: baseline_by_branch_and_version *)
(* ===================================================================== *)

Module WmMore.
Import Dialogs StateMachine Console Kp KpMore.
Local Open Scope line_scope.

Section ByBranch.
Variable dev : Device.
(** The flag [KICK_EXTERNAL] of wm.py and [prepare_installation_files],
    as in kp.py. *)
Variable KICK_EXTERNAL : bool.
Variable prepare_installation_files :
  string -> string -> string -> string -> Reply (string * string * string * list string).

(** [self.baseline] called with the keyword arguments *)
Definition baseline_kwargs (fuel : nat)
    (tftp_server rommon_file uut_hostname uut_username uut_password
     uut_ip uut_netmask uut_gateway dns_servers search_domains
     fxos_url ftd_version : string) (kwargs : Kwargs) : M unit :=
  Wm.baseline dev fuel tftp_server rommon_file uut_hostname uut_username
    uut_password uut_ip uut_netmask uut_gateway dns_servers search_domains
    fxos_url ftd_version
    (get (kw_file_server_password kwargs) EmptyString)
    (get (kw_power_cycle_flag kwargs) false)
    (get (kw_mode kwargs) "local")
    (kw_uut_ip6 kwargs) (kw_uut_prefix kwargs) (kw_uut_gateway6 kwargs)
    (kw_manager kwargs) (kw_manager_key kwargs) (kw_manager_nat_id kwargs)
    (get (kw_firewall_mode kwargs) "routed")
    (get (kw_timeout kwargs) 3600%Z)
    (get (kw_reboot_timeout kwargs) 300%Z).

(** [WmLine.baseline_by_branch_and_version] *)
Definition baseline_by_branch_and_version (fuel : nat)
    (site branch version uut_ip uut_netmask uut_gateway
     dns_server serverIp tftpPrefix scpPrefix : string) (docs : list string)
    (kwargs : Kwargs) : M unit :=
  prepared <-
    (if KICK_EXTERNAL then ret (serverIp, tftpPrefix, scpPrefix, docs)
     else match prepare_installation_files site "wm" branch version with
          | Ok r => ret r
          | Fails e => raise e
          end) ;;
  let '(server_ip, tftp_prefix, scp_prefix, files) := prepared in
  rommon_file <-
    match filter (fun file => PyStr.startswith file "fxos-k8-fp2k-lfbff") files with
    | file :: _ => ret file
    | [] => raise (OtherError "Got list index out of range while getting fxos file")
    end ;;
  let rommon_image := os_path_join tftp_prefix [rommon_file] in
  files <- match list_remove rommon_file files with
           | Some rest => ret rest
           | None => raise ValueError
           end ;;
  pkg_file <- match files with
              | file :: _ => ret file
              | [] => raise IndexError
              end ;;
  let ftd_file := os_path_join ("tftp://" ++ server_ip) [tftp_prefix; pkg_file] in
  ftd_version <-
    (if negb (PyStr.truthy (kw_ftd_version kwargs)) then
       match Re.search re_version_build version with
       | Some (ms, _) => ret (re_version_build_group0 ms)
       | None => raise IndexError
       end
     else ret (fmt (kw_ftd_version kwargs))) ;;
  baseline_kwargs fuel server_ip rommon_image
    (get (kw_uut_hostname kwargs) "firepower")
    (get (kw_uut_username kwargs) "admin")
    (get (kw_uut_password kwargs) "Admin123")
    uut_ip uut_netmask uut_gateway dns_server
    (get (kw_search_domains kwargs) "cisco.com")
    ftd_file ftd_version kwargs.
End ByBranch.

End WmMore.

(* ===================================================================== *)
(** * More notions *)
(* ===================================================================== *)

Module MoreNotions.
Import Dialogs StateMachine Console Kp KpMore Notions.
Local Open Scope line_scope.

(** The states other than [rommon_state] are within [bound] Paths of one
    another, as the search finds them. *)
Definition within (sm : Machine) (bound : nat) : bool :=
  forallb (fun a =>
    forallb (fun b =>
      if String.eqb a "rommon_state" || String.eqb b "rommon_state" then true
      else match find_path sm a b with
           | Some r => (length r <=? bound)%nat
           | None => false
           end) (names sm)) (names sm).

(** The guard that opens [power_cycle]. *)
Definition no_power_bar (l : Line) (server port : PyStr.t) : bool :=
  (negb (PyStr.truthy (power_bar_server l)) && negb (PyStr.truthy server))
  || PyStr.is_empty_str server
  || (negb (PyStr.truthy (power_bar_port l)) && negb (PyStr.truthy port))
  || PyStr.is_empty_str port.

(** The settings [power_cycle] works with once past its guard. *)
Definition power_bar_in_use (l : Line) (server port user pwd : PyStr.t) : Line :=
  if PyStr.truthy server || PyStr.truthy port
  then with_power_bar server port user pwd l
  else l.

(** The two [go_to] that open [init_terminal]. *)
Definition find_fxos (dev : Device) (determine_state : bool) : M bool :=
  (if determine_state then go_to dev "any" else ret tt) ;;
  go_to dev "fxos_state" ;;
  ret true.

(** The commands executed through [execute_only], oldest first. *)
Fixpoint executed_only (h : list Event) : list string :=
  match h with
  | [] => []
  | EvExecuteOnly cmd :: rest => (executed_only rest ++ [cmd])%list
  | _ :: rest => executed_only rest
  end.

(** What [expect_and_sendline] does with one entry of its list: the
    string is sent, then the pattern is expected. *)
Definition es_events (timeout : Z) (es : string * string * option Z) : list Event :=
  let '(exp_pattern, send_string, third) := es in
  [EvSendline send_string;
   EvExpect exp_pattern (match third with Some t => t | None => timeout end)].

(** The events of a list of entries, oldest first. *)
Definition es_script (timeout : Z) (es_list : list (string * string * option Z))
  : list Event :=
  flat_map (es_events timeout) es_list.

(** The answer of the device to the expect of the entry number [j],
    counted from 0, when the entries before it were worked through after
    the history [h]: the string of the entry is the last thing sent. *)
Definition es_reply (dev : Device) (timeout : Z)
    (es_list : list (string * string * option Z)) (h : list Event) (j : nat)
  : option (Reply unit) :=
  match nth_error es_list j with
  | Some (exp_pattern, send_string, third) =>
      Some (on_expect dev
              (EvSendline send_string
               :: rev (es_script timeout (firstn j es_list)) ++ h)%list
              exp_pattern (match third with Some t => t | None => timeout end))
  | None => None
  end.

(** The ping of [rommon_configure] and the answer it waits for. *)
Definition ping_cmd (tftp_server : string) : string := "ping " ++ tftp_server.
Definition ping_answer : string := "Success rate is 100 percent".

(** The line after one ping that was not answered in time. *)
Definition after_lost_ping (dev : Device) (tftp_server : string) (l : Line) : Line :=
  slept 60 (tick dev (EvExpect ping_answer 5)
              (with_trace (EvSendline (ping_cmd tftp_server) :: trace l) l)).

(** Events other than sending the line [text]. *)
Definition not_the_line (text : string) (e : Event) : Prop :=
  match e with
  | EvSendline t => String.eqb t text = false
  | _ => True
  end.

(** [sends_at_most text n m l]: however the call [m] ends when started on
    the line [l], it has sent the line [text] at most [n] times. *)
Definition sends_at_most {A} (text : string) (n : nat) (m : M A) (l : Line) : Prop :=
  forall l', final (m l) = Some l' ->
             sent_lines text (trace l') <= sent_lines text (trace l) + n.

(** [c in s] for one character. *)
Fixpoint has_char (c : ascii) (s : string) : bool :=
  match s with
  | EmptyString => false
  | String c' rest => Ascii.eqb c' c || has_char c rest
  end.

(** ** The package table *)

Fixpoint no_space (s : string) : bool :=
  match s with
  | EmptyString => true
  | String c rest => negb (PyStr.isspace c) && no_space rest
  end.

(** A name or a version as the table shows it: not empty, without white
    space and without two hyphens in a row. *)
Definition plain (s : string) : bool :=
  negb (String.eqb s EmptyString) && no_space s && negb (PyStr.contains "--" s).

Definition listed (p : Package) : bool := plain (pkg_name p) && plain (pkg_version p).

(** A row of the table: the name, one blank and [gap] more, the version. *)
Definition row (gap : nat) (p : Package) : string :=
  pkg_name p ++ spaces (S gap) ++ pkg_version p.

(** The rows of the table, one per line; every package comes with the
    number of blanks that bring its version to its column. *)
Fixpoint rows (table : list (nat * Package)) : string :=
  match table with
  | [] => EmptyString
  | [gp] => row (fst gp) (snd gp)
  | gp :: rest => row (fst gp) (snd gp) ++ nl ++ rows rest
  end.

(** ** The states of the download task *)

(** What was read at a query keeps [_wait_till_download_complete]
    waiting: a state other than [Downloaded] and [Failed]. *)
Definition keeps_waiting (s : option string) : Prop :=
  match s with
  | Some w => w <> "Downloaded" /\ w <> "Failed"
  | None => False
  end.

(** A state that the polling loop does not test for. *)
Definition untested (w : string) : Prop :=
  w <> "Downloaded" /\ w <> "Downloading" /\ w <> "Failed".

(** ** The tests of wait_till *)

(** The line at which [wait_till] makes its test number [n], counted from
    0, when started on the line [l]: every test before it has answered
    false and was followed by a sleep of [step] seconds.  There is none
    when an earlier test holds, raises or does not come back. *)
Fixpoint nth_test (stop_func : M bool) (step : Z) (n : nat) (l : Line) : option Line :=
  match n with
  | O => Some l
  | S n' =>
      match nth_test stop_func step n' l with
      | Some l0 =>
          match stop_func l0 with
          | Returned false l1 => Some (slept step l1)
          | _ => None
          end
      | None => None
      end
  end.

(** ** The version handed to the baseline *)

(** The [ftd_version] that [baseline_by_branch_and_version] works with:
    the keyword argument when one is given that is not empty, else the
    version and build number read from [version]; none when [version]
    shows no build number. *)
Definition chosen_ftd_version (kwargs : Kwargs) (version : string) : option string :=
  if PyStr.truthy (kw_ftd_version kwargs) then Some (fmt (kw_ftd_version kwargs))
  else match Re.search re_version_build version with
       | Some (ms, _) => Some (re_version_build_group0 ms)
       | None => None
       end.

(** ** Registration with a manager *)

(** The event is a [configure manager add] command. *)
Definition registers_manager (e : Event) : bool :=
  match e with
  | EvExecute cmd _ => String.prefix "configure manager add" cmd
  | _ => false
  end.

Definition no_manager (e : Event) : Prop := registers_manager e = false.

(** Number of [configure manager add] commands among the events [h]. *)
Definition registrations (h : list Event) : nat := length (filter registers_manager h).

End MoreNotions.

(* ===================================================================== *)
(** * More scenarios *)
(* ===================================================================== *)

Module MoreScenario.
Import Dialogs StateMachine Console Notions MoreNotions.

(** In rommon every setting is acknowledged, but the tftp server does not
    answer the pings. *)
Definition deaf_server : Device := {|
  on_go_to := fun _ target => Ok target;
  on_execute := fun _ _ _ => Ok EmptyString;
  on_execute_lines := fun _ _ => Ok EmptyString;
  on_execute_only := fun _ _ => Ok tt;
  on_expect := fun _ pat _ =>
    if String.eqb pat "Success rate is 100 percent" then Fails TimeoutError else Ok tt;
  on_process := fun _ _ _ => Ok EmptyString;
  on_power_cycle := fun _ _ _ _ _ => Ok true;
  latency := fun _ => O
  |}.

(** The tftp server answers from the third ping on. *)
Definition third_ping_answered : Device := {|
  on_go_to := fun _ target => Ok target;
  on_execute := fun _ _ _ => Ok EmptyString;
  on_execute_lines := fun _ _ => Ok EmptyString;
  on_execute_only := fun _ _ => Ok tt;
  on_expect := fun h pat _ =>
    if String.eqb pat "Success rate is 100 percent"
    then if (sent_lines "ping 10.89.23.30" h <? 3)%nat then Fails TimeoutError else Ok tt
    else Ok tt;
  on_process := fun _ _ _ => Ok EmptyString;
  on_power_cycle := fun _ _ _ _ _ => Ok true;
  latency := fun _ => O
  |}.

(** The task is shown as [Unpacking] to the first two queries and as
    [Downloaded] from the third on. *)
Definition third_poll_download : Device :=
  Scenario.device
    (fun h => if (polls Scenario.image h <? 2)%nat then "Unpacking" else "Downloaded")
    "Version 6.2.1 (Build 1088)" "6.2.1-1052" EmptyString.

(** The settings of a rommon that does not know the second one. *)
Definition three_settings : list (string * string * option Z) :=
  [("rommon", "ADDRESS=10.0.0.2", None);
   ("Success rate is 100 percent", "ping 10.89.23.30", Some 5%Z);
   ("rommon", "sync", None)].

(** A device that answers the firmware query with an error message. *)
Definition software_error : Device := {|
  on_go_to := fun _ target => Ok target;
  on_execute := fun _ _ _ => Ok EmptyString;
  on_execute_lines := fun _ _ => Ok "Software Error";
  on_execute_only := fun _ _ => Ok tt;
  on_expect := fun _ _ _ => Ok tt;
  on_process := fun _ _ _ => Ok EmptyString;
  on_power_cycle := fun _ _ _ _ _ => Ok true;
  latency := fun _ => O
  |}.

(** A device that answers every query with an error message. *)
Definition no_such_task : Device := {|
  on_go_to := fun _ target => Ok target;
  on_execute := fun _ _ _ => Ok "Error: Managed object does not exist";
  on_execute_lines := fun _ _ => Ok EmptyString;
  on_execute_only := fun _ _ => Ok tt;
  on_expect := fun _ _ _ => Ok tt;
  on_process := fun _ _ _ => Ok EmptyString;
  on_power_cycle := fun _ _ _ _ _ => Ok true;
  latency := fun _ => O
  |}.

(** A device with two packages, the FTD bundle and the FXOS image; the
    versions are shown in one column. *)
Definition two_packages : Device :=
  Scenario.device (fun _ => "Downloaded") "Version 6.2.1 (Build 1088)" "6.2.1-1052"
    ("Name                                          Package-Vers" ++ Kp.nl ++
     "--------------------------------------------- ------------" ++ Kp.nl ++
     "cisco-ftd-fp2k.6.2.1-1088.SSA                 6.2.1-1088" ++ Kp.nl ++
     "fxos-k8-fp2k-lfbff.82.2.1.386i.SSA            82.2(1.386i)").

(** A device whose [show version] prints no build. *)
Definition no_build : Device :=
  Scenario.device (fun _ => "Downloaded") "Cisco Firepower Version 6.2.1" "6.2.1-1052"
    EmptyString.

(** A condition that holds from the 25th second on. *)
Definition after_25_seconds : M bool := read (fun l => (25 <=? clock l)%Z).

(** No keyword argument given. *)
Definition no_kwargs : KpMore.Kwargs := {|
  KpMore.kw_ftd_version := None;
  KpMore.kw_search_domains := None;
  KpMore.kw_uut_hostname := None;
  KpMore.kw_uut_username := None;
  KpMore.kw_uut_password := None;
  KpMore.kw_file_server_password := None;
  KpMore.kw_power_cycle_flag := None;
  KpMore.kw_mode := None;
  KpMore.kw_uut_ip6 := None;
  KpMore.kw_uut_prefix := None;
  KpMore.kw_uut_gateway6 := None;
  KpMore.kw_manager := None;
  KpMore.kw_manager_key := None;
  KpMore.kw_manager_nat_id := None;
  KpMore.kw_firewall_mode := None;
  KpMore.kw_timeout := None;
  KpMore.kw_reboot_timeout := None
  |}.

(** A file server that is never asked. *)
Definition no_file_server (site device branch version : string)
  : Reply (string * string * string * list string) :=
  Fails (OtherError "no file server").

End MoreScenario.

(* ===================================================================== *)
(** * Facts about the line monad *)
(* ===================================================================== *)

Module ConsoleFacts.
Import Dialogs StateMachine Console Notions.
Local Open Scope line_scope.

Lemma grows_refl P l : grows P l l.
Proof. split; [exists []; split; [reflexivity | constructor] | split; [lia | reflexivity]]. Qed.

Lemma grows_same P l l' :
  trace l' = trace l -> clock l' = clock l -> sm l' = sm l -> grows P l l'.
Proof.
  intros Ht Hc Hs.
  split; [exists []; split; [now rewrite Ht | constructor] | split; [lia | exact Hs]].
Qed.

Lemma grows_trans P l1 l2 l3 : grows P l1 l2 -> grows P l2 l3 -> grows P l1 l3.
Proof.
  intros [[e1 [H1 F1]] [C1 S1]] [[e2 [H2 F2]] [C2 S2]].
  split; [|split; [lia | congruence]].
  exists (e2 ++ e1)%list. split.
  - rewrite H2, H1. now rewrite app_assoc.
  - apply Forall_app. now split.
Qed.

Lemma grows_weaken (P Q : Event -> Prop) l l' :
  (forall e, P e -> Q e) -> grows P l l' -> grows Q l l'.
Proof.
  intros HPQ [[evs [H F]] C]. split; [|exact C].
  exists evs. split; [exact H|]. eapply Forall_impl; eauto.
Qed.

Lemma adds_weaken {A} (P Q : Event -> Prop) (m : M A) :
  (forall e, P e -> Q e) -> adds P m -> adds Q m.
Proof.
  intros HPQ H l. specialize (H l). destruct (m l); auto; eapply grows_weaken; eauto.
Qed.

Lemma adds_ret {A} P (a : A) : adds P (ret a).
Proof. intros l. apply grows_refl. Qed.

Lemma adds_raise {A} P e : adds P (@raise A e).
Proof. intros l. apply grows_refl. Qed.

Lemma adds_read {A} P (f : Line -> A) : adds P (read f).
Proof. intros l. apply grows_refl. Qed.

Lemma adds_unfinished {A} P : adds P (fun _ : Line => @Unfinished A).
Proof. intros l. exact I. Qed.

Lemma adds_bind {A B} P (m : M A) (k : A -> M B) :
  adds P m -> (forall a, adds P (k a)) -> adds P (bind m k).
Proof.
  intros Hm Hk l. unfold bind. specialize (Hm l).
  destruct (m l) as [a l1|e l1|]; auto.
  specialize (Hk a l1). destruct (k a l1); auto; eapply grows_trans; eauto.
Qed.

Lemma adds_try {A} P (m : M A) catches handler :
  adds P m -> adds P handler -> adds P (try_except m catches handler).
Proof.
  intros Hm Hh l. unfold try_except. specialize (Hm l).
  destruct (m l) as [a l1|e l1|]; auto.
  destruct (catches e); auto.
  specialize (Hh l1). destruct (handler l1); auto; eapply grows_trans; eauto.
Qed.

Lemma adds_update_state P s : adds P (update (with_current_state s)).
Proof. intros l. now apply grows_same. Qed.

Lemma adds_update_power_bar P a b c d : adds P (update (with_power_bar a b c d)).
Proof. intros l. now apply grows_same. Qed.

Lemma adds_update_flag P b : adds P (update (with_change_password_flag b)).
Proof. intros l. now apply grows_same. Qed.

Lemma adds_emit P ev : P ev -> adds P (emit ev).
Proof.
  intros H l. unfold emit, update. split; [|split; [cbn; lia | reflexivity]].
  exists [ev]. split; [reflexivity|]. constructor; [exact H | constructor].
Qed.

Lemma adds_exchange {A} dev P ev (answer : list Event -> Reply A) :
  P ev -> adds P (exchange dev ev answer).
Proof.
  intros H l. unfold exchange.
  assert (G : grows P l (with_clock (clock l + Z.of_nat (latency dev (trace l)))
                           (with_trace (ev :: trace l) l))).
  { split; [|split; [cbn; lia | reflexivity]]. exists [ev]. split; [reflexivity|].
    constructor; [exact H | constructor]. }
  destruct (answer (trace l)); exact G.
Qed.

Lemma adds_sleep P n : P (EvSleep n) -> (0 <= n)%Z -> adds P (sleep n).
Proof.
  intros H Hn l. unfold sleep, update. split; [|split; [cbn; lia | reflexivity]].
  exists [EvSleep n]. split; [reflexivity|]. constructor; [exact H | constructor].
Qed.

Lemma adds_go_to dev P target : P (EvGoTo target) -> adds P (go_to dev target).
Proof.
  intros H. unfold go_to. apply adds_bind.
  - now apply adds_exchange.
  - intros a. apply adds_update_state.
Qed.

Lemma adds_get_state_pattern P n : adds P (get_state_pattern n).
Proof.
  unfold get_state_pattern. apply adds_bind; [apply adds_read|].
  intros machine. destruct (get_state machine n); [apply adds_ret | apply adds_raise].
Qed.

Lemma adds_final {A} P (m : M A) l l' :
  adds P m -> final (m l) = Some l' -> grows P l l'.
Proof.
  intros H E. specialize (H l). destruct (m l); cbn in E; inversion E; subst; auto.
Qed.

End ConsoleFacts.

(* ===================================================================== *)
(** * Dialogs: the first matching rule wins *)
(* ===================================================================== *)

Module DialogFacts.
Import Dialogs Notions.

Section Engine.
Variable re_search : string -> string -> bool.

Lemma first_match_spec rules buffer : forall n k r,
  first_match re_search rules buffer n = Some (k, r) ->
  n <= k /\ nth_error rules (k - n) = Some r /\
  re_search (pattern r) buffer = true /\
  forall m rm, m < k - n -> nth_error rules m = Some rm ->
               re_search (pattern rm) buffer = false.
Proof.
  induction rules as [|r0 rules IH]; intros n k r H; cbn in H; [discriminate|].
  destruct (re_search (pattern r0) buffer) eqn:E.
  - inversion H; subst. rewrite Nat.sub_diag. repeat split; auto.
    intros m rm Hm. lia.
  - apply IH in H. destruct H as (Hle & Hnth & Hr & Hbefore).
    split; [lia|]. replace (k - n) with (S (k - S n)) by lia.
    split; [exact Hnth|]. split; [exact Hr|].
    intros [|m] rm Hm Hm'; cbn in Hm'.
    + now inversion Hm'; subst.
    + apply (Hbefore m); [lia | exact Hm'].
Qed.

Lemma first_match_exists rules buffer : forall n i ri,
  nth_error rules i = Some ri -> re_search (pattern ri) buffer = true ->
  exists k r, first_match re_search rules buffer n = Some (k, r) /\ k <= n + i.
Proof.
  induction rules as [|r0 rules IH]; intros n i ri Hi Hm.
  - destruct i; discriminate.
  - cbn. destruct (re_search (pattern r0) buffer) eqn:E.
    + exists n, r0. split; [reflexivity | lia].
    + destruct i as [|i]; cbn in Hi.
      * inversion Hi; subst. congruence.
      * destruct (IH (S n) i ri Hi Hm) as (k & r & Hk & Hle).
        exists k, r. split; [exact Hk | lia].
Qed.

Lemma fired_by_first_match dialog ctx : forall chunks buffer done out k buf,
  In (k, buf) (fired (run_from re_search dialog ctx buffer chunks done out)) ->
  In (k, buf) done \/ exists r, first_match re_search dialog buf 0 = Some (k, r).
Proof.
  induction chunks as [|chunk later IH]; intros buffer done out k buf H; cbn in H.
  - now left.
  - destruct (first_match re_search dialog (buffer ++ chunk) 0) as [[i r]|] eqn:E.
    + destruct (perform ctx (action r)) as [effects|key] eqn:Ep; cbn in H.
      * destruct (loop_continue r).
        -- apply IH in H. destruct H as [H|H]; [|now right].
           apply in_app_or in H. destruct H as [H|[H|[]]]; [now left|].
           inversion H; subst. right. now exists r.
        -- cbn in H. apply in_app_or in H. destruct H as [H|[H|[]]]; [now left|].
           inversion H; subst. right. now exists r.
      * now left.
    + apply IH in H. exact H.
Qed.

Lemma written_by_fired dialog ctx : forall chunks buffer done out,
  out = effects_of_all ctx dialog done ->
  written (run_from re_search dialog ctx buffer chunks done out) =
  effects_of_all ctx dialog
    (fired (run_from re_search dialog ctx buffer chunks done out)).
Proof.
  induction chunks as [|chunk later IH]; intros buffer done out Hout; cbn.
  - exact Hout.
  - destruct (first_match re_search dialog (buffer ++ chunk) 0) as [[i r]|] eqn:E.
    + assert (Hstep : forall effects, perform ctx (action r) = inl effects ->
                (out ++ effects)%list = effects_of_all ctx dialog (done ++ [(i, (buffer ++ chunk)%string)])).
      { intros effects Ep. unfold effects_of_all. rewrite map_app, concat_app. cbn.
        rewrite app_nil_r. unfold effects_of at 2.
        apply first_match_spec in E. destruct E as (_ & Hnth & _).
        rewrite Nat.sub_0_r in Hnth. rewrite Hnth, Ep. now rewrite Hout. }
      destruct (perform ctx (action r)) as [effects|key] eqn:Ep; cbn.
      * destruct (loop_continue r); cbn.
        -- apply IH. now apply Hstep.
        -- now apply Hstep.
      * exact Hout.
    + now apply IH.
Qed.

(** A run keeps what was executed and written before it. *)
Lemma run_from_extends dialog ctx : forall chunks buffer done out,
  exists more_fired more_written,
    fired (run_from re_search dialog ctx buffer chunks done out) =
    (done ++ more_fired)%list /\
    written (run_from re_search dialog ctx buffer chunks done out) =
    (out ++ more_written)%list.
Proof.
  induction chunks as [|chunk later IH]; intros buffer done out; cbn.
  - exists [], []. now rewrite !app_nil_r.
  - destruct (first_match re_search dialog (buffer ++ chunk) 0) as [[i r]|] eqn:E.
    + destruct (perform ctx (action r)) as [effects|key] eqn:Ep; cbn.
      * destruct (loop_continue r); cbn.
        -- destruct (IH EmptyString (done ++ [(i, (buffer ++ chunk)%string)])%list
                       (out ++ effects)%list) as (mf & mw & Hf & Hw).
           exists ((i, (buffer ++ chunk)%string) :: mf), (effects ++ mw)%list.
           rewrite Hf, Hw, <- !app_assoc. split; reflexivity.
        -- exists [(i, (buffer ++ chunk)%string)], effects. split; reflexivity.
      * exists [], []. now rewrite !app_nil_r.
    + apply IH.
Qed.

(** The step of a run at a chunk that completes a buffer some rule
    matches. *)
Lemma run_from_step dialog ctx buffer chunk later done out k Rk :
  first_match re_search dialog (buffer ++ chunk) 0 = Some (k, Rk) ->
  run_from re_search dialog ctx buffer (chunk :: later) done out =
  match perform ctx (action Rk) with
  | inl effects =>
      if loop_continue Rk
      then run_from re_search dialog ctx EmptyString later
             (done ++ [(k, (buffer ++ chunk)%string)]) (out ++ effects)
      else {| fired := done ++ [(k, (buffer ++ chunk)%string)];
              written := out ++ effects;
              result := inl {| matched_rule := k;
                               match_output := (buffer ++ chunk)%string |} |}
  | inr key => {| fired := done; written := out;
                  result := inr (ContextLookupError key) |}
  end.
Proof. intros H. cbn [run_from]. rewrite H. reflexivity. Qed.

Lemma run_from_step_extends dialog ctx buffer chunk later done out k Rk effects :
  first_match re_search dialog (buffer ++ chunk) 0 = Some (k, Rk) ->
  perform ctx (action Rk) = inl effects ->
  exists more_fired more_written,
    fired (run_from re_search dialog ctx buffer (chunk :: later) done out) =
    (done ++ (k, (buffer ++ chunk)%string) :: more_fired)%list /\
    written (run_from re_search dialog ctx buffer (chunk :: later) done out) =
    (out ++ effects ++ more_written)%list.
Proof.
  intros H Ep. rewrite (run_from_step _ _ _ _ _ _ _ _ _ H), Ep.
  destruct (loop_continue Rk).
  - destruct (run_from_extends dialog ctx later EmptyString
                (done ++ [(k, (buffer ++ chunk)%string)])%list (out ++ effects)%list)
      as (mf & mw & Hf & Hw).
    exists mf, mw. rewrite Hf, Hw, <- !app_assoc. split; reflexivity.
  - exists [], []. cbn [fired written]. now rewrite app_nil_r.
Qed.
End Engine.




End DialogFacts.

(* ===================================================================== *)
(** * The state machine: [go_to] follows a shortest route *)
(* ===================================================================== *)

Module StateMachineFacts.
Import Dialogs StateMachine Notions.

Lemma route_snoc ps a r s p :
  route ps a r s -> In p ps -> name (from_state p) = s ->
  route ps a (r ++ [p]) (name (to_state p)).
Proof.
  induction 1 as [a|q r b Hq Hr IH]; intros Hp Hfrom; cbn.
  - subst a. apply route_step; [exact Hp | apply route_here].
  - apply route_step; [exact Hq | now apply IH].
Qed.

Lemma route_ends ps a r b :
  route ps a r b -> a = b \/ exists p, In p ps /\ name (to_state p) = b.
Proof.
  induction 1 as [a|q r b Hq Hr IH]; [now left|].
  right. destruct IH as [E|IH]; [|exact IH]. exists q. now split.
Qed.

Section Search.
Variable ps : list Path.
Variable origin : string.

Local Abbreviation good := (Notions.good ps origin).

Lemma visit_good e acc p :
  good e -> In p ps -> Forall good (snd acc) -> Forall good (snd (visit e acc p)).
Proof.
  intros He Hp Hacc. destruct acc as [seen next]. unfold visit.
  destruct (String.eqb (name (from_state p)) (fst e) &&
            negb (mem (name (to_state p)) seen)) eqn:E; [|exact Hacc].
  cbn. apply Forall_app. split; [exact Hacc|]. constructor; [|constructor].
  unfold good. cbn. apply andb_prop in E. destruct E as [E _].
  apply String.eqb_eq in E. now apply route_snoc with (s := fst e).
Qed.

Lemma visits_good e : forall qs acc,
  good e -> incl qs ps -> Forall good (snd acc) ->
  Forall good (snd (fold_left (visit e) qs acc)).
Proof.
  induction qs as [|q qs IH]; intros acc He Hqs Hacc; cbn; [exact Hacc|].
  apply IH; [exact He | intros x Hx; apply Hqs; now right |].
  apply visit_good; [exact He | apply Hqs; now left | exact Hacc].
Qed.

Lemma expand_good : forall frontier acc,
  Forall good frontier -> Forall good (snd acc) ->
  Forall good (snd (fold_left (fun acc e => fold_left (visit e) ps acc) frontier acc)).
Proof.
  induction frontier as [|e frontier IH]; intros acc Hf Hacc; cbn; [exact Hacc|].
  inversion Hf; subst. apply IH; [assumption|].
  apply visits_good; [assumption | apply incl_refl | assumption].
Qed.

Lemma search_sound target : forall levels seen frontier r,
  Forall good frontier ->
  search ps levels seen frontier target = Some r ->
  route ps origin r target.
Proof.
  induction levels as [|levels IH]; intros seen frontier r Hf H; cbn in H.
  - destruct (find (fun e => String.eqb (fst e) target) frontier) as [e|] eqn:E;
      [|discriminate].
    inversion H; subst. apply find_some in E. destruct E as [Hin Heq].
    apply String.eqb_eq in Heq. rewrite Forall_forall in Hf.
    specialize (Hf e Hin). unfold good in Hf. now rewrite Heq in Hf.
  - destruct (find (fun e => String.eqb (fst e) target) frontier) as [e|] eqn:E.
    + inversion H; subst. apply find_some in E. destruct E as [Hin Heq].
      apply String.eqb_eq in Heq. rewrite Forall_forall in Hf.
      specialize (Hf e Hin). unfold good in Hf. now rewrite Heq in Hf.
    + pose proof (expand_good frontier (seen, []) Hf (Forall_nil _)) as Hnext.
      fold (expand ps seen frontier) in Hnext.
      destruct (expand ps seen frontier) as [seen' next]. cbn in Hnext.
      destruct next as [|e next]; [discriminate|].
      eapply IH; [exact Hnext | exact H].
Qed.
End Search.

Lemma find_path_sound sm a b r :
  find_path sm a b = Some r -> route (paths sm) a r b.
Proof.
  unfold find_path. apply search_sound.
  constructor; [|constructor]. unfold good. cbn. apply route_here.
Qed.

(** ** Shortest: a certificate checked by computation *)

Lemma dist_le_route sm :
  diag_ok sm = true -> triangle_ok sm = true ->
  forall a r b, route (paths sm) a r b -> In b (names sm) ->
                exists m, dist sm a b = Some m /\ m <= length r.
Proof.
  intros Hd Ht a r b Hr. unfold diag_ok in Hd. unfold triangle_ok in Ht.
  rewrite forallb_forall in Hd, Ht.
  induction Hr as [a|p r b Hp Hr IH]; intros Hb.
  - specialize (Hd a Hb). destruct (dist sm a a) as [[|n]|]; try discriminate.
    exists 0. split; [reflexivity | cbn; lia].
  - destruct (IH Hb) as (n & Hn & Hle).
    specialize (Ht p Hp). rewrite forallb_forall in Ht. specialize (Ht b Hb).
    rewrite Hn in Ht. destruct (dist sm (name (from_state p)) b) as [m|]; [|discriminate].
    apply Nat.leb_le in Ht. exists m. split; [reflexivity | cbn; lia].
Qed.

Lemma follow_route ps completes : forall r s b,
  route ps (current_state s) r b ->
  (forall p, In p r -> completes p = true) ->
  follow completes r s =
  Arrived {| current_state := b;
             executed := executed s ++ r;
             sent := sent s ++ map command r |}.
Proof.
  induction r as [|p r IH]; intros s b Hr Hc.
  - inversion Hr; subst. cbn. rewrite !app_nil_r. now destruct s.
  - inversion Hr; subst. cbn. rewrite (Hc p) by now left.
    rewrite (IH _ b); [|cbn; assumption | intros q Hq; apply Hc; now right].
    cbn. now rewrite <- !app_assoc.
Qed.

Section Kp.
Variable patterns : KpPatterns.
Variable ftd_dialogs : Ftd5500xDialog.
Variable login_password_statement : Rule.

Let kp : Machine := create patterns ftd_dialogs login_password_statement.

Lemma kp_diag_ok : diag_ok kp = true.
Proof. vm_compute. reflexivity. Qed.

Lemma kp_triangle_ok : triangle_ok kp = true.
Proof. vm_compute. reflexivity. Qed.

Lemma no_path_into_rommon : forall p, In p (paths kp) -> name (to_state p) <> "rommon_state".
Proof.
  intros p Hp. cbn in Hp.
  repeat (destruct Hp as [<-|Hp]; [cbn; discriminate|]). destruct Hp.
Qed.
End Kp.

(** C2: in the graph built by [KpStateMachine.create], from the current
    state A of a session to a state B: when some route of Paths leads
    from A to B, [go_to(B)] executes the Paths of a route from A to B that
    no route is shorter than, sends their commands in order and ends with
    current-state B; when there is none it fails with [NoPathError] and
    leaves the session as it was; no Path leads into [rommon_state], so
    from every other state [go_to('rommon_state')] fails that way. *)
Theorem go_to_follows_a_shortest_route :
  forall (patterns : KpPatterns) (ftd_dialogs : Ftd5500xDialog) (statement : Rule)
         (completes : Path -> bool) (s : Session) (B : string),
    let kp := create patterns ftd_dialogs statement in
    In (current_state s) (names kp) -> In B (names kp) ->
    (forall p, In p (paths kp) -> completes p = true) ->
    ((exists r, route (paths kp) (current_state s) r B) ->
     exists r,
       go_to kp completes B s =
       Arrived {| current_state := B;
                  executed := executed s ++ r;
                  sent := sent s ++ map command r |} /\
       route (paths kp) (current_state s) r B /\
       forall r', route (paths kp) (current_state s) r' B -> length r <= length r') /\
    (~ (exists r, route (paths kp) (current_state s) r B) ->
     go_to kp completes B s = NoPathError s) /\
    (forall p, In p (paths kp) -> name (to_state p) <> "rommon_state") /\
    (current_state s <> "rommon_state" ->
     go_to kp completes "rommon_state" s = NoPathError s).
Proof.
  intros patterns ftd_dialogs statement completes s B kp HA HB Hc.
  assert (Hsound : forall b r, find_path kp (current_state s) b = Some r ->
                               route (paths kp) (current_state s) r b)
    by (intros b r; apply find_path_sound).
  assert (Hmin : forall b r, In b (names kp) -> route (paths kp) (current_state s) r b ->
                 exists m, dist kp (current_state s) b = Some m /\ m <= length r).
  { intros b r Hb Hr.
    apply (dist_le_route kp (kp_diag_ok patterns ftd_dialogs statement)
             (kp_triangle_ok patterns ftd_dialogs statement)); assumption. }
  assert (Hnone : forall b, In b (names kp) ->
                  ~ (exists r, route (paths kp) (current_state s) r b) ->
                  go_to kp completes b s = NoPathError s).
  { intros b Hb Hno. unfold go_to.
    destruct (find_path kp (current_state s) b) as [r|] eqn:E; [|reflexivity].
    exfalso. apply Hno. exists r. now apply Hsound. }
  split; [|split; [|split]].
  - intros [r0 Hr0]. unfold go_to.
    destruct (find_path kp (current_state s) B) as [r|] eqn:E.
    + exists r. pose proof (Hsound B r E) as Hr. split; [|split].
      * apply follow_route with (ps := paths kp); [exact Hr|].
        intros p Hp. apply Hc.
        clear - Hr Hp. induction Hr as [a|q r b Hq Hr IH]; [destruct Hp|].
        destruct Hp as [<-|Hp]; [exact Hq | now apply IH].
      * exact Hr.
      * intros r' Hr'. destruct (Hmin B r' HB Hr') as (m & Hm & Hle).
        unfold dist in Hm. rewrite E in Hm. cbn in Hm. inversion Hm. lia.
    + destruct (Hmin B r0 HB Hr0) as (m & Hm & _).
      unfold dist in Hm. rewrite E in Hm. discriminate.
  - now apply Hnone.
  - apply no_path_into_rommon.
  - intros Hne. apply Hnone.
    + cbn. auto 10.
    + intros [r Hr]. apply route_ends in Hr. destruct Hr as [E|(p & Hp & E)].
      * now apply Hne.
      * now apply (no_path_into_rommon patterns ftd_dialogs statement p).
Qed.

Lemma go_to_follows_a_shortest_route_witness :
  exists r,
    go_to Scenario.kp_machine (fun _ => true) "config_state"
      {| current_state := "sudo_state"; executed := []; sent := [] |} =
    Arrived {| current_state := "config_state";
               executed := [] ++ r;
               sent := [] ++ map command r |} /\
    route (paths Scenario.kp_machine) "sudo_state" r "config_state" /\
    forall r', route (paths Scenario.kp_machine) "sudo_state" r' "config_state" ->
               length r <= length r'.
Proof.
  apply (go_to_follows_a_shortest_route Scenario.patterns Scenario.no_ftd_dialogs
           Scenario.login_statement (fun _ => true)
           {| current_state := "sudo_state"; executed := []; sent := [] |}
           "config_state").
  - cbn. auto 10.
  - cbn. auto 12.
  - reflexivity.
  - eexists. apply find_path_sound. vm_compute. reflexivity.
Defined.

End StateMachineFacts.

(* ===================================================================== *)
(** * KpLine: what the calls add to the trace *)
(* ===================================================================== *)

Module KpFrames.
Import Dialogs StateMachine Console Notions ConsoleFacts Kp.
Local Open Scope line_scope.

Lemma quiet_not_sendline e : quiet e -> not_sendline e.
Proof. destruct e; cbn; auto. Qed.

Lemma quiet_not_metric e : quiet e -> not_metric e.
Proof. destruct e; cbn; auto. Qed.

(** One step of a proof that a call adds only events of some kind. *)
Ltac frame_step :=
  lazymatch goal with
  | |- adds _ (bind _ _) => apply adds_bind; [| intros ?]
  | |- adds _ (ret _) => apply adds_ret
  | |- adds _ (raise _) => apply adds_raise
  | |- adds _ (read _) => apply adds_read
  | |- adds _ now => apply adds_read
  | |- adds _ (fun _ => Unfinished) => apply adds_unfinished
  | |- adds _ (update (with_current_state _)) => apply adds_update_state
  | |- adds _ (update_cur_state _) => apply adds_update_state
  | |- adds _ (update (with_change_password_flag _)) => apply adds_update_flag
  | |- adds _ (set_power_bar _ _ _ _) => apply adds_update_power_bar
  | |- adds _ (update (with_power_bar _ _ _ _)) => apply adds_update_power_bar
  | |- adds _ (get_state_pattern _) => apply adds_get_state_pattern
  | |- adds _ (go_to _ _) => apply adds_go_to; exact I
  | |- adds _ (exchange _ _ _) => apply adds_exchange; exact I
  | |- adds _ (execute _ _ _) => apply adds_exchange; exact I
  | |- adds _ (execute_lines _ _) => apply adds_exchange; exact I
  | |- adds _ (execute_only _ _) => apply adds_exchange; exact I
  | |- adds _ (expect _ _ _) => apply adds_exchange; exact I
  | |- adds _ (process _ _ _) => apply adds_exchange; exact I
  | |- adds _ (power_cycle_all_ports _ _ _ _ _) => apply adds_exchange; exact I
  | |- adds _ (emit _) => apply adds_emit; exact I
  | |- adds _ (sendline _) => apply adds_emit; exact I
  | |- adds _ (publish_kick_metric _ _) => apply adds_emit; exact I
  | |- adds _ (sleep _) => apply adds_sleep; [exact I | lia]
  | |- adds _ (try_except _ _ _) => apply adds_try
  | |- adds _ (if ?b then _ else _) => destruct b
  | |- adds _ (match ?x with _ => _ end) => destruct x
  end.

Ltac frame := repeat frame_step.

Section Frames.
Variable dev : Device.

Lemma adds_for_range P n body : adds P body -> adds P (for_range n body).
Proof. intros H. induction n; cbn; frame; try assumption. Qed.

Lemma adds_init_cmds P cmds : P (EvExecuteOnly EmptyString) ->
  (forall c, P (EvExecuteOnly c)) -> adds P (init_cmds dev cmds).
Proof.
  intros _ H. induction cmds as [|c cmds IH]; cbn; frame; try assumption.
  unfold execute_only. apply adds_exchange. apply H.
Qed.

Lemma quiet_init_terminal b : adds quiet (init_terminal dev b).
Proof.
  unfold init_terminal. frame; try (apply adds_init_cmds; intros; exact I).
Qed.

Lemma sends_init_terminal b : adds not_metric (init_terminal dev b).
Proof. eapply adds_weaken; [apply quiet_not_metric | apply quiet_init_terminal]. Qed.

Lemma quiet_wait_until_device_on t : adds quiet (wait_until_device_on dev t).
Proof.
  unfold wait_until_device_on, process. frame; try apply quiet_init_terminal.
Qed.

Lemma quiet_power_cycle a b w t u p : adds quiet (power_cycle dev a b w t u p).
Proof.
  unfold power_cycle, set_power_bar, power_cycle_all_ports. frame;
    try apply quiet_wait_until_device_on.
Qed.

Lemma quiet_parse_packages lines : adds quiet (parse_packages lines).
Proof.
  induction lines as [|line lines IH]; cbn; frame; try exact IH.
Qed.

Lemma quiet_get_packages : adds quiet (get_packages dev).
Proof.
  unfold get_packages, execute_lines, execute. frame; try apply quiet_parse_packages.
Qed.

Lemma quiet_get_download_status img : adds quiet (_get_download_status dev img).
Proof. unfold _get_download_status, execute. frame. Qed.

Lemma quiet_wait_loop img start upto : forall fuel elapsed,
  adds quiet (wait_loop dev fuel img start upto elapsed).
Proof.
  induction fuel as [|fuel IH]; intros elapsed; cbn; [apply adds_unfinished|].
  unfold now. frame; try apply quiet_get_download_status; try apply IH.
Qed.

Lemma quiet_wait_till_download_complete fuel file_url upto :
  adds quiet (_wait_till_download_complete dev fuel file_url upto).
Proof.
  unfold _wait_till_download_complete, now. frame; try apply quiet_wait_loop.
Qed.

Lemma quiet_is_firmware_fp2k_ready v : adds quiet (is_firmware_fp2k_ready dev v).
Proof. unfold is_firmware_fp2k_ready, execute_lines. frame. Qed.

Lemma sends_download_loop wait_fuel fxos_url pw : forall fuel retry_count,
  adds not_metric (download_loop dev fuel wait_fuel fxos_url pw retry_count).
Proof.
  induction fuel as [|fuel IH]; intros retry_count; cbn; [apply adds_unfinished|].
  unfold execute_lines, sendline, process. frame;
    try (eapply adds_weaken; [apply quiet_not_metric | apply quiet_wait_till_download_complete]);
    try (apply adds_for_range; unfold sendline; frame);
    try apply IH.
Qed.

Lemma sends_download_ftd_fp2k fuel fxos_url v pw :
  adds not_metric (download_ftd_fp2k dev fuel fxos_url v pw).
Proof.
  unfold download_ftd_fp2k, execute_lines. frame;
    try (eapply adds_weaken; [apply quiet_not_metric | apply quiet_is_firmware_fp2k_ready]);
    try (eapply adds_weaken; [apply quiet_not_metric | apply quiet_get_packages]);
    try apply sends_download_loop.
Qed.

Lemma quiet_wait_for_rommon t : adds quiet (wait_for_rommon dev t).
Proof. unfold wait_for_rommon, process, update_cur_state. frame. Qed.

Lemma quiet_validate_version v : adds quiet (validate_version dev v).
Proof. unfold validate_version, execute. frame. Qed.

Lemma sends_format_goto_rommon t : adds not_metric (format_goto_rommon dev t).
Proof.
  unfold format_goto_rommon, sendline, process. frame;
    try (eapply adds_weaken; [apply quiet_not_metric | apply quiet_wait_for_rommon]).
Qed.

Lemma quiet_power_cycle_goto_rommon t a b c d :
  adds quiet (power_cycle_goto_rommon dev t a b c d).
Proof.
  unfold power_cycle_goto_rommon. frame;
    try apply quiet_power_cycle; try apply quiet_wait_for_rommon.
Qed.

Lemma quiet_change_password : adds quiet (__change_password dev).
Proof. unfold __change_password, process. frame. Qed.

Lemma sends_rommon_factory_reset_and_format bt ft :
  adds not_metric (rommon_factory_reset_and_format dev bt ft).
Proof.
  unfold rommon_factory_reset_and_format, sendline, process. frame;
    try (eapply adds_weaken; [apply quiet_not_metric | apply quiet_power_cycle_goto_rommon]);
    try (eapply adds_weaken; [apply quiet_not_metric | apply quiet_change_password]);
    try apply sends_init_terminal;
    try apply sends_format_goto_rommon.
Qed.

Lemma sends_expect_and_sendline es t : adds not_metric (expect_and_sendline dev es t).
Proof.
  induction es as [|[[pat send] third] es IH]; cbn; unfold sendline, expect; frame;
    try exact IH.
Qed.

Lemma sends_ping_loop server : forall n, adds not_metric (ping_loop dev n server).
Proof.
  induction n as [|n IH]; cbn; unfold sendline, expect; frame; try exact IH.
Qed.

Lemma sends_rommon_configure a b c d e : adds not_metric (rommon_configure dev a b c d e).
Proof.
  unfold rommon_configure. frame; try apply sends_expect_and_sendline; try apply sends_ping_loop.
Qed.

Lemma sends_rommon_tftp_download a b c t : adds not_metric (rommon_tftp_download dev a b c t).
Proof.
  unfold rommon_tftp_download, sendline, process. frame;
    try (eapply adds_weaken; [apply quiet_not_metric | apply quiet_change_password]).
Qed.

Lemma sends_install_rommon_build_fp2k a b c d e f t :
  adds not_metric (install_rommon_build_fp2k dev a b c d e f t).
Proof.
  unfold install_rommon_build_fp2k. frame;
    try apply sends_format_goto_rommon;
    try apply sends_rommon_factory_reset_and_format;
    try apply sends_rommon_configure;
    try apply sends_rommon_tftp_download;
    try apply sends_init_terminal.
Qed.

Lemma sends_upgrade_bundle_package_fp2k a b c d e f g h i j k m n o t :
  adds not_metric (upgrade_bundle_package_fp2k dev a b c d e f g h i j k m n o t).
Proof.
  unfold upgrade_bundle_package_fp2k, execute_lines, sendline, process. frame.
Qed.

Lemma quiet_configure_manager a b c : adds quiet (configure_manager dev a b c).
Proof. unfold configure_manager, execute. frame. Qed.
End Frames.

End KpFrames.

(* ===================================================================== *)
(** * KpLine and WmLine: the properties *)
(* ===================================================================== *)

Module KpFacts.
Import Dialogs StateMachine Console Notions ConsoleFacts Kp KpFrames.
Import Scenario.
Local Open Scope line_scope.

Lemma sent_lines_app text evs h :
  Forall not_sendline evs -> sent_lines text (evs ++ h) = sent_lines text h.
Proof.
  induction 1 as [|e evs He Hevs IH]; [reflexivity|].
  destruct e; cbn in *; auto. contradiction.
Qed.

Lemma published_app m evs h :
  Forall not_metric evs -> published m (evs ++ h) = published m h.
Proof.
  induction 1 as [|e evs He Hevs IH]; [reflexivity|].
  destruct e; cbn in *; auto. contradiction.
Qed.

Lemma grows_sent_lines l l' text :
  grows not_sendline l l' -> sent_lines text (trace l') = sent_lines text (trace l).
Proof. intros [(evs & -> & H) _]. now apply sent_lines_app. Qed.

Lemma grows_published l l' m :
  grows not_metric l l' -> published m (trace l') = published m (trace l).
Proof. intros [(evs & -> & H) _]. now apply published_app. Qed.

Lemma returned_grows {A} P (m : M A) l a l' :
  adds P m -> m l = Returned a l' -> grows P l l'.
Proof. intros H E. specialize (H l). now rewrite E in H. Qed.

Lemma raised_grows {A} P (m : M A) l e l' :
  adds P m -> m l = Raised e l' -> grows P l l'.
Proof. intros H E. specialize (H l). now rewrite E in H. Qed.

(* --------------------------------------------------------------------- *)
(** ** power_cycle *)

(** C10: when, for the server or for the port, neither the value stored
    on the line nor the argument is valid (each is [None] or empty),
    [power_cycle] returns [None] and leaves the line exactly as it was: no
    call of [power_cycle_all_ports] is recorded and the stored power-bar
    settings are the same. *)
Theorem power_cycle_without_power_bar :
  forall (dev : Device) (l : Line) (server port : PyStr.t)
         (wait_until_device_is_on : bool) (timeout : Z) (user pwd : PyStr.t),
    (PyStr.truthy (power_bar_server l) = false /\ PyStr.truthy server = false) \/
    (PyStr.truthy (power_bar_port l) = false /\ PyStr.truthy port = false) ->
    power_cycle dev server port wait_until_device_is_on timeout user pwd l =
    Returned None l.
Proof.
  intros dev l server port w timeout user pwd H.
  unfold power_cycle, bind, read.
  destruct H as [[H1 H2]|[H1 H2]]; rewrite H1, H2; cbn.
  - reflexivity.
  - now rewrite !orb_true_r.
Qed.

Lemma power_cycle_without_power_bar_witness :
  power_cycle silent_device None None true 600 (Some "admn") (Some "admn") line0 =
  Returned None line0.
Proof.
  apply (power_cycle_without_power_bar silent_device line0 None None true 600
           (Some "admn") (Some "admn")).
  left. split; reflexivity.
Defined.

(* --------------------------------------------------------------------- *)
(** ** wait_for_rommon *)

(** C7: in [wait_for_rommon] the current state of the state machine is
    set to [rommon_state] only after the dialog has completed: when the
    dialog raises (a timeout, or anything else) the call raises the same
    error and the current state is what it was; when the dialog completes,
    the call returns with current state [rommon_state]. *)
Theorem wait_for_rommon_commits_after_the_dialog :
  forall (dev : Device) (timeout : Z) (l : Line) (rommon : State),
    get_state (sm l) "rommon_state" = Some rommon ->
    (forall e,
        on_process dev (trace l) (rommon_dialog (state_pattern rommon)) (Some timeout)
        = Fails e ->
        exists l', wait_for_rommon dev timeout l = Raised e l' /\
                   sm_current_state l' = sm_current_state l) /\
    (forall out,
        on_process dev (trace l) (rommon_dialog (state_pattern rommon)) (Some timeout)
        = Ok out ->
        exists l', wait_for_rommon dev timeout l = Returned tt l' /\
                   sm_current_state l' = "rommon_state").
Proof.
  intros dev timeout l rommon Hst.
  unfold wait_for_rommon, get_state_pattern, process, exchange, bind, read,
    update_cur_state, update, ret.
  rewrite Hst. unfold rommon_dialog. cbn. split.
  - intros e He. rewrite He. eexists. split; reflexivity.
  - intros out Ho. rewrite Ho. eexists. split; reflexivity.
Qed.

Lemma wait_for_rommon_commits_after_the_dialog_witness :
  exists l', wait_for_rommon silent_device 300 line0 = Raised TimeoutError l' /\
             sm_current_state l' = "fxos_state".
Proof.
  destruct (wait_for_rommon_commits_after_the_dialog silent_device 300 line0
              (mkState "rommon_state" "rommon.*> ")) as [H _]; [reflexivity|].
  apply (H TimeoutError). reflexivity.
Defined.

(* --------------------------------------------------------------------- *)
(** ** download_ftd_fp2k: the installed-package check *)

(** What [is_firmware_fp2k_ready] compares: the second colon-separated
    field of the answer, stripped, with the requested version. *)
Lemma is_firmware_fp2k_ready_returns dev version l b l' :
  is_firmware_fp2k_ready dev version l = Returned b l' ->
  exists s out first second rest,
    on_execute_lines dev (EvGoTo "fxos_state" :: trace l) s = Ok out /\
    PyStr.split ":" out = first :: second :: rest /\
    b = String.eqb (PyStr.strip second) version.
Proof.
  unfold is_firmware_fp2k_ready, go_to, execute_lines, exchange, bind, update, ret.
  destruct (on_go_to dev (trace l) "fxos_state"); [|discriminate]. cbn.
  match goal with |- context [on_execute_lines dev ?h ?s] =>
    destruct (on_execute_lines dev h s) as [out|] eqn:E; [|discriminate] end.
  destruct (PyStr.split ":" out) as [|first [|second rest]] eqn:Es; try discriminate.
  intros H. eexists _, out, first, second, rest. split; [exact E|]. split; [exact Es|].
  destruct (String.eqb (PyStr.strip second) version); cbn in H; unfold ret in H;
    now inversion H.
Qed.

(** C6: if the installed firmware package version equals the requested
    [ftd_version] ([is_firmware_fp2k_ready] answers [True]), or it does not
    but the package list ([get_packages]) contains the name of the
    requested bundle, [download_ftd_fp2k] returns and no line has been sent
    to the device on the way: in particular no ['download image'] command,
    whatever the number of loop iterations allowed. *)
Theorem download_skipped_when_already_present :
  forall (dev : Device) (fuel : nat) (fxos_url ftd_version file_server_password : string)
         (l : Line),
    let bundle_package_name := PyStr.strip (PyStr.last_item (PyStr.split "/" fxos_url)) in
    (exists l1 l2,
        go_to dev "fxos_state" l = Returned tt l1 /\
        is_firmware_fp2k_ready dev ftd_version l1 = Returned true l2) \/
    (exists l1 l2 out l3 packages l4,
        go_to dev "fxos_state" l = Returned tt l1 /\
        is_firmware_fp2k_ready dev ftd_version l1 = Returned false l2 /\
        execute_lines dev ("top" ++ nl ++ "scope firmware") l2 = Returned out l3 /\
        get_packages dev l3 = Returned packages l4 /\
        In bundle_package_name (map pkg_name packages)) ->
    exists l',
      download_ftd_fp2k dev fuel fxos_url ftd_version file_server_password l
      = Returned tt l' /\
      forall text, sent_lines text (trace l') = sent_lines text (trace l).
Proof.
  intros dev fuel fxos_url ftd_version pw l bundle H.
  assert (Hgo : adds not_sendline (go_to dev "fxos_state")) by (apply adds_go_to; exact I).
  assert (Hready : adds not_sendline (is_firmware_fp2k_ready dev ftd_version))
    by (eapply adds_weaken; [apply quiet_not_sendline | apply quiet_is_firmware_fp2k_ready]).
  assert (Hlines : adds not_sendline (execute_lines dev ("top" ++ nl ++ "scope firmware")))
    by (apply adds_exchange; exact I).
  assert (Hpk : adds not_sendline (get_packages dev))
    by (eapply adds_weaken; [apply quiet_not_sendline | apply quiet_get_packages]).
  unfold download_ftd_fp2k. fold bundle.
  destruct H as [(l1 & l2 & E1 & E2)|(l1 & l2 & out & l3 & packages & l4 & E1 & E2 & E3 & E4 & Hin)].
  - exists l2. unfold bind. rewrite E1, E2. split; [reflexivity|].
    intros text.
    rewrite (grows_sent_lines l1 l2 text (returned_grows _ _ _ _ _ Hready E2)).
    exact (grows_sent_lines l l1 text (returned_grows _ _ _ _ _ Hgo E1)).
  - exists l4. unfold bind. rewrite E1, E2, E3, E4.
    assert (Hex : existsb (String.eqb bundle) (map pkg_name packages) = true).
    { apply existsb_exists. exists bundle. split; [exact Hin | apply String.eqb_refl]. }
    rewrite Hex. split; [reflexivity|].
    intros text.
    rewrite (grows_sent_lines l3 l4 text (returned_grows _ _ _ _ _ Hpk E4)).
    rewrite (grows_sent_lines l2 l3 text (returned_grows _ _ _ _ _ Hlines E3)).
    rewrite (grows_sent_lines l1 l2 text (returned_grows _ _ _ _ _ Hready E2)).
    exact (grows_sent_lines l l1 text (returned_grows _ _ _ _ _ Hgo E1)).
Qed.

Lemma download_skipped_when_already_present_witness :
  (exists l',
      download_ftd_fp2k installed_device 0 url "6.2.1-1088" EmptyString line0 = Returned tt l' /\
      forall text, sent_lines text (trace l') = sent_lines text (trace line0)) /\
  (exists l',
      download_ftd_fp2k downloaded_device 0 url "6.2.1-1088" EmptyString line0 = Returned tt l' /\
      forall text, sent_lines text (trace l') = sent_lines text (trace line0)).
Proof.
  split.
  - apply (download_skipped_when_already_present installed_device 0 url "6.2.1-1088" EmptyString line0).
    left. eexists. eexists. split; vm_compute; reflexivity.
  - apply (download_skipped_when_already_present downloaded_device 0 url "6.2.1-1088" EmptyString line0).
    right. do 6 eexists. repeat split; try (vm_compute; reflexivity).
    vm_compute. left. reflexivity.
Defined.


(* --------------------------------------------------------------------- *)
(** ** validate_version *)

(** What the code does: with a non-empty answer in which a build and a
    version are found, it raises the error that carries the answer and the
    expected version exactly when the build or the version does not occur
    somewhere in [ftd_version]; otherwise it goes on to [go_to('fxos_state')]. *)
Lemma validate_version_tests_containment dev ftd_version l response build version :
  on_execute dev (trace l) "show version" (Some 30%Z) = Ok response ->
  response <> EmptyString ->
  shown_build response = Some build ->
  shown_version response = Some version ->
  let l1 := with_clock (clock l + Z.of_nat (latency dev (trace l)))
              (with_trace (EvExecute "show version" (Some 30%Z) :: trace l) l) in
  validate_version dev ftd_version l =
  if PyStr.contains build ftd_version && PyStr.contains version ftd_version
  then go_to dev "fxos_state" l1
  else Raised (RuntimeError (version_mismatch_msg response ftd_version)) l1.
Proof.
  intros Hex Hne Hb Hv l1. unfold validate_version, execute, exchange, bind.
  rewrite Hex. apply String.eqb_neq in Hne. rewrite Hne. unfold ret at 1.
  unfold shown_build in Hb. unfold shown_version in Hv.
  destruct (Re.search re_Build response) as [[ms1 r1]|]; [|discriminate].
  destruct (Re.search re_Version response) as [[ms2 r2]|]; [|discriminate].
  inversion Hb; subst. inversion Hv; subst. unfold ret at 1. unfold ret at 1.
  fold l1.
  destruct (PyStr.contains (re_Build_group1 ms1) ftd_version &&
            PyStr.contains (re_Version_group2 ms2) ftd_version); reflexivity.
Qed.

(** An installed version and build that are those of the target pass the
    check. *)
Lemma contains_unfold sub s :
  PyStr.contains sub s =
  if String.prefix sub s then true
  else match s with
       | EmptyString => false
       | String _ rest => PyStr.contains sub rest
       end.
Proof. destruct s; reflexivity. Qed.

Lemma contains_append_r sub a b :
  PyStr.contains sub b = true -> PyStr.contains sub (a ++ b) = true.
Proof.
  intros H. induction a as [|c a IH]; [exact H|].
  rewrite contains_unfold. cbn [append].
  destruct (String.prefix sub (String c (a ++ b))); [reflexivity | exact IH].
Qed.

Lemma prefix_append s t : String.prefix s (s ++ t) = true.
Proof.
  induction s as [|c s IH]; cbn; [now destruct t|].
  destruct (ascii_dec c c); [exact IH | congruence].
Qed.

Lemma contains_append_l sub b : PyStr.contains sub (sub ++ b) = true.
Proof. rewrite contains_unfold. now rewrite prefix_append. Qed.

Lemma contains_refl s : PyStr.contains s s = true.
Proof.
  rewrite contains_unfold.
  assert (H : String.prefix s s = true).
  { induction s as [|c s IH]; cbn; [reflexivity|].
    destruct (ascii_dec c c); [exact IH | congruence]. }
  now rewrite H.
Qed.

Lemma target_version_and_build_pass version build :
  PyStr.contains build (version ++ "-" ++ build) = true /\
  PyStr.contains version (version ++ "-" ++ build) = true.
Proof.
  split.
  - apply contains_append_r. apply (contains_append_r build "-" build).
    apply contains_refl.
  - apply contains_append_l.
Qed.

(** C8 fails on the code: a device that runs version 6.2.1, build 117,
    validated against the target 6.2.1-1177, has another build than the
    target, yet ['117' in '6.2.1-1177'] holds and [validate_version]
    returns normally instead of raising. *)
Theorem validate_version_accepts_another_build :
  shown_version "Model : Cisco Firepower 2110 Threat Defense (77) Version 6.2.1 (Build 117)"
  = Some "6.2.1" /\
  shown_build "Model : Cisco Firepower 2110 Threat Defense (77) Version 6.2.1 (Build 117)"
  = Some "117" /\
  "6.2.1" ++ "-" ++ "117" <> "6.2.1-1177" /\
  exists l', validate_version build_117 "6.2.1-1177" line0 = Returned tt l'.
Proof.
  split; [vm_compute; reflexivity|]. split; [vm_compute; reflexivity|].
  split; [discriminate|]. eexists. vm_compute. reflexivity.
Qed.

(* --------------------------------------------------------------------- *)
(** ** Metrics *)

Section Baseline.
Variable dev : Device.

Lemma sends_baseline_steps fuel
    tftp_server rommon_file uut_hostname uut_username uut_password
    uut_ip uut_netmask uut_gateway dns_servers search_domains
    fxos_url ftd_version file_server_password power_cycle_flag mode
    uut_ip6 uut_prefix uut_gateway6 manager manager_key manager_nat_id
    firewall_mode timeout reboot_timeout l :
  match baseline_fp2k_ftd dev fuel tftp_server rommon_file uut_hostname uut_username
          uut_password uut_ip uut_netmask uut_gateway dns_servers search_domains
          fxos_url ftd_version file_server_password power_cycle_flag mode
          uut_ip6 uut_prefix uut_gateway6 manager manager_key manager_nat_id
          firewall_mode timeout reboot_timeout l with
  | Returned _ l' | Raised _ l' =>
      grows not_metric (with_trace (EvMetric "device.kp.baseline" 1 :: trace l) l) l'
  | Unfinished => True
  end.
Proof.
  unfold baseline_fp2k_ftd. unfold bind at 1.
  unfold publish_kick_metric, emit, update.
  match goal with
  | |- match ?m ?l1 with _ => _ end =>
      assert (H : adds not_metric m); [|exact (H l1)]
  end.
  cbv zeta. frame;
    try (eapply adds_weaken; [apply quiet_not_metric | apply quiet_power_cycle_goto_rommon]);
    try apply sends_rommon_factory_reset_and_format;
    try apply sends_install_rommon_build_fp2k;
    try apply sends_download_ftd_fp2k;
    try apply sends_upgrade_bundle_package_fp2k;
    try (eapply adds_weaken; [apply quiet_not_metric | apply quiet_configure_manager]);
    try (eapply adds_weaken; [apply quiet_not_metric | apply quiet_validate_version]).
Qed.

(** [KpLine.baseline_fp2k_ftd] publishes [device.kp.baseline] once and no
    other metric. *)
Lemma kp_baseline_publishes_once fuel
    tftp_server rommon_file uut_hostname uut_username uut_password
    uut_ip uut_netmask uut_gateway dns_servers search_domains
    fxos_url ftd_version file_server_password power_cycle_flag mode
    uut_ip6 uut_prefix uut_gateway6 manager manager_key manager_nat_id
    firewall_mode timeout reboot_timeout l :
  match baseline_fp2k_ftd dev fuel tftp_server rommon_file uut_hostname uut_username
          uut_password uut_ip uut_netmask uut_gateway dns_servers search_domains
          fxos_url ftd_version file_server_password power_cycle_flag mode
          uut_ip6 uut_prefix uut_gateway6 manager manager_key manager_nat_id
          firewall_mode timeout reboot_timeout l with
  | Returned _ l' | Raised _ l' =>
      forall m, published m (trace l')
                = ((if String.eqb "device.kp.baseline" m then 1 else 0)
                   + published m (trace l))%nat
  | Unfinished => True
  end.
Proof.
  pose proof (sends_baseline_steps fuel tftp_server rommon_file uut_hostname uut_username
    uut_password uut_ip uut_netmask uut_gateway dns_servers search_domains
    fxos_url ftd_version file_server_password power_cycle_flag mode
    uut_ip6 uut_prefix uut_gateway6 manager manager_key manager_nat_id
    firewall_mode timeout reboot_timeout l) as H.
  destruct (baseline_fp2k_ftd _ _ _ _ _ _ _ _ _ _ _ _ _ _ _ _ _ _ _ _ _ _ _ _ _ _ l);
    auto; intros m; rewrite (grows_published _ _ m H);
    cbn [trace with_trace published];
    destruct (String.eqb "device.kp.baseline" m); reflexivity.
Qed.
End Baseline.

(** C9 fails on the code: every call of [WmLine.baseline] that returns or
    raises has published two baseline counters, [device.wm.baseline] and,
    through the inherited [baseline_fp2k_ftd], [device.kp.baseline]: the
    count of each is one more than before the call. *)
Theorem wm_baseline_publishes_two_baseline_counters :
  forall (dev : Device) (fuel : nat)
    (tftp_server rommon_file uut_hostname uut_username uut_password
     uut_ip uut_netmask uut_gateway dns_servers search_domains
     fxos_url ftd_version file_server_password : string)
    (power_cycle_flag : bool) (mode : string)
    (uut_ip6 uut_prefix uut_gateway6 manager manager_key manager_nat_id : PyStr.t)
    (firewall_mode : string) (timeout reboot_timeout : Z) (l : Line),
  match Wm.baseline dev fuel tftp_server rommon_file uut_hostname uut_username
          uut_password uut_ip uut_netmask uut_gateway dns_servers search_domains
          fxos_url ftd_version file_server_password power_cycle_flag mode
          uut_ip6 uut_prefix uut_gateway6 manager manager_key manager_nat_id
          firewall_mode timeout reboot_timeout l with
  | Returned _ l' | Raised _ l' =>
      published "device.wm.baseline" (trace l')
      = S (published "device.wm.baseline" (trace l)) /\
      published "device.kp.baseline" (trace l')
      = S (published "device.kp.baseline" (trace l))
  | Unfinished => True
  end.
Proof.
  intros. unfold Wm.baseline. unfold bind at 1.
  unfold publish_kick_metric, emit, update.
  set (l1 := with_trace (EvMetric "device.wm.baseline" 1 :: trace l) l).
  pose proof (kp_baseline_publishes_once dev fuel tftp_server rommon_file uut_hostname
    uut_username uut_password uut_ip uut_netmask uut_gateway dns_servers search_domains
    fxos_url ftd_version file_server_password power_cycle_flag mode
    uut_ip6 uut_prefix uut_gateway6 manager manager_key manager_nat_id
    firewall_mode timeout reboot_timeout l1) as H.
  destruct (baseline_fp2k_ftd _ _ _ _ _ _ _ _ _ _ _ _ _ _ _ _ _ _ _ _ _ _ _ _ _ _ l1);
    auto; split; rewrite H; subst l1; cbn [trace with_trace published];
    reflexivity.
Qed.

(** The same on a device that never answers: the baseline is abandoned at
    the first dialog, with both counters published. *)
Lemma wm_baseline_on_a_silent_device :
  exists l',
    Wm.baseline silent_device 0 "10.89.23.80" "fxos-k8-fp2k-lfbff.82.5.1.893i.SSB"
      "firepower" "admin" "Admin123" "10.0.0.2" "255.255.255.0" "10.0.0.1"
      "10.0.0.53" "cisco.com" url "6.2.1-1088" EmptyString false "local"
      None None None None None None "routed" 3600 300 line0
    = Raised TimeoutError l' /\
    published "device.wm.baseline" (trace l') = 1 /\
    published "device.kp.baseline" (trace l') = 1.
Proof. eexists. vm_compute. repeat split; reflexivity. Qed.

(** The constructors publish one init counter each. *)
Lemma kp_init_publishes_once mk_patterns mk_ftd mk_statement
    hostname user password sudo server port pb_user pb_pwd config_hostname h :
  snd (Kp_init mk_patterns mk_ftd mk_statement hostname user password sudo
         server port pb_user pb_pwd config_hostname h)
  = EvMetric "device.kp.init" 1 :: EvBasicDeviceInit :: h.
Proof. reflexivity. Qed.

Lemma wm_init_publishes_once mk_patterns mk_machine
    hostname user password sudo config_hostname h :
  snd (Wm.Wm_init mk_patterns mk_machine hostname user password sudo config_hostname h)
  = EvMetric "device.wm.init" 1 :: EvBasicDeviceInit :: h.
Proof. reflexivity. Qed.

(* --------------------------------------------------------------------- *)
(** ** Polling the download task *)

Lemma go_to_fxos dev l :
  reaches_fxos dev -> go_to dev "fxos_state" l = Returned tt (went dev l).
Proof.
  intros H. destruct (H (trace l)) as [s Hs].
  unfold go_to, exchange, bind, update. now rewrite Hs.
Qed.

Lemma get_download_status_returns dev img l status :
  reaches_fxos dev ->
  reports dev img (EvGoTo "fxos_state" :: trace l) status ->
  _get_download_status dev img l = Returned status (asked dev img l).
Proof.
  intros Hgo (out & ms & rest & Hex & Hre & Hst).
  unfold _get_download_status. unfold bind at 1. rewrite (go_to_fxos dev l Hgo).
  unfold execute, exchange, bind. cbn [trace went with_current_state tick with_clock with_trace].
  rewrite Hex, Hre, Hst. reflexivity.
Qed.

Lemma wait_loop_step dev img start upto elapsed l fuel status :
  reaches_fxos dev ->
  reports dev img (EvGoTo "fxos_state" :: EvSleep 10 :: trace l) status ->
  (elapsed < upto)%Z ->
  wait_loop dev (S fuel) img start upto elapsed l =
  if String.eqb status "Downloaded" then Returned status (after_poll dev img l)
  else if String.eqb status "Downloading"
       then wait_loop dev fuel img start upto
              (clock (after_poll dev img l) - start) (after_poll dev img l)
  else if String.eqb status "Failed" then Returned status (after_poll dev img l)
  else wait_loop dev fuel img start upto elapsed (after_poll dev img l).
Proof.
  intros Hgo Hrep Hlt. cbn [wait_loop].
  apply Z.ltb_lt in Hlt. rewrite Hlt.
  unfold bind at 1. unfold sleep, update. fold (slept 10 l).
  unfold bind at 1.
  rewrite (get_download_status_returns dev img (slept 10 l) status Hgo Hrep).
  fold (after_poll dev img l).
  destruct (String.eqb status "Downloaded"); [reflexivity|].
  destruct (String.eqb status "Downloading"); [reflexivity|].
  destruct (String.eqb status "Failed"); reflexivity.
Qed.

Lemma wait_loop_deadline dev img start upto elapsed l fuel :
  (upto <= elapsed)%Z ->
  wait_loop dev (S fuel) img start upto elapsed l =
  Raised (RuntimeError ("download took too long: " ++ img)) l.
Proof.
  intros H. cbn [wait_loop]. apply Z.ltb_ge in H. now rewrite H.
Qed.

Lemma wait_till_download_complete_unfold dev fuel file_url img upto l :
  reaches_fxos dev ->
  image_of_url file_url = Some img ->
  _wait_till_download_complete dev fuel file_url upto l =
  wait_loop dev fuel img (clock (went dev l)) upto 0 (went dev l).
Proof.
  intros Hgo Himg. unfold _wait_till_download_complete. unfold bind at 1.
  rewrite (go_to_fxos dev l Hgo). unfold image_of_url in Himg.
  destruct (PyStr.startswith file_url "scp").
  - destruct (Re.search re_scp_url file_url) as [[ms r]|]; [|discriminate].
    inversion Himg; subst. reflexivity.
  - destruct (PyStr.startswith file_url "tftp"); [|discriminate].
    destruct (Re.search re_tftp_url file_url) as [[ms r]|]; [|discriminate].
    inversion Himg; subst. reflexivity.
Qed.

Lemma trace_after_poll dev img l :
  trace (after_poll dev img l) =
  EvExecute (download_task_cmd img) None :: EvGoTo "fxos_state" :: EvSleep 10 :: trace l.
Proof. reflexivity. Qed.

Lemma clock_after_poll dev img l :
  clock (after_poll dev img l) =
  (clock l + 10 + Z.of_nat (latency dev (EvSleep 10 :: trace l))
   + Z.of_nat (latency dev (EvGoTo "fxos_state" :: EvSleep 10 :: trace l)))%Z.
Proof. reflexivity. Qed.

Lemma sm_after_poll dev img l : sm (after_poll dev img l) = sm l.
Proof. reflexivity. Qed.

Lemma polls_after_poll dev img l :
  polls img (trace (after_poll dev img l)) = S (polls img (trace l)).
Proof.
  rewrite trace_after_poll. cbn [polls]. now rewrite String.eqb_refl.
Qed.

Lemma sleeps_after_poll dev img l :
  sleeps 10 (trace (after_poll dev img l)) = S (sleeps 10 (trace l)).
Proof. reflexivity. Qed.

Lemma sent_lines_after_poll dev img l text :
  sent_lines text (trace (after_poll dev img l)) = sent_lines text (trace l).
Proof. reflexivity. Qed.

Lemma reports_status_at dev img h status :
  reports dev img h status -> status_at dev img h = Some status.
Proof.
  intros (out & ms & rest & Hex & Hre & Hst). unfold status_at.
  now rewrite Hex, Hre, Hst.
Qed.

Lemma states_read_after_poll dev img l status :
  reports dev img (EvGoTo "fxos_state" :: EvSleep 10 :: trace l) status ->
  states_read dev img (trace (after_poll dev img l)) =
  Some status :: states_read dev img (trace l).
Proof.
  intros H. rewrite trace_after_poll. cbn [states_read]. rewrite String.eqb_refl.
  now rewrite (reports_status_at _ _ _ _ H).
Qed.

Lemma polls_are_states_read dev img h :
  length (states_read dev img h) = polls img h.
Proof.
  induction h as [|e h IH]; [reflexivity|].
  destruct e as [| cmd [t|] | | | | | | | | |]; cbn [states_read polls]; try exact IH.
  destruct (String.eqb cmd (download_task_cmd img)); cbn [length]; now rewrite IH.
Qed.

Lemma repeat_snoc {A} (x : A) n rest :
  (repeat x n ++ x :: rest)%list = (repeat x (S n) ++ rest)%list.
Proof.
  change (x :: rest) with ([x] ++ rest)%list. rewrite app_assoc.
  now rewrite <- repeat_cons.
Qed.

(** The polling loop ends when every state it reads is one it knows: each
    round that reads [Downloading] moves the elapsed time forward by the
    ten seconds slept at least.  It ends at the first query that reads
    [Downloaded] or [Failed], with that state, or at the deadline after
    queries that all read [Downloading]. *)
Lemma wait_loop_ends dev img start upto :
  reaches_fxos dev ->
  (forall h, exists status,
      reports dev img h status /\
      (status = "Downloading" \/ status = "Downloaded" \/ status = "Failed")) ->
  forall fuel elapsed l,
    (Z.to_nat (upto - elapsed) < fuel)%nat ->
    (elapsed <= clock l - start)%Z ->
    exists l' n,
      (clock l <= clock l')%Z /\
      ((wait_loop dev fuel img start upto elapsed l = Returned "Downloaded" l' /\
        states_read dev img (trace l') =
        (Some "Downloaded" :: repeat (Some "Downloading") n
         ++ states_read dev img (trace l))%list) \/
       (wait_loop dev fuel img start upto elapsed l = Returned "Failed" l' /\
        states_read dev img (trace l') =
        (Some "Failed" :: repeat (Some "Downloading") n
         ++ states_read dev img (trace l))%list) \/
       (wait_loop dev fuel img start upto elapsed l =
        Raised (RuntimeError ("download took too long: " ++ img)) l' /\
        states_read dev img (trace l') =
        (repeat (Some "Downloading") n ++ states_read dev img (trace l))%list /\
        (upto <= clock l' - start)%Z)).
Proof.
  intros Hgo Hrep. induction fuel as [|fuel IH]; intros elapsed l Hfuel Hel; [lia|].
  destruct (Z.lt_ge_cases elapsed upto) as [Hlt|Hge].
  - destruct (Hrep (EvGoTo "fxos_state" :: EvSleep 10 :: trace l)) as (status & Hst & Hcase).
    rewrite (wait_loop_step dev img start upto elapsed l fuel status Hgo Hst Hlt).
    pose proof (clock_after_poll dev img l) as Hc.
    pose proof (states_read_after_poll dev img l status Hst) as Hread.
    destruct Hcase as [E|[E|E]]; subst status; cbn [String.eqb Ascii.eqb Bool.eqb].
    + destruct (IH (clock (after_poll dev img l) - start)%Z (after_poll dev img l))
        as (l' & n & Hl' & Hout); [lia | lia |].
      exists l', (S n). split; [lia|]. rewrite Hread in Hout.
      rewrite !repeat_snoc in Hout. exact Hout.
    + exists (after_poll dev img l), 0. split; [lia|]. left. split; [reflexivity | exact Hread].
    + exists (after_poll dev img l), 0. split; [lia|]. right. left.
      split; [reflexivity | exact Hread].
  - rewrite (wait_loop_deadline dev img start upto elapsed l fuel Hge).
    exists l, 0. split; [lia|]. right. right. split; [reflexivity|]. split; [reflexivity | lia].
Qed.


(** A download task that stays in a state other than the three the loop
    tests for is polled for ever: [elapsed_time] is only brought up to date
    in the [Downloading] branch, so the deadline is never seen to pass. *)
Lemma unknown_state_is_polled_for_ever :
  forall fuel l,
    _wait_till_download_complete pending_download fuel url 1800 l = Unfinished.
Proof.
  intros fuel l.
  assert (Hgo : reaches_fxos pending_download) by (intros h; now exists "fxos_state").
  rewrite (wait_till_download_complete_unfold pending_download fuel url image 1800 l Hgo)
    by (vm_compute; reflexivity).
  generalize (clock (went pending_download l)). generalize (went pending_download l).
  clear l. intros l start. revert l.
  induction fuel as [|fuel IH]; intros l; [reflexivity|].
  rewrite (wait_loop_step pending_download image start 1800 0 l fuel "Pending" Hgo);
    [|do 3 eexists; split; [reflexivity|]; split; vm_compute; reflexivity | lia].
  cbn [String.eqb Ascii.eqb Bool.eqb]. apply IH.
Qed.




(** One round of the polling loop on a device that reports [Downloading]
    to its first three status queries and [Downloaded] afterwards. *)
Lemma wait_loop_round dev img start upto elapsed l fuel k :
  reaches_fxos dev ->
  (forall h, reports dev img h
               (if (polls img h <? 3)%nat then "Downloading" else "Downloaded")) ->
  polls img (trace l) = k ->
  (elapsed < upto)%Z ->
  wait_loop dev (S fuel) img start upto elapsed l =
  if (k <? 3)%nat
  then wait_loop dev fuel img start upto
         (clock (after_poll dev img l) - start) (after_poll dev img l)
  else Returned "Downloaded" (after_poll dev img l).
Proof.
  intros Hgo Hrep Hk Hlt.
  pose proof (Hrep (EvGoTo "fxos_state" :: EvSleep 10 :: trace l)) as H.
  cbn [polls] in H. rewrite Hk in H.
  rewrite (wait_loop_step dev img start upto elapsed l fuel _ Hgo H Hlt).
  destruct (k <? 3)%nat; reflexivity.
Qed.

(** C5: when the download task is reported as [Downloading] to the first
    three status queries and as [Downloaded] to the fourth,
    [_wait_till_download_complete] with the default deadline of 1800
    seconds returns [Downloaded] after exactly four queries, each preceded
    by a sleep of ten seconds: 40 seconds of sleep plus the time the nine
    exchanges with the console take (at most [d] seconds each; the elapsed
    time the loop last measured is 30 seconds plus that of six of them). *)
Theorem download_complete_on_the_fourth_poll :
  forall (dev : Device) (file_url img : string) (l : Line) (fuel d : nat),
    image_of_url file_url = Some img ->
    reaches_fxos dev ->
    (forall h, reports dev img h
                 (if (polls img h <? 3)%nat then "Downloading" else "Downloaded")) ->
    polls img (trace l) = 0 ->
    (forall h, latency dev h <= d) ->
    30 + 6 * d < 1800 ->
    4 <= fuel ->
    exists l',
      _wait_till_download_complete dev fuel file_url 1800 l = Returned "Downloaded" l' /\
      polls img (trace l') = 4 /\
      sleeps 10 (trace l') = sleeps 10 (trace l) + 4 /\
      (40 <= clock l' - clock l <= 40 + 9 * Z.of_nat d)%Z.
Proof.
  intros dev file_url img l fuel d Himg Hgo Hrep Hfresh Hlat Hd Hfuel.
  rewrite (wait_till_download_complete_unfold dev fuel file_url img 1800 l Hgo Himg).
  destruct fuel as [|[|[|[|fuel]]]]; try lia.
  set (l0 := went dev l).
  set (l1 := after_poll dev img l0).
  set (l2 := after_poll dev img l1).
  set (l3 := after_poll dev img l2).
  set (l4 := after_poll dev img l3).
  assert (P0 : polls img (trace l0) = 0) by exact Hfresh.
  assert (P1 : polls img (trace l1) = 1) by (unfold l1; now rewrite polls_after_poll, P0).
  assert (P2 : polls img (trace l2) = 2) by (unfold l2; now rewrite polls_after_poll, P1).
  assert (P3 : polls img (trace l3) = 3) by (unfold l3; now rewrite polls_after_poll, P2).
  assert (P4 : polls img (trace l4) = 4) by (unfold l4; now rewrite polls_after_poll, P3).
  assert (C0 : (clock l <= clock l0 <= clock l + Z.of_nat d)%Z).
  { unfold l0. cbn. pose proof (Hlat (trace l)). lia. }
  assert (Cstep : forall x, (clock x + 10 <= clock (after_poll dev img x)
                             <= clock x + 10 + 2 * Z.of_nat d)%Z).
  { intros x. rewrite clock_after_poll.
    pose proof (Hlat (EvSleep 10 :: trace x)).
    pose proof (Hlat (EvGoTo "fxos_state" :: EvSleep 10 :: trace x)). lia. }
  pose proof (Cstep l0) as C1. fold l1 in C1.
  pose proof (Cstep l1) as C2. fold l2 in C2.
  pose proof (Cstep l2) as C3. fold l3 in C3.
  pose proof (Cstep l3) as C4. fold l4 in C4.
  rewrite (wait_loop_round dev img (clock l0) 1800 0 l0 _ 0 Hgo Hrep P0) by lia.
  cbn [Nat.ltb Nat.leb]. fold l1.
  rewrite (wait_loop_round dev img (clock l0) 1800 _ l1 _ 1 Hgo Hrep P1) by lia.
  cbn [Nat.ltb Nat.leb]. fold l2.
  rewrite (wait_loop_round dev img (clock l0) 1800 _ l2 _ 2 Hgo Hrep P2) by lia.
  cbn [Nat.ltb Nat.leb]. fold l3.
  rewrite (wait_loop_round dev img (clock l0) 1800 _ l3 _ 3 Hgo Hrep P3) by lia.
  cbn [Nat.ltb Nat.leb]. fold l4.
  exists l4. split; [reflexivity|]. split; [exact P4|]. split; [|lia].
  unfold l4, l3, l2, l1. rewrite !sleeps_after_poll. unfold l0. cbn [sleeps trace went
    with_current_state tick with_clock with_trace]. lia.
Qed.

Lemma download_complete_on_the_fourth_poll_witness :
  exists l',
    _wait_till_download_complete fourth_poll_download 4 url 1800 line0
    = Returned "Downloaded" l' /\
    polls image (trace l') = 4 /\
    sleeps 10 (trace l') = sleeps 10 (trace line0) + 4 /\
    (40 <= clock l' - clock line0 <= 40 + 9 * Z.of_nat 0)%Z.
Proof.
  apply (download_complete_on_the_fourth_poll fourth_poll_download url image line0 4 0).
  - vm_compute. reflexivity.
  - intros h. now exists "fxos_state".
  - intros h. unfold reports, fourth_poll_download, device. cbn [on_execute].
    change (String.prefix "show download-task" (download_task_cmd image)) with true.
    cbv beta iota.
    destruct (polls image h <? 3)%nat; do 3 eexists;
      (split; [reflexivity|]; split; vm_compute; reflexivity).
  - reflexivity.
  - intros h. cbn. lia.
  - lia.
  - lia.
Defined.

(* --------------------------------------------------------------------- *)
(** ** download_ftd_fp2k: the retry loop *)

Lemma ctrl_c_pause_returns fxos_url : forall n l,
  exists l',
    for_range n (sendline (chr 3) ;; sleep 10) l = Returned tt l' /\
    sm l' = sm l /\
    sent_lines (download_cmd fxos_url) (trace l') = sent_lines (download_cmd fxos_url) (trace l).
Proof.
  induction n as [|n IH]; intros l.
  - exists l. repeat split.
  - cbn [for_range]. unfold bind at 1. unfold bind at 1.
    unfold sendline at 1, emit, update. unfold sleep at 1, update.
    match goal with |- context [for_range n _ ?x] => destruct (IH x) as (l' & E & Hsm & Hs) end.
    exists l'. split; [exact E|]. split; [exact Hsm|].
    rewrite Hs. reflexivity.
Qed.

(** The pause between two attempts: [n] times Ctrl-C and ten seconds of
    sleep, and no query of the download task. *)
Lemma ctrl_c_pause_waits dev img : forall n l l',
  for_range n (sendline (chr 3) ;; sleep 10) l = Returned tt l' ->
  states_read dev img (trace l') = states_read dev img (trace l) /\
  sleeps 10 (trace l') = n + sleeps 10 (trace l).
Proof.
  induction n as [|n IH]; intros l l' H.
  - cbn in H. inversion H; subst. split; reflexivity.
  - cbn [for_range] in H. unfold bind at 1 in H. unfold bind at 1 in H.
    unfold sendline at 1, emit, update in H. unfold sleep at 1, update in H.
    apply IH in H. destruct H as [H1 H2]. rewrite H1, H2. split; [reflexivity|].
    cbn [sleeps trace with_clock with_trace Z.eqb Pos.eqb]. lia.
Qed.

(** One attempt that ends with the state [Failed]. *)
Lemma failed_attempt dev fxos_url img pw fuel wait_fuel retry_count l fxos :
  image_of_url fxos_url = Some img ->
  reaches_fxos dev ->
  (forall h, reports dev img h "Failed") ->
  (forall h c, exists out, on_execute_lines dev h c = Ok out) ->
  (forall h d t, exists out, on_process dev h d t = Ok out) ->
  get_state (sm l) "fxos_state" = Some fxos ->
  (0 < retry_count)%Z ->
  0 < wait_fuel ->
  exists la,
    sm la = sm l /\
    sent_lines (download_cmd fxos_url) (trace la)
    = S (sent_lines (download_cmd fxos_url) (trace l)) /\
    (download_loop dev (S fuel) wait_fuel fxos_url pw retry_count l =
    if (retry_count - 1 =? 0)%Z
    then Raised (RuntimeError (download_failed_msg fxos_url)) la
    else bind (for_range 30 (sendline (chr 3) ;; sleep 10))
           (fun _ => download_loop dev fuel wait_fuel fxos_url pw (retry_count - 1)%Z) la) /\
    states_read dev img (trace la) = Some "Failed" :: states_read dev img (trace l) /\
    sleeps 10 (trace la) = S (sleeps 10 (trace l)).
Proof.
  intros Himg Hgo Hfail Hlines Hproc Hsm Hrc Hwf.
  cbn [download_loop]. apply Z.gtb_lt in Hrc. rewrite Hrc.
  unfold bind at 1. unfold execute_lines at 1, exchange.
  match goal with |- context [on_execute_lines dev ?h ?c] =>
    destruct (Hlines h c) as [out Hout]; rewrite Hout end.
  unfold bind at 1. unfold sendline at 1, emit, update.
  unfold bind at 1. unfold sleep at 1, update.
  unfold bind at 1. unfold get_state_pattern, bind, read.
  cbn [sm with_clock with_trace]. rewrite Hsm. unfold ret at 1.
  unfold process at 1, exchange.
  match goal with |- context [on_process dev ?h ?d ?t] =>
    destruct (Hproc h d t) as [o Ho]; rewrite Ho end.
  match goal with |- context [_wait_till_download_complete dev wait_fuel fxos_url 1800 ?x] =>
    set (lw := x) end.
  rewrite (wait_till_download_complete_unfold dev wait_fuel fxos_url img 1800 lw Hgo Himg).
  destruct wait_fuel as [|wf]; [lia|].
  rewrite (wait_loop_step dev img _ 1800 0 (went dev lw) wf "Failed" Hgo (Hfail _)) by lia.
  cbn [String.eqb Ascii.eqb Bool.eqb].
  exists (after_poll dev img (went dev lw)).
  split; [reflexivity|].
  split; [|split; [destruct (retry_count - 1 =? 0)%Z; reflexivity|split]].
  - rewrite sent_lines_after_poll. unfold lw.
    cbn [sent_lines trace went with_current_state tick with_clock with_trace].
    now rewrite String.eqb_refl.
  - rewrite (states_read_after_poll dev img (went dev lw) "Failed" (Hfail _)).
    reflexivity.
  - rewrite sleeps_after_poll. reflexivity.
Qed.

Lemma download_loop_gives_up dev fxos_url img pw wait_fuel fxos :
  image_of_url fxos_url = Some img ->
  reaches_fxos dev ->
  (forall h, reports dev img h "Failed") ->
  (forall h c, exists out, on_execute_lines dev h c = Ok out) ->
  (forall h d t, exists out, on_process dev h d t = Ok out) ->
  0 < wait_fuel ->
  forall k fuel l,
    get_state (sm l) "fxos_state" = Some fxos ->
    0 < k -> k <= fuel ->
    exists l',
      download_loop dev fuel wait_fuel fxos_url pw (Z.of_nat k) l =
      Raised (RuntimeError (download_failed_msg fxos_url)) l' /\
      sent_lines (download_cmd fxos_url) (trace l')
      = k + sent_lines (download_cmd fxos_url) (trace l) /\
      states_read dev img (trace l') =
      (repeat (Some "Failed") k ++ states_read dev img (trace l))%list /\
      sleeps 10 (trace l') = k + 30 * (k - 1) + sleeps 10 (trace l).
Proof.
  intros Himg Hgo Hfail Hlines Hproc Hwf.
  induction k as [|k IH]; intros fuel l Hsm Hk Hfuel; [lia|].
  destruct fuel as [|fuel]; [lia|].
  destruct (failed_attempt dev fxos_url img pw fuel wait_fuel (Z.of_nat (S k)) l fxos
              Himg Hgo Hfail Hlines Hproc Hsm ltac:(lia) Hwf)
    as (la & Hsma & Hsent & E & Hread & Hslept).
  rewrite E. destruct k as [|k].
  - cbn [Z.of_nat Pos.of_succ_nat Z.sub Z.opp Z.add Z.pos_sub Z.eqb].
    exists la. split; [reflexivity|]. split; [exact Hsent|].
    split; [exact Hread | rewrite Hslept; lia].
  - replace (Z.of_nat (S (S k)) - 1 =? 0)%Z with false by (symmetry; apply Z.eqb_neq; lia).
    unfold bind at 1.
    destruct (ctrl_c_pause_returns fxos_url 30 la) as (lb & Eb & Hsmb & Hsb).
    rewrite Eb.
    destruct (ctrl_c_pause_waits dev img 30 la lb Eb) as [Hrb Hzb].
    replace (Z.of_nat (S (S k)) - 1)%Z with (Z.of_nat (S k)) by lia.
    destruct (IH fuel lb) as (l' & El & Hl' & Hr' & Hz'); [congruence | lia | lia |].
    exists l'. split; [exact El|]. split; [rewrite Hl', Hsb, Hsent; lia|].
    split.
    + rewrite Hr', Hrb, Hread. now rewrite repeat_snoc.
    + rewrite Hz', Hzb, Hslept. lia.
Qed.

Lemma no_wait_app dev img evs h :
  Forall (no_wait img) evs ->
  states_read dev img (evs ++ h) = states_read dev img h /\
  sleeps 10 (evs ++ h) = sleeps 10 h.
Proof.
  induction 1 as [|e evs He Hevs [IH1 IH2]]; [split; reflexivity|].
  destruct e as [| cmd [t|] | | | | | | | | |]; cbn in *; try (split; assumption).
  - rewrite He. split; assumption.
  - contradiction.
Qed.

Lemma grows_no_wait dev img l l' :
  grows (no_wait img) l l' ->
  states_read dev img (trace l') = states_read dev img (trace l) /\
  sleeps 10 (trace l') = sleeps 10 (trace l).
Proof. intros [(evs & -> & H) _]. now apply no_wait_app. Qed.

Lemma no_wait_is_firmware_fp2k_ready dev img v :
  adds (no_wait img) (is_firmware_fp2k_ready dev v).
Proof. unfold is_firmware_fp2k_ready, execute_lines. frame. Qed.

Lemma no_wait_get_packages dev img : adds (no_wait img) (get_packages dev).
Proof.
  unfold get_packages, execute_lines, execute. frame;
    try (apply adds_exchange; reflexivity).
  all: match goal with |- adds _ (parse_packages ?ls) => generalize ls end.
  all: intros ls; induction ls as [|x ls IH]; cbn; frame; exact IH.
Qed.



End KpFacts.

(* ===================================================================== *)
(** * The graph of KpStateMachine: what can be reached *)
(* ===================================================================== *)

Module StateMachineMore.
Import Dialogs StateMachine Notions MoreNotions StateMachineFacts.

Section Kp.
Variable patterns : KpPatterns.
Variable ftd_dialogs : Ftd5500xDialog.
Variable login_password_statement : Rule.

Let kp : Machine := create patterns ftd_dialogs login_password_statement.

Lemma kp_within_5 : within kp 5 = true.
Proof. vm_compute. reflexivity. Qed.

Lemma kp_config_to_prelogin : dist kp "config_state" "prelogin_state" = Some 5.
Proof. vm_compute. reflexivity. Qed.

Lemma no_path_out_of_rommon :
  forall p, In p (paths kp) -> name (from_state p) <> "rommon_state".
Proof.
  intros p Hp. cbn in Hp.
  repeat (destruct Hp as [<-|Hp]; [cbn; discriminate|]). destruct Hp.
Qed.
End Kp.

(** X1: in the graph built by [KpStateMachine.create], every state other
    than [rommon_state] can be reached from every other such state by a
    route of at most five Paths, and five are needed from [config_state]
    to [prelogin_state]. *)
Theorem kp_states_are_within_five_paths :
  forall (patterns : KpPatterns) (ftd_dialogs : Ftd5500xDialog) (statement : Rule)
         (a b : string),
    let kp := create patterns ftd_dialogs statement in
    In a (names kp) -> In b (names kp) ->
    a <> "rommon_state" -> b <> "rommon_state" ->
    (exists r, route (paths kp) a r b /\ length r <= 5) /\
    (forall r, route (paths kp) "config_state" r "prelogin_state" -> 5 <= length r).
Proof.
  intros patterns ftd_dialogs statement a b kp Ha Hb Hna Hnb. split.
  - pose proof (kp_within_5 patterns ftd_dialogs statement) as H.
    unfold within in H. rewrite forallb_forall in H. specialize (H a Ha).
    rewrite forallb_forall in H. specialize (H b Hb).
    apply String.eqb_neq in Hna, Hnb. rewrite Hna, Hnb in H. cbn [orb] in H.
    fold kp in H. destruct (find_path kp a b) as [r|] eqn:E; [|discriminate].
    exists r. split; [now apply find_path_sound | now apply Nat.leb_le].
  - intros r Hr.
    destruct (dist_le_route kp (kp_diag_ok patterns ftd_dialogs statement)
                (kp_triangle_ok patterns ftd_dialogs statement)
                "config_state" r "prelogin_state" Hr) as (m & Hm & Hle).
    + cbn. auto 12.
    + unfold kp in Hm. rewrite kp_config_to_prelogin in Hm. inversion Hm. lia.
Qed.

Lemma kp_states_are_within_five_paths_witness :
  (exists r, route (paths Scenario.kp_machine) "sudo_state" r "local_mgmt_state" /\
             length r <= 5) /\
  (forall r, route (paths Scenario.kp_machine) "config_state" r "prelogin_state" ->
             5 <= length r).
Proof.
  apply (kp_states_are_within_five_paths Scenario.patterns Scenario.no_ftd_dialogs
           Scenario.login_statement "sudo_state" "local_mgmt_state").
  - cbn. auto 12.
  - cbn. auto 12.
  - discriminate.
  - discriminate.
Defined.

(** X2: [rommon_state] is registered in the state machine but no Path
    starts or ends there: the only route that starts or ends in
    [rommon_state] is the empty one. *)
Theorem rommon_state_is_isolated :
  forall (patterns : KpPatterns) (ftd_dialogs : Ftd5500xDialog) (statement : Rule)
         (a b : string) (r : list Path),
    let kp := create patterns ftd_dialogs statement in
    route (paths kp) a r b ->
    a = "rommon_state" \/ b = "rommon_state" ->
    r = [] /\ a = b /\ In "rommon_state" (names kp).
Proof.
  intros patterns ftd_dialogs statement a b r kp Hr H.
  assert (Hfrom : a = "rommon_state" -> r = [] /\ a = b).
  { intros Ha. inversion Hr as [|p r' b' Hp Hr' E1]; subst; [now split|].
    exfalso. now apply (no_path_out_of_rommon patterns ftd_dialogs statement p). }
  split; [|split].
  - destruct H as [Ha|Hb]; [now apply Hfrom|].
    destruct (route_ends _ _ _ _ Hr) as [E|(p & Hp & E)].
    + apply Hfrom. congruence.
    + exfalso. apply (no_path_into_rommon patterns ftd_dialogs statement p Hp). congruence.
  - destruct H as [Ha|Hb]; [now apply Hfrom|].
    destruct (route_ends _ _ _ _ Hr) as [E|(p & Hp & E)]; [exact E|].
    exfalso. apply (no_path_into_rommon patterns ftd_dialogs statement p Hp). congruence.
  - cbn. auto 12.
Qed.

Lemma rommon_state_is_isolated_witness :
  @nil Path = [] /\ "rommon_state" = "rommon_state" /\
  In "rommon_state" (names Scenario.kp_machine).
Proof.
  apply (rommon_state_is_isolated Scenario.patterns Scenario.no_ftd_dialogs
           Scenario.login_statement "rommon_state" "rommon_state" []).
  - apply route_here.
  - left. reflexivity.
Defined.

End StateMachineMore.

(* ===================================================================== *)
(** * KpLine: further properties *)
(* ===================================================================== *)

Module KpMoreFacts.
Import Dialogs StateMachine Console Notions MoreNotions ConsoleFacts Kp KpMore KpFrames.
Import KpFacts.
Local Open Scope line_scope.

(** ** Tools *)

(** How a sequence ends: in its first part, or in its second part after
    the first has returned. *)
Lemma final_bind {A B} (m : M A) (k : A -> M B) l l' :
  final (bind m k l) = Some l' ->
  (exists e, m l = Raised e l') \/
  (exists a l1, m l = Returned a l1 /\ final (k a l1) = Some l').
Proof.
  unfold bind. destruct (m l) as [a l1|e l1|]; cbn; intros H.
  - right. now exists a, l1.
  - left. exists e. now inversion H.
  - discriminate.
Qed.

Lemma executed_only_app evs h :
  Forall (fun e => match e with EvExecuteOnly _ => False | _ => True end) evs ->
  executed_only (evs ++ h) = executed_only h.
Proof.
  induction 1 as [|e evs He Hevs IH]; [reflexivity|].
  destruct e; cbn in *; auto. contradiction.
Qed.

(* --------------------------------------------------------------------- *)
(** ** power_cycle *)

(** X3: when [power_cycle] is given a server or a port and gets past its
    guard, the four stored power-bar settings are replaced by the four
    arguments, a missing one included, and [power_cycle_all_ports] is
    called with the arguments: naming only the server on a line that has a
    port stored calls the power bar with port [None] and the stored port is
    gone.  Without waiting for the device, the call returns what the power
    bar answers. *)
Theorem power_cycle_replaces_the_stored_power_bar :
  forall (dev : Device) (l : Line) (server port : PyStr.t) (timeout : Z)
         (user pwd : PyStr.t),
    no_power_bar l server port = false ->
    PyStr.truthy server || PyStr.truthy port = true ->
    exists l1,
      power_cycle dev server port false timeout user pwd l =
      match on_power_cycle dev (trace l) server port user pwd with
      | Ok b => Returned (Some b) l1
      | Fails e => Raised e l1
      end /\
      trace l1 = EvPowerCycle server port user pwd :: trace l /\
      power_bar_server l1 = server /\ power_bar_port l1 = port /\
      power_bar_user l1 = user /\ power_bar_pwd l1 = pwd.
Proof.
  intros dev l server port timeout user pwd Hguard Hgiven.
  exists (tick dev (EvPowerCycle server port user pwd)
            (with_power_bar server port user pwd l)).
  split; [|repeat split].
  unfold power_cycle, bind, read. unfold no_power_bar in Hguard.
  rewrite Hguard, Hgiven.
  unfold set_power_bar, update, power_cycle_all_ports, exchange, ret, tick. cbn.
  destruct (on_power_cycle dev (trace l) server port user pwd); reflexivity.
Qed.

Lemma power_cycle_replaces_the_stored_power_bar_witness :
  exists l1,
    power_cycle Scenario.silent_device (Some "10.0.0.1") None false 600
      (Some "admn") (Some "admn")
      (with_power_bar (Some "10.0.0.9") (Some "7") (Some "root") (Some "secret")
         Scenario.line0) =
    match on_power_cycle Scenario.silent_device [] (Some "10.0.0.1") None
            (Some "admn") (Some "admn") with
    | Ok b => Returned (Some b) l1
    | Fails e => Raised e l1
    end /\
    trace l1 = [EvPowerCycle (Some "10.0.0.1") None (Some "admn") (Some "admn")] /\
    power_bar_server l1 = Some "10.0.0.1" /\ power_bar_port l1 = None /\
    power_bar_user l1 = Some "admn" /\ power_bar_pwd l1 = Some "admn".
Proof.
  apply (power_cycle_replaces_the_stored_power_bar Scenario.silent_device
           (with_power_bar (Some "10.0.0.9") (Some "7") (Some "root") (Some "secret")
              Scenario.line0)
           (Some "10.0.0.1") None 600 (Some "admn") (Some "admn")).
  - reflexivity.
  - reflexivity.
Defined.

(** X4: on a line that is not in [rommon_state] and has no valid server
    or no valid port stored, [power_cycle_goto_rommon] called without a
    server and a port does not power-cycle anything, yet it goes on to
    wait for the rommon prompt: it behaves exactly as [wait_for_rommon]. *)
Theorem power_cycle_goto_rommon_without_power_bar_still_waits :
  forall (dev : Device) (l : Line) (timeout : Z) (user pwd : PyStr.t),
    sm_current_state l <> "rommon_state" ->
    PyStr.truthy (power_bar_server l) = false \/
    PyStr.truthy (power_bar_port l) = false ->
    power_cycle_goto_rommon dev timeout None None user pwd l =
    wait_for_rommon dev timeout l.
Proof.
  intros dev l timeout user pwd Hstate Hbar.
  unfold power_cycle_goto_rommon. unfold bind at 1. unfold read at 1.
  apply String.eqb_neq in Hstate. rewrite Hstate.
  unfold bind at 1.
  assert (E : power_cycle dev None None false 600 user pwd l = Returned None l).
  { unfold power_cycle, bind, read.
    destruct Hbar as [H|H]; rewrite H; cbn; [reflexivity | now rewrite !orb_true_r]. }
  now rewrite E.
Qed.

Lemma power_cycle_goto_rommon_without_power_bar_still_waits_witness :
  power_cycle_goto_rommon Scenario.silent_device 300 None None (Some "admn") (Some "admn")
    Scenario.line0 =
  wait_for_rommon Scenario.silent_device 300 Scenario.line0.
Proof.
  apply (power_cycle_goto_rommon_without_power_bar_still_waits Scenario.silent_device
           Scenario.line0 300 (Some "admn") (Some "admn")).
  - discriminate.
  - left. reflexivity.
Defined.

(* --------------------------------------------------------------------- *)
(** ** init_terminal *)

(** The commands of [KpInitCmds], once split and stripped. *)
Lemma init_cmds_of_KpInitCmds dev :
  init_cmds dev (PyStr.split (ascii_of_nat 10) KpInitCmds) =
  (execute_only dev "top" ;;
   execute_only dev "terminal length 0" ;;
   execute_only dev "terminal width 511" ;;
   ret tt).
Proof. reflexivity. Qed.

Lemma adds_find_fxos dev b :
  adds (fun e => match e with EvExecuteOnly _ => False | _ => True end) (find_fxos dev b).
Proof.
  unfold find_fxos. apply adds_bind.
  - destruct b; [apply adds_go_to; exact I | apply adds_ret].
  - intros _. apply adds_bind; [apply adds_go_to; exact I | intros _; apply adds_ret].
Qed.

(** X5: when one of the [go_to] of [init_terminal] raises, a
    [StateMachineError] is swallowed and the call returns, any other
    exception is raised to the caller; in both cases no terminal command
    has been executed. *)
Theorem init_terminal_swallows_state_machine_errors :
  forall (dev : Device) (determine_state : bool) (l l1 : Line) (e : Exn),
    ((if determine_state then go_to dev "any" else ret tt) ;;
     go_to dev "fxos_state" ;; ret true) l = Raised e l1 ->
    init_terminal dev determine_state l =
    (if is_StateMachineError e then Returned tt l1 else Raised e l1) /\
    executed_only (trace l1) = executed_only (trace l).
Proof.
  intros dev b l l1 e H. split.
  - unfold init_terminal. unfold bind at 1. unfold try_except. rewrite H.
    destruct (is_StateMachineError e); reflexivity.
  - pose proof (raised_grows _ _ _ _ _ (adds_find_fxos dev b) H) as [(evs & -> & F) _].
    now apply executed_only_app.
Qed.

Lemma init_terminal_swallows_state_machine_errors_witness :
  exists l1,
    init_terminal Scenario.silent_device true Scenario.line0 =
    (if is_StateMachineError (StateMachineError "timeout")
     then Returned tt l1 else Raised (StateMachineError "timeout") l1) /\
    executed_only (trace l1) = executed_only (trace Scenario.line0).
Proof.
  eexists.
  apply (init_terminal_swallows_state_machine_errors Scenario.silent_device true
           Scenario.line0 _ (StateMachineError "timeout")).
  reflexivity.
Defined.

(** X6: when the [go_to] of [init_terminal] succeed and the device takes
    the commands, the call returns after executing [top],
    [terminal length 0] and [terminal width 511], in this order and nothing
    else, with the line in [fxos_state]. *)
Theorem init_terminal_sets_the_terminal :
  forall (dev : Device) (determine_state : bool) (l l1 : Line),
    ((if determine_state then go_to dev "any" else ret tt) ;;
     go_to dev "fxos_state" ;; ret true) l = Returned true l1 ->
    (forall h cmd, on_execute_only dev h cmd = Ok tt) ->
    exists l',
      init_terminal dev determine_state l = Returned tt l' /\
      executed_only (trace l') =
      (executed_only (trace l) ++ ["top"; "terminal length 0"; "terminal width 511"])%list /\
      sm_current_state l' = "fxos_state".
Proof.
  intros dev b l l1 H Hexec.
  assert (Hstate : sm_current_state l1 = "fxos_state").
  { clear Hexec. unfold bind at 1 in H.
    destruct ((if b then go_to dev "any" else ret tt) l) as [[] l0|e l0|]; try discriminate.
    unfold bind at 1 in H. unfold go_to at 1 in H. unfold bind, exchange, update in H.
    destruct (on_go_to dev (trace l0) "fxos_state"); [|discriminate].
    unfold ret in H. now inversion H. }
  pose proof (returned_grows _ _ _ _ _ (adds_find_fxos dev b) H) as [(evs & Ht & F) _].
  unfold init_terminal. unfold bind at 1. unfold try_except. rewrite H.
  rewrite init_cmds_of_KpInitCmds.
  unfold bind, execute_only, exchange. rewrite !Hexec. cbn [trace with_trace with_clock].
  rewrite ?Hexec. eexists. split; [reflexivity|]. split.
  - cbn [trace with_trace with_clock executed_only]. rewrite Ht.
    rewrite (executed_only_app evs (trace l) F). now rewrite <- !app_assoc.
  - exact Hstate.
Qed.

Lemma init_terminal_sets_the_terminal_witness :
  exists l',
    init_terminal Scenario.installed_device true Scenario.line0 = Returned tt l' /\
    executed_only (trace l') =
    (executed_only (trace Scenario.line0) ++
     ["top"; "terminal length 0"; "terminal width 511"])%list /\
    sm_current_state l' = "fxos_state".
Proof.
  eapply (init_terminal_sets_the_terminal Scenario.installed_device true Scenario.line0).
  - reflexivity.
  - reflexivity.
Defined.

(* --------------------------------------------------------------------- *)
(** ** expect_and_sendline and rommon_configure *)

Lemma expect_and_sendline_round dev pat text third rest timeout l :
  expect_and_sendline dev ((pat, text, third) :: rest) timeout l =
  match on_expect dev (EvSendline text :: trace l) pat
          (match third with Some t => t | None => timeout end) with
  | Ok _ => expect_and_sendline dev rest timeout
              (tick dev (EvExpect pat (match third with Some t => t | None => timeout end))
                 (with_trace (EvSendline text :: trace l) l))
  | Fails e => Raised e
              (tick dev (EvExpect pat (match third with Some t => t | None => timeout end))
                 (with_trace (EvSendline text :: trace l) l))
  end.
Proof.
  cbn [expect_and_sendline]. unfold bind, sendline, emit, update, expect, exchange.
  cbn [trace with_trace with_clock].
  destruct (on_expect dev (EvSendline text :: trace l) pat
              (match third with Some t => t | None => timeout end)); reflexivity.
Qed.

Lemma es_script_cons timeout pat text third rest :
  es_script timeout ((pat, text, third) :: rest) =
  (EvSendline text
   :: EvExpect pat (match third with Some t => t | None => timeout end)
   :: es_script timeout rest)%list.
Proof. reflexivity. Qed.

Lemma es_reply_later dev timeout pat text third rest h j :
  es_reply dev timeout ((pat, text, third) :: rest) h (S j) =
  es_reply dev timeout rest
    (EvExpect pat (match third with Some t => t | None => timeout end)
     :: EvSendline text :: h) j.
Proof.
  unfold es_reply. cbn [nth_error firstn]. rewrite es_script_cons.
  destruct (nth_error rest j) as [[[p s] t]|]; [|reflexivity].
  cbn [rev]. rewrite <- !app_assoc. reflexivity.
Qed.

(** X7: [expect_and_sendline] works through its list in order, for every
    entry sending the string first and expecting the pattern after it,
    with the timeout of the entry when it has one.  When the expects of
    the first [k] entries come back, the call gets to the entry after
    them: if there is none, it returns, having sent and expected all the
    entries and nothing else; and if the expect of that entry raises, the
    call ends with that exception, having sent its string and expected
    its pattern, and nothing of the later entries is sent. *)
Theorem expect_and_sendline_stops_at_the_first_failure :
  forall (dev : Device) (es_list : list (string * string * option Z)) (timeout : Z)
         (l : Line) (k : nat),
    (forall j, j < k -> es_reply dev timeout es_list (trace l) j = Some (Ok tt)) ->
    (k = length es_list ->
     exists l',
       expect_and_sendline dev es_list timeout l = Returned tt l' /\
       trace l' = (rev (es_script timeout es_list) ++ trace l)%list) /\
    (forall e,
        es_reply dev timeout es_list (trace l) k = Some (Fails e) ->
        exists l',
          expect_and_sendline dev es_list timeout l = Raised e l' /\
          trace l' = (rev (es_script timeout (firstn (S k) es_list)) ++ trace l)%list).
Proof.
  intros dev es_list timeout.
  induction es_list as [|[[pat text] third] rest IH]; intros l k Hok.
  - split.
    + intros _. exists l. split; reflexivity.
    + intros e H. unfold es_reply in H. destruct k; discriminate H.
  - rewrite expect_and_sendline_round.
    set (to := match third with Some t => t | None => timeout end) in *.
    set (l1 := tick dev (EvExpect pat to) (with_trace (EvSendline text :: trace l) l)).
    destruct k as [|k].
    + split; [intros H; discriminate H|].
      intros e H. unfold es_reply in H. cbn [nth_error firstn es_script flat_map rev app] in H.
      fold to in H. inversion H as [H']. rewrite H'.
      exists l1. split; reflexivity.
    + pose proof (Hok 0 ltac:(lia)) as H0. unfold es_reply in H0.
      cbn [nth_error firstn es_script flat_map rev app] in H0. fold to in H0.
      inversion H0 as [H0']. rewrite H0'.
      assert (Hok1 : forall j, j < k ->
                es_reply dev timeout rest (trace l1) j = Some (Ok tt)).
      { intros j Hj. specialize (Hok (S j) ltac:(lia)).
        rewrite es_reply_later in Hok. exact Hok. }
      destruct (IH l1 k Hok1) as [Hall Hfail]. split.
      * intros Hk. destruct Hall as (l' & E & Ht); [cbn in Hk; lia|].
        exists l'. split; [exact E|]. rewrite Ht, es_script_cons. fold to.
        cbn [rev]. rewrite <- !app_assoc. reflexivity.
      * intros e He. rewrite es_reply_later in He. fold to in He.
        destruct (Hfail e He) as (l' & E & Ht).
        exists l'. split; [exact E|].
        rewrite Ht. change (firstn (S (S k)) ((pat, text, third) :: rest))
          with ((pat, text, third) :: firstn (S k) rest).
        rewrite es_script_cons. fold to. cbn [rev]. rewrite <- !app_assoc. reflexivity.
Qed.

Lemma expect_and_sendline_stops_at_the_first_failure_witness :
  exists l',
    expect_and_sendline MoreScenario.deaf_server MoreScenario.three_settings 10
      Scenario.line0 = Raised TimeoutError l' /\
    trace l' =
    (rev (es_script 10 (firstn 2 MoreScenario.three_settings)) ++ trace Scenario.line0)%list.
Proof.
  apply (proj2 (expect_and_sendline_stops_at_the_first_failure MoreScenario.deaf_server
                  MoreScenario.three_settings 10 Scenario.line0 1
                  (fun j Hj => match j as j0 return
                                 j0 < 1 ->
                                 es_reply MoreScenario.deaf_server 10
                                   MoreScenario.three_settings (trace Scenario.line0) j0
                                 = Some (Ok tt) with
                               | O => fun _ => eq_refl
                               | S j' => fun H => ltac:(lia)
                               end Hj))).
  reflexivity.
Defined.

Lemma ping_round dev server m l :
  on_expect dev (EvSendline (ping_cmd server) :: trace l) ping_answer 5 = Fails TimeoutError ->
  ping_loop dev (S m) server l = ping_loop dev m server (after_lost_ping dev server l).
Proof.
  intros H. cbn [ping_loop]. unfold bind at 1. unfold sendline, emit, update.
  unfold bind at 1. unfold try_except. unfold bind at 1. unfold expect, exchange.
  cbn [trace with_trace with_clock]. fold (ping_cmd server). fold ping_answer.
  rewrite H. cbn [is_TimeoutError]. reflexivity.
Qed.

Lemma ping_answered dev server m l :
  on_expect dev (EvSendline (ping_cmd server) :: trace l) ping_answer 5 = Ok tt ->
  ping_loop dev (S m) server l =
  Returned tt (tick dev (EvExpect ping_answer 5)
                 (with_trace (EvSendline (ping_cmd server) :: trace l) l)).
Proof.
  intros H. cbn [ping_loop]. unfold bind at 1. unfold sendline, emit, update.
  unfold bind at 1. unfold try_except. unfold bind at 1. unfold expect, exchange.
  cbn [trace with_trace with_clock]. fold (ping_cmd server). fold ping_answer.
  rewrite H. reflexivity.
Qed.

Lemma sent_lines_after_lost_ping dev server l :
  sent_lines (ping_cmd server) (trace (after_lost_ping dev server l)) =
  S (sent_lines (ping_cmd server) (trace l)).
Proof. cbn. now rewrite String.eqb_refl. Qed.

Lemma sleeps_after_lost_ping dev server l :
  sleeps 60 (trace (after_lost_ping dev server l)) = S (sleeps 60 (trace l)).
Proof. reflexivity. Qed.

Lemma clock_after_lost_ping dev server l :
  (clock l + 60 <= clock (after_lost_ping dev server l))%Z.
Proof. cbn. lia. Qed.

(** Twenty pings, or any number of them, none answered in time. *)
Lemma ping_loop_gives_up dev server :
  (forall h, on_expect dev h ping_answer 5 = Fails TimeoutError) ->
  forall n l,
  exists l',
    ping_loop dev n server l =
    Raised (RuntimeError (">>>>>> Ping to " ++ server ++ " server not working")) l' /\
    sent_lines (ping_cmd server) (trace l') = sent_lines (ping_cmd server) (trace l) + n /\
    sleeps 60 (trace l') = sleeps 60 (trace l) + n /\
    (clock l + 60 * Z.of_nat n <= clock l')%Z.
Proof.
  intros Hlost. induction n as [|n IH]; intros l.
  - exists l. cbn [ping_loop]. split; [reflexivity|]. repeat split; lia.
  - rewrite ping_round by apply Hlost.
    destruct (IH (after_lost_ping dev server l)) as (l' & E & Hs & Hz & Hc).
    exists l'. split; [exact E|].
    rewrite sent_lines_after_lost_ping in Hs. rewrite sleeps_after_lost_ping in Hz.
    pose proof (clock_after_lost_ping dev server l).
    repeat split; lia.
Qed.

Lemma expect_and_sendline_accepted dev timeout : forall es_list l,
  (forall h es, In es es_list ->
     on_expect dev h (fst (fst es))
       (match snd es with Some t => t | None => timeout end) = Ok tt) ->
  exists l',
    expect_and_sendline dev es_list timeout l = Returned tt l' /\
    trace l' = (rev (es_script timeout es_list) ++ trace l)%list /\
    (clock l <= clock l')%Z.
Proof.
  induction es_list as [|[[pat text] third] rest IH]; intros l Hok.
  - exists l. split; [reflexivity|]. split; [reflexivity | lia].
  - set (to := match third with Some t => t | None => timeout end).
    set (l1 := tick dev (EvExpect pat to) (with_trace (EvSendline text :: trace l) l)).
    assert (Estep : expect_and_sendline dev ((pat, text, third) :: rest) timeout l =
                    expect_and_sendline dev rest timeout l1).
    { cbn [expect_and_sendline]. unfold bind, sendline, emit, update, expect, exchange.
      cbn [trace with_trace with_clock]. fold to.
      pose proof (Hok (EvSendline text :: trace l) (pat, text, third) (or_introl eq_refl)) as E.
      cbn [fst snd] in E. fold to in E. rewrite E. reflexivity. }
    rewrite Estep. destruct (IH l1) as (l' & E & Ht & Hc).
    { intros h es Hin. apply Hok. now right. }
    exists l'. split; [exact E|]. split.
    + rewrite Ht.
      change (es_script timeout ((pat, text, third) :: rest))
        with ([EvSendline text; EvExpect pat to] ++ es_script timeout rest)%list.
      rewrite rev_app_distr. rewrite <- app_assoc. reflexivity.
    + assert (clock l <= clock l1)%Z by (cbn; lia). lia.
Qed.

(** The six settings of [rommon_configure], all acknowledged. *)
Lemma rommon_settings_accepted dev server file ip mask gw l :
  (forall h, on_expect dev h "rommon" 10 = Ok tt) ->
  exists l1,
    expect_and_sendline dev
      [("rommon", "address " ++ ip, None);
       ("rommon", "netmask " ++ mask, None);
       ("rommon", "gateway " ++ gw, None);
       ("rommon", "server " ++ server, None);
       ("rommon", "image " ++ file, None);
       ("rommon", "sync", None)] 10 l = Returned tt l1 /\
    sent_lines (ping_cmd server) (trace l1) = sent_lines (ping_cmd server) (trace l) /\
    sleeps 60 (trace l1) = sleeps 60 (trace l) /\
    (clock l <= clock l1)%Z.
Proof.
  intros Hok.
  match goal with |- context [expect_and_sendline dev ?es 10 l] =>
    destruct (expect_and_sendline_accepted dev 10 es l) as (l1 & E & Ht & Hc) end.
  { intros h es Hin. cbn [In] in Hin.
    repeat (destruct Hin as [<-|Hin]; [apply Hok|]). destruct Hin. }
  exists l1. split; [exact E|]. rewrite Ht. split; [|split; [|exact Hc]].
  - reflexivity.
  - reflexivity.
Qed.

(** X8: when the six settings are acknowledged and none of the pings is
    answered within its five seconds, [rommon_configure] pings the server
    twenty times, sleeping sixty seconds after each, and then raises the
    [RuntimeError] that names the server: the call takes twenty minutes at
    least. *)
Theorem rommon_configure_gives_up_after_twenty_pings :
  forall (dev : Device) (tftp_server rommon_file uut_ip uut_netmask uut_gateway : string)
         (l : Line),
    (forall h, on_expect dev h "rommon" 10 = Ok tt) ->
    (forall h, on_expect dev h "Success rate is 100 percent" 5 = Fails TimeoutError) ->
    exists l',
      rommon_configure dev tftp_server rommon_file uut_ip uut_netmask uut_gateway l =
      Raised (RuntimeError (">>>>>> Ping to " ++ tftp_server ++ " server not working")) l' /\
      sent_lines ("ping " ++ tftp_server) (trace l') =
      sent_lines ("ping " ++ tftp_server) (trace l) + 20 /\
      sleeps 60 (trace l') = sleeps 60 (trace l) + 20 /\
      (clock l + 1200 <= clock l')%Z.
Proof.
  intros dev server file ip mask gw l Hok Hlost.
  destruct (rommon_settings_accepted dev server file ip mask gw l Hok)
    as (l1 & E1 & Hs1 & Hz1 & Hc1).
  destruct (ping_loop_gives_up dev server Hlost 20 l1) as (l' & E & Hs & Hz & Hc).
  exists l'. unfold rommon_configure. unfold bind at 1. rewrite E1.
  split; [exact E|]. fold (ping_cmd server). repeat split; lia.
Qed.

Lemma rommon_configure_gives_up_after_twenty_pings_witness :
  exists l',
    rommon_configure MoreScenario.deaf_server "10.89.23.30" "fxos-k8-fp2k-lfbff.SSB"
      "10.0.0.2" "255.255.255.0" "10.0.0.1" Scenario.line0 =
    Raised (RuntimeError (">>>>>> Ping to " ++ "10.89.23.30" ++ " server not working")) l' /\
    sent_lines ("ping " ++ "10.89.23.30") (trace l') =
    sent_lines ("ping " ++ "10.89.23.30") (trace Scenario.line0) + 20 /\
    sleeps 60 (trace l') = sleeps 60 (trace Scenario.line0) + 20 /\
    (clock Scenario.line0 + 1200 <= clock l')%Z.
Proof.
  apply (rommon_configure_gives_up_after_twenty_pings MoreScenario.deaf_server
           "10.89.23.30" "fxos-k8-fp2k-lfbff.SSB" "10.0.0.2" "255.255.255.0" "10.0.0.1"
           Scenario.line0).
  - reflexivity.
  - reflexivity.
Defined.

(** X9: when the pings sent so far number [k] at most twenty and the
    first of them to be answered is the [k]-th, the ping loop of
    [rommon_configure] returns after [k] pings and [k - 1] sleeps of sixty
    seconds: it stops at the first answer. *)
Theorem ping_loop_stops_at_the_first_answer :
  forall (dev : Device) (tftp_server : string) (k n : nat) (l : Line),
    let sent h := sent_lines ("ping " ++ tftp_server) h in
    0 < k -> k <= n ->
    (forall h, sent h < sent (trace l) + k ->
               on_expect dev h "Success rate is 100 percent" 5 = Fails TimeoutError) ->
    (forall h, sent h = sent (trace l) + k ->
               on_expect dev h "Success rate is 100 percent" 5 = Ok tt) ->
    exists l',
      ping_loop dev n tftp_server l = Returned tt l' /\
      sent (trace l') = sent (trace l) + k /\
      sleeps 60 (trace l') = sleeps 60 (trace l) + (k - 1).
Proof.
  intros dev server k n l sent. fold (ping_cmd server) in sent. fold ping_answer.
  revert n l. induction k as [|k IH]; intros n l Hk Hn Hlost Hans; [lia|].
  destruct n as [|n]; [lia|].
  destruct k as [|k].
  - rewrite ping_answered.
    + eexists. split; [reflexivity|]. unfold sent. cbn. rewrite String.eqb_refl.
      split; lia.
    + apply Hans. unfold sent. cbn. rewrite String.eqb_refl. lia.
  - rewrite ping_round.
    + destruct (IH n (after_lost_ping dev server l)) as (l' & E & Hs & Hz).
      * lia.
      * lia.
      * intros h Hh. apply Hlost. unfold sent in *.
        rewrite sent_lines_after_lost_ping in Hh. lia.
      * intros h Hh. apply Hans. unfold sent in *.
        rewrite sent_lines_after_lost_ping in Hh. lia.
      * exists l'. split; [exact E|]. unfold sent in *.
        rewrite sent_lines_after_lost_ping in Hs. rewrite sleeps_after_lost_ping in Hz.
        split; lia.
    + apply Hlost. unfold sent. cbn. rewrite String.eqb_refl. lia.
Qed.

Lemma ping_loop_stops_at_the_first_answer_witness :
  exists l',
    ping_loop MoreScenario.third_ping_answered 20 "10.89.23.30" Scenario.line0 =
    Returned tt l' /\
    sent_lines ("ping " ++ "10.89.23.30") (trace l') =
    sent_lines ("ping " ++ "10.89.23.30") (trace Scenario.line0) + 3 /\
    sleeps 60 (trace l') = sleeps 60 (trace Scenario.line0) + (3 - 1).
Proof.
  apply (ping_loop_stops_at_the_first_answer MoreScenario.third_ping_answered
           "10.89.23.30" 3 20 Scenario.line0).
  - lia.
  - lia.
  - intros h Hh. cbn in Hh. cbn.
    destruct (sent_lines "ping 10.89.23.30" h) as [|[|[|x]]]; try reflexivity; lia.
  - intros h Hh. cbn in Hh. cbn. rewrite Hh. reflexivity.
Defined.

(* --------------------------------------------------------------------- *)
(** ** The download: what the waiting returns, how often it is started *)

Lemma returned_bind {A B} (m : M A) (k : A -> M B) l b l' :
  bind m k l = Returned b l' ->
  exists a l1, m l = Returned a l1 /\ k a l1 = Returned b l'.
Proof.
  unfold bind. destruct (m l) as [a l1|e l1|]; try discriminate.
  intros H. now exists a, l1.
Qed.

Lemma wait_loop_returns dev img start upto : forall fuel elapsed l status l',
  wait_loop dev fuel img start upto elapsed l = Returned status l' ->
  status = "Downloaded" \/ status = "Failed".
Proof.
  induction fuel as [|fuel IH]; intros elapsed l status l' H; [discriminate|].
  cbn [wait_loop] in H. destruct (elapsed <? upto)%Z; [|discriminate].
  apply returned_bind in H. destruct H as ([] & l1 & _ & H).
  apply returned_bind in H. destruct H as (st & l2 & _ & H).
  destruct (String.eqb st "Downloaded") eqn:E1.
  - inversion H; subst. left. now apply String.eqb_eq.
  - destruct (String.eqb st "Downloading").
    + apply returned_bind in H. destruct H as (t & l3 & _ & H). now apply IH in H.
    + destruct (String.eqb st "Failed") eqn:E3.
      * inversion H; subst. right. now apply String.eqb_eq.
      * now apply IH in H.
Qed.

Lemma waiting_returns_downloaded_or_failed
    dev fuel file_url upto l l' status :
  _wait_till_download_complete dev fuel file_url upto l = Returned status l' ->
  status = "Downloaded" \/ status = "Failed".
Proof.
  intros H. unfold _wait_till_download_complete in H.
  apply returned_bind in H. destruct H as ([] & l1 & _ & H).
  apply returned_bind in H. destruct H as (full_path & l2 & _ & H).
  apply returned_bind in H. destruct H as (start & l3 & _ & H).
  now apply wait_loop_returns in H.
Qed.

Lemma go_to_returned dev target l l' :
  go_to dev target l = Returned tt l' ->
  trace l' = EvGoTo target :: trace l /\ (clock l <= clock l')%Z.
Proof.
  unfold go_to, exchange, bind, update.
  destruct (on_go_to dev (trace l) target); [|discriminate].
  intros H. inversion H. cbn. split; [reflexivity | lia].
Qed.

Lemma get_download_status_returned dev img l status l' :
  _get_download_status dev img l = Returned status l' ->
  trace l' = EvExecute (download_task_cmd img) None :: EvGoTo "fxos_state" :: trace l /\
  status_at dev img (EvGoTo "fxos_state" :: trace l) = Some status.
Proof.
  intros H. unfold _get_download_status in H.
  apply returned_bind in H. destruct H as ([] & l1 & Hgo & H).
  apply go_to_returned in Hgo. destruct Hgo as [Hgo _].
  apply returned_bind in H. destruct H as (out & l2 & Hex & H).
  unfold execute, exchange in Hex. rewrite Hgo in Hex.
  unfold status_at.
  destruct (on_execute dev (EvGoTo "fxos_state" :: trace l) (download_task_cmd img) None)
    as [out'|e]; [|discriminate].
  inversion Hex; subst out' l2.
  destruct (Re.search re_State out) as [[ms r]|]; [|discriminate].
  inversion H; subst. cbn [trace with_clock with_trace]. split; reflexivity.
Qed.

Lemma keeps_waiting_other status :
  String.eqb status "Downloaded" = false -> String.eqb status "Failed" = false ->
  keeps_waiting (Some status).
Proof. intros H1 H2. split; now apply String.eqb_neq. Qed.

Lemma Forall_snoc {A} (P : A -> Prop) xs x : Forall P xs -> P x -> Forall P (xs ++ [x]).
Proof. intros H Hx. apply Forall_app. split; [exact H | now constructor]. Qed.

(** What the loop has read when it returns. *)
Lemma wait_loop_returned dev img start upto : forall fuel elapsed l status l',
  wait_loop dev fuel img start upto elapsed l = Returned status l' ->
  (status = "Downloaded" \/ status = "Failed") /\
  exists olds,
    states_read dev img (trace l') =
    (Some status :: olds ++ states_read dev img (trace l))%list /\
    Forall keeps_waiting olds.
Proof.
  induction fuel as [|fuel IH]; intros elapsed l status l' H; [discriminate|].
  cbn [wait_loop] in H. destruct (elapsed <? upto)%Z; [|discriminate].
  apply returned_bind in H. destruct H as ([] & l1 & Hs & H).
  unfold sleep, update in Hs. inversion Hs as [Hl1]. clear Hs.
  apply returned_bind in H. destruct H as (st & l2 & Hst & H).
  apply get_download_status_returned in Hst. destruct Hst as [Ht Hread].
  assert (Hr2 : states_read dev img (trace l2) = Some st :: states_read dev img (trace l)).
  { rewrite Ht. cbn [states_read]. rewrite String.eqb_refl. rewrite Hread.
    rewrite <- Hl1. reflexivity. }
  assert (Hmore : forall e, wait_loop dev fuel img start upto e l2 = Returned status l' ->
                  String.eqb st "Downloaded" = false -> String.eqb st "Failed" = false ->
                  (status = "Downloaded" \/ status = "Failed") /\
                  exists olds,
                    states_read dev img (trace l') =
                    (Some status :: olds ++ states_read dev img (trace l))%list /\
                    Forall keeps_waiting olds).
  { intros e He E1 E3. apply IH in He. destruct He as (Hs & olds & Ho & Hw).
    split; [exact Hs|]. exists (olds ++ [Some st])%list. split.
    - rewrite Ho, Hr2, <- app_assoc. reflexivity.
    - apply Forall_snoc; [exact Hw | now apply keeps_waiting_other]. }
  destruct (String.eqb st "Downloaded") eqn:E1.
  - inversion H; subst. apply String.eqb_eq in E1. split; [now left|].
    exists []. split; [exact Hr2 | constructor].
  - destruct (String.eqb st "Downloading") eqn:E2.
    + apply returned_bind in H. destruct H as (t & l3 & Hnow & H).
      unfold now, read in Hnow. inversion Hnow; subst t l3.
      apply String.eqb_eq in E2. subst st. exact (Hmore _ H eq_refl eq_refl).
    + destruct (String.eqb st "Failed") eqn:E3.
      * inversion H; subst. apply String.eqb_eq in E3. split; [now right|].
        exists []. split; [exact Hr2 | constructor].
      * exact (Hmore _ H eq_refl eq_refl).
Qed.

(** What the loop has read when it raises, on a device that shows a
    state at every query. *)
Lemma wait_loop_raised dev img start upto :
  reaches_fxos dev ->
  (forall h, exists w, reports dev img h w) ->
  forall fuel elapsed l e l',
    (elapsed <= clock l - start)%Z ->
    wait_loop dev fuel img start upto elapsed l = Raised e l' ->
    e = RuntimeError ("download took too long: " ++ img) /\
    (upto <= clock l' - start)%Z /\
    exists olds,
      states_read dev img (trace l') = (olds ++ states_read dev img (trace l))%list /\
      Forall keeps_waiting olds.
Proof.
  intros Hgo Hrep. induction fuel as [|fuel IH]; intros elapsed l e l' Hel H; [discriminate|].
  destruct (Z.lt_ge_cases elapsed upto) as [Hlt|Hge].
  - destruct (Hrep (EvGoTo "fxos_state" :: EvSleep 10 :: trace l)) as (st & Hst).
    rewrite (wait_loop_step dev img start upto elapsed l fuel st Hgo Hst Hlt) in H.
    pose proof (clock_after_poll dev img l) as Hc.
    pose proof (states_read_after_poll dev img l st Hst) as Hread.
    assert (Hmore : forall el, (el <= clock (after_poll dev img l) - start)%Z ->
                    wait_loop dev fuel img start upto el (after_poll dev img l) = Raised e l' ->
                    String.eqb st "Downloaded" = false -> String.eqb st "Failed" = false ->
                    e = RuntimeError ("download took too long: " ++ img) /\
                    (upto <= clock l' - start)%Z /\
                    exists olds,
                      states_read dev img (trace l') =
                      (olds ++ states_read dev img (trace l))%list /\
                      Forall keeps_waiting olds).
    { intros el Hle He E1 E3. apply IH in He; [|exact Hle].
      destruct He as (He & Hup & olds & Ho & Hw).
      split; [exact He|]. split; [exact Hup|].
      exists (olds ++ [Some st])%list. split.
      - rewrite Ho, Hread, <- app_assoc. reflexivity.
      - apply Forall_snoc; [exact Hw | now apply keeps_waiting_other]. }
    destruct (String.eqb st "Downloaded") eqn:E1; [discriminate|].
    destruct (String.eqb st "Downloading") eqn:E2.
    + apply String.eqb_eq in E2. subst st.
      apply (Hmore (clock (after_poll dev img l) - start)%Z ltac:(lia) H); reflexivity.
    + destruct (String.eqb st "Failed") eqn:E3; [discriminate|].
      apply (Hmore elapsed ltac:(lia) H); reflexivity.
  - rewrite (wait_loop_deadline dev img start upto elapsed l fuel Hge) in H.
    inversion H; subst. split; [reflexivity|]. split; [lia|].
    exists []. split; [reflexivity | constructor].
Qed.

Lemma untested_state w :
  untested w ->
  String.eqb w "Downloaded" = false /\ String.eqb w "Downloading" = false /\
  String.eqb w "Failed" = false.
Proof. intros (H1 & H2 & H3). repeat split; now apply String.eqb_neq. Qed.

(** States that the loop does not test for keep it polling, whatever the
    time: the loop goes on until a query reads [Downloaded] or [Failed]. *)
Lemma wait_loop_untested dev img start upto target :
  reaches_fxos dev ->
  (forall h, exists w, reports dev img h w) ->
  (0 < upto)%Z ->
  (forall h w, reports dev img h w ->
     (polls img h < target -> untested w) /\
     (polls img h = target -> w = "Downloaded" \/ w = "Failed")) ->
  forall n fuel l,
    n < fuel -> polls img (trace l) + n = target ->
    exists status l',
      wait_loop dev fuel img start upto 0 l = Returned status l' /\
      polls img (trace l') = target + 1 /\
      sleeps 10 (trace l') = sleeps 10 (trace l) + n + 1.
Proof.
  intros Hgo Hrep Hup Hdev. induction n as [|n IH]; intros fuel l Hfuel Hn;
    (destruct fuel as [|fuel]; [lia|]);
    destruct (Hrep (EvGoTo "fxos_state" :: EvSleep 10 :: trace l)) as (w & Hw);
    rewrite (wait_loop_step dev img start upto 0 l fuel w Hgo Hw Hup);
    destruct (Hdev _ w Hw) as [Hbefore Hat];
    change (polls img (EvGoTo "fxos_state" :: EvSleep 10 :: trace l))
      with (polls img (trace l)) in Hbefore, Hat.
  - assert (Hend : Returned w (after_poll dev img l) = Returned w (after_poll dev img l) /\
                   polls img (trace (after_poll dev img l)) = target + 1 /\
                   sleeps 10 (trace (after_poll dev img l)) = sleeps 10 (trace l) + 0 + 1).
    { split; [reflexivity|]. rewrite polls_after_poll, sleeps_after_poll. lia. }
    destruct (Hat ltac:(lia)) as [-> | ->]; cbn [String.eqb Ascii.eqb Bool.eqb];
      eexists _, _; exact Hend.
  - destruct (untested_state w (Hbefore ltac:(lia))) as (E1 & E2 & E3).
    rewrite E1, E2, E3.
    destruct (IH fuel (after_poll dev img l)) as (status & l' & E & Hp & Hs).
    + lia.
    + rewrite polls_after_poll. lia.
    + exists status, l'. split; [exact E|]. split; [exact Hp|].
      rewrite Hs, sleeps_after_poll. lia.
Qed.

Lemma wait_loop_untested_for_ever dev img start upto :
  reaches_fxos dev ->
  (forall h, exists w, reports dev img h w) ->
  (0 < upto)%Z ->
  (forall h w, reports dev img h w -> untested w) ->
  forall fuel l, wait_loop dev fuel img start upto 0 l = Unfinished.
Proof.
  intros Hgo Hrep Hup Hdev. induction fuel as [|fuel IH]; intros l; [reflexivity|].
  destruct (Hrep (EvGoTo "fxos_state" :: EvSleep 10 :: trace l)) as (w & Hw).
  rewrite (wait_loop_step dev img start upto 0 l fuel w Hgo Hw Hup).
  destruct (untested_state w (Hdev _ w Hw)) as (E1 & E2 & E3).
  rewrite E1, E2, E3. apply IH.
Qed.

(** The part of [_wait_till_download_complete] before its loop, when the
    call returns. *)
Lemma wait_till_download_complete_returned dev fuel file_url upto l status l' :
  _wait_till_download_complete dev fuel file_url upto l = Returned status l' ->
  exists img l1,
    image_of_url file_url = Some img /\
    states_read dev img (trace l1) = states_read dev img (trace l) /\
    wait_loop dev fuel img (clock l1) upto 0 l1 = Returned status l'.
Proof.
  intros H. unfold _wait_till_download_complete in H.
  apply returned_bind in H. destruct H as ([] & l1 & Hgo & H).
  apply go_to_returned in Hgo. destruct Hgo as [Hgo _].
  apply returned_bind in H. destruct H as (full_path & l2 & Hpath & H).
  apply returned_bind in H. destruct H as (start & l3 & Hnow & H).
  unfold now, read in Hnow. inversion Hnow; subst start l3.
  assert (Himg : image_of_url file_url = Some (PyStr.basename full_path) /\ l2 = l1).
  { unfold image_of_url. destruct (PyStr.startswith file_url "scp").
    - destruct (Re.search re_scp_url file_url) as [[ms r]|]; [|discriminate].
      inversion Hpath; subst. split; reflexivity.
    - destruct (PyStr.startswith file_url "tftp"); [|discriminate].
      destruct (Re.search re_tftp_url file_url) as [[ms r]|]; [|discriminate].
      inversion Hpath; subst. split; reflexivity. }
  destruct Himg as [Himg ->].
  exists (PyStr.basename full_path), l1. split; [exact Himg|]. split; [|exact H].
  rewrite Hgo. reflexivity.
Qed.

(** X10: [_wait_till_download_complete] returns ['Downloaded'] or
    ['Failed'] only, and only when the device has shown it: whatever the
    device does, when the call returns a state, that state is the one read
    at its last query of the download task, and every query before it has
    read a state other than these two.  Every other state keeps it
    waiting.  On a device that shows a state at every query, the call
    raises nothing but the [RuntimeError] of the deadline, after
    [wait_upto] seconds at least and after queries that all read other
    states than these two; states that the loop does not test for, read at
    the first [n] queries, are followed by another sleep of ten seconds
    and another query, also past the deadline, so that the call returns
    at query [n] + 1 when that one reads ['Downloaded'] or ['Failed'];
    and when every query reads such a state the loop does not end. *)
Theorem wait_till_download_complete_returns_downloaded_or_failed :
  forall (dev : Device) (fuel : nat) (file_url : string) (wait_upto : Z) (l : Line),
    (forall l' status,
        _wait_till_download_complete dev fuel file_url wait_upto l = Returned status l' ->
        (status = "Downloaded" \/ status = "Failed") /\
        exists img olds,
          image_of_url file_url = Some img /\
          states_read dev img (trace l') =
          (Some status :: olds ++ states_read dev img (trace l))%list /\
          Forall keeps_waiting olds) /\
    (forall img,
        image_of_url file_url = Some img ->
        reaches_fxos dev ->
        (forall h, exists w, reports dev img h w) ->
        (forall l' e,
            _wait_till_download_complete dev fuel file_url wait_upto l = Raised e l' ->
            e = RuntimeError ("download took too long: " ++ img) /\
            (wait_upto <= clock l' - clock l)%Z /\
            exists olds,
              states_read dev img (trace l') =
              (olds ++ states_read dev img (trace l))%list /\
              Forall keeps_waiting olds) /\
        (forall n,
            n < fuel -> (0 < wait_upto)%Z ->
            (forall h w, reports dev img h w ->
               (polls img h < polls img (trace l) + n -> untested w) /\
               (polls img h = polls img (trace l) + n ->
                w = "Downloaded" \/ w = "Failed")) ->
            exists status l',
              _wait_till_download_complete dev fuel file_url wait_upto l =
              Returned status l' /\
              polls img (trace l') = polls img (trace l) + n + 1 /\
              sleeps 10 (trace l') = sleeps 10 (trace l) + n + 1) /\
        ((0 < wait_upto)%Z ->
         (forall h w, reports dev img h w -> untested w) ->
         _wait_till_download_complete dev fuel file_url wait_upto l = Unfinished)).
Proof.
  intros dev fuel file_url upto l. split.
  - intros l' status H.
    apply wait_till_download_complete_returned in H.
    destruct H as (img & l1 & Himg & Hr1 & H).
    apply wait_loop_returned in H. destruct H as (Hs & olds & Ho & Hw).
    split; [exact Hs|]. exists img, olds. split; [exact Himg|]. split; [|exact Hw].
    rewrite Ho, Hr1. reflexivity.
  - intros img Himg Hgo Hrep.
    rewrite (wait_till_download_complete_unfold dev fuel file_url img upto l Hgo Himg).
    assert (Hc : (clock l <= clock (went dev l))%Z)
      by (cbn [went tick clock with_current_state with_clock with_trace]; lia).
    split; [|split].
    + intros l' e H.
      apply (wait_loop_raised dev img _ upto Hgo Hrep) in H; [|lia].
      destruct H as (He & Hup & olds & Ho & Hw).
      split; [exact He|]. split; [lia|]. exists olds. split; [exact Ho | exact Hw].
    + intros n Hn Hup Hdev.
      destruct (wait_loop_untested dev img (clock (went dev l)) upto
                  (polls img (trace l) + n) Hgo Hrep Hup Hdev n fuel (went dev l) Hn
                  eq_refl) as (status & l' & E & Hp & Hs).
      exists status, l'. split; [exact E|]. split; [exact Hp | exact Hs].
    + intros Hup Hdev.
      apply (wait_loop_untested_for_ever dev img _ upto Hgo Hrep Hup Hdev).
Qed.

Lemma wait_till_download_complete_returns_downloaded_or_failed_witness :
  exists status l',
    _wait_till_download_complete MoreScenario.third_poll_download 3 Scenario.url 20
      Scenario.line0 = Returned status l' /\
    polls Scenario.image (trace l') = polls Scenario.image (trace Scenario.line0) + 2 + 1 /\
    sleeps 10 (trace l') = sleeps 10 (trace Scenario.line0) + 2 + 1.
Proof.
  assert (Hrep : forall h,
             reports MoreScenario.third_poll_download Scenario.image h
               (if (polls Scenario.image h <? 2)%nat then "Unpacking" else "Downloaded")).
  { intros h. unfold reports, MoreScenario.third_poll_download, Scenario.device.
    cbn [on_execute].
    change (String.prefix "show download-task" (download_task_cmd Scenario.image)) with true.
    cbv beta iota.
    destruct (polls Scenario.image h <? 2)%nat;
      (do 3 eexists; split; [reflexivity|]; split; vm_compute; reflexivity). }
  destruct (wait_till_download_complete_returns_downloaded_or_failed
              MoreScenario.third_poll_download 3 Scenario.url 20 Scenario.line0)
    as [_ Hdevice].
  destruct (Hdevice Scenario.image) as (_ & Hpolls & _).
  - vm_compute. reflexivity.
  - intros h. now exists "fxos_state".
  - intros h. eexists. apply Hrep.
  - apply (Hpolls 2); [lia | lia |].
    intros h w Hw.
    assert (E : w = if (polls Scenario.image h <? 2)%nat then "Unpacking" else "Downloaded").
    { destruct Hw as (out & ms & r & H1 & H2 & H3).
      destruct (Hrep h) as (out' & ms' & r' & H1' & H2' & H3').
      rewrite H1 in H1'. inversion H1'; subst out'. rewrite H2 in H2'.
      inversion H2'; subst ms' r'. congruence. }
    change (polls Scenario.image (trace Scenario.line0)) with 0. cbn [Nat.add].
    split.
    + intros Hlt. apply Nat.ltb_lt in Hlt. rewrite Hlt in E. subst w.
      repeat split; discriminate.
    + intros Heq. rewrite Heq in E. cbn in E. now left.
Defined.

Lemma sent_lines_other text evs h :
  Forall (not_the_line text) evs -> sent_lines text (evs ++ h) = sent_lines text h.
Proof.
  induction 1 as [|e evs He Hevs IH]; [reflexivity|].
  destruct e; cbn in *; auto. now rewrite He.
Qed.

Lemma not_sendline_not_the_line text e : not_sendline e -> not_the_line text e.
Proof. destruct e; cbn; auto. contradiction. Qed.

Lemma quiet_not_the_line text e : quiet e -> not_the_line text e.
Proof. destruct e; cbn; auto; contradiction. Qed.

Lemma sends_at_most_adds {A} text n (m : M A) l :
  adds (not_the_line text) m -> sends_at_most text n m l.
Proof.
  intros H l' E. destruct (adds_final _ _ _ _ H E) as [(evs & -> & F) _].
  rewrite (sent_lines_other text evs (trace l) F). lia.
Qed.

Lemma sends_at_most_bind {A B} text a b n (m : M A) (k : A -> M B) l :
  sends_at_most text a m l ->
  (forall x l1, m l = Returned x l1 -> sends_at_most text b (k x) l1) ->
  a + b <= n ->
  sends_at_most text n (bind m k) l.
Proof.
  intros Hm Hk Hn l' E. apply final_bind in E. destruct E as [[e E]|(x & l1 & E & E')].
  - specialize (Hm l'). rewrite E in Hm. specialize (Hm eq_refl). lia.
  - specialize (Hk x l1 E l' E'). specialize (Hm l1). rewrite E in Hm.
    specialize (Hm eq_refl). lia.
Qed.

Lemma sends_at_most_quiet {A} text n (m : M A) l :
  adds quiet m -> sends_at_most text n m l.
Proof.
  intros H. apply sends_at_most_adds. eapply adds_weaken; [apply quiet_not_the_line | exact H].
Qed.

Lemma sends_at_most_sendline text t l : sends_at_most text 1 (sendline t) l.
Proof.
  intros l' E. unfold sendline, emit, update in E. cbn in E. inversion E; subst.
  cbn. destruct (String.eqb t text); lia.
Qed.

Lemma ctrl_c_pause_is_no_download fxos_url n :
  adds (not_the_line (download_cmd fxos_url)) (for_range n (sendline (chr 3) ;; sleep 10)).
Proof.
  apply adds_for_range. apply adds_bind.
  - apply adds_emit. reflexivity.
  - intros _. apply adds_sleep; [exact I | lia].
Qed.

Lemma download_loop_sends_at_most dev wait_fuel fxos_url pw :
  forall fuel retry_count l,
    (0 <= retry_count)%Z ->
    sends_at_most (download_cmd fxos_url) (Z.to_nat retry_count)
      (download_loop dev fuel wait_fuel fxos_url pw retry_count) l.
Proof.
  induction fuel as [|fuel IH]; intros rc l Hrc; [intros l' E; discriminate|].
  cbn [download_loop]. destruct (rc >? 0)%Z eqn:Hpos.
  2:{ apply sends_at_most_adds. apply adds_ret. }
  apply Z.gtb_lt in Hpos.
  apply (sends_at_most_bind _ 0 (Z.to_nat rc));
    [apply sends_at_most_quiet; apply adds_exchange; exact I | | lia].
  intros _ l1 _.
  apply (sends_at_most_bind _ 1 (Z.to_nat (rc - 1))); [apply sends_at_most_sendline | | lia].
  intros _ l2 _.
  apply (sends_at_most_bind _ 0 (Z.to_nat (rc - 1)));
    [apply sends_at_most_quiet; apply adds_sleep; [exact I | lia] | | lia].
  intros _ l3 _.
  apply (sends_at_most_bind _ 0 (Z.to_nat (rc - 1)));
    [apply sends_at_most_quiet; apply adds_get_state_pattern | | lia].
  intros fxos_pattern l4 _.
  apply (sends_at_most_bind _ 0 (Z.to_nat (rc - 1)));
    [apply sends_at_most_quiet; apply adds_exchange; exact I | | lia].
  intros _ l5 _.
  apply (sends_at_most_bind _ 0 (Z.to_nat (rc - 1)));
    [apply sends_at_most_quiet; apply quiet_wait_till_download_complete | | lia].
  intros status l6 Hstatus.
  apply waiting_returns_downloaded_or_failed in Hstatus.
  destruct Hstatus as [E|E]; subst status; cbn [String.eqb Ascii.eqb Bool.eqb].
  - intros l' E. inversion E; subst. lia.
  - destruct (rc - 1 =? 0)%Z.
    + intros l' E. inversion E; subst. lia.
    + apply (sends_at_most_bind _ 0 (Z.to_nat (rc - 1)));
        [apply sends_at_most_adds; apply ctrl_c_pause_is_no_download | | lia].
      intros _ l7 _. apply IH. lia.
Qed.

(** X11: whatever the device does and however the call ends,
    [download_ftd_fp2k] sends the ['download image'] command three times
    at most. *)
Theorem download_image_is_sent_three_times_at_most :
  forall (dev : Device) (fuel : nat) (fxos_url ftd_version file_server_password : string)
         (l l' : Line),
    final (download_ftd_fp2k dev fuel fxos_url ftd_version file_server_password l) = Some l' ->
    sent_lines (download_cmd fxos_url) (trace l') <=
    sent_lines (download_cmd fxos_url) (trace l) + 3.
Proof.
  intros dev fuel fxos_url ftd_version pw l.
  change (sends_at_most (download_cmd fxos_url) 3
            (download_ftd_fp2k dev fuel fxos_url ftd_version pw) l).
  unfold download_ftd_fp2k.
  apply (sends_at_most_bind _ 0 3);
    [apply sends_at_most_quiet; apply adds_go_to; exact I | | lia].
  intros _ l1 _.
  apply (sends_at_most_bind _ 0 3);
    [apply sends_at_most_quiet; apply quiet_is_firmware_fp2k_ready | | lia].
  intros ready l2 _. destruct ready; [apply sends_at_most_adds, adds_ret|].
  apply (sends_at_most_bind _ 0 3);
    [apply sends_at_most_quiet; apply adds_exchange; exact I | | lia].
  intros _ l3 _.
  apply (sends_at_most_bind _ 0 3);
    [apply sends_at_most_quiet; apply quiet_get_packages | | lia].
  intros packages l4 _.
  destruct (existsb _ _); [apply sends_at_most_adds, adds_ret|].
  apply (download_loop_sends_at_most dev fuel fxos_url pw fuel MAX_RETRY_COUNT l4).
  unfold MAX_RETRY_COUNT. lia.
Qed.

Lemma download_image_is_sent_three_times_at_most_witness :
  exists l',
    final (download_ftd_fp2k Scenario.failing_download 3 Scenario.url "6.2.1-1088"
             EmptyString Scenario.line0) = Some l' /\
    sent_lines (download_cmd Scenario.url) (trace l') <=
    sent_lines (download_cmd Scenario.url) (trace Scenario.line0) + 3.
Proof.
  eexists. split.
  - vm_compute. reflexivity.
  - apply (download_image_is_sent_three_times_at_most Scenario.failing_download 3
             Scenario.url "6.2.1-1088" EmptyString Scenario.line0).
    vm_compute. reflexivity.
Defined.

(* --------------------------------------------------------------------- *)
(** ** What the regular expressions and the splits require of a text *)

Lemma has_char_app c a b : has_char c (a ++ b) = has_char c a || has_char c b.
Proof.
  induction a as [|x a IH]; [reflexivity|]. cbn. rewrite IH. now rewrite orb_assoc.
Qed.

Lemma has_char_drop c n : forall s, has_char c (PyStr.drop n s) = true -> has_char c s = true.
Proof.
  induction n as [|n IH]; intros s H; [exact H|].
  destruct s as [|x s]; [exact H|]. cbn in *. apply IH in H. rewrite H. apply orb_true_r.
Qed.

(** A text matched by a pattern that has a literal character contains
    that character. *)
Lemma match_here_lit c : forall p s r,
  In (Re.Lit c) p -> Re.match_here p s = Some r -> has_char c s = true.
Proof.
  induction p as [|a p IH]; intros s r Hin H; [destruct Hin|].
  destruct a as [c0|cls|cls].
  - cbn in H. destruct s as [|c' rest]; [discriminate|].
    destruct (Ascii.eqb c0 c') eqn:E; [|discriminate].
    destruct (Re.match_here p rest) as [[ms r0]|] eqn:Em; [|discriminate].
    destruct Hin as [Hc|Hin].
    + inversion Hc; subst. cbn. apply Ascii.eqb_eq in E. subst.
      now rewrite Ascii.eqb_refl.
    + cbn. rewrite (IH rest _ Hin Em). apply orb_true_r.
  - cbn in H. destruct s as [|c' rest]; [discriminate|].
    destruct (cls c'); [|discriminate].
    destruct (Re.match_here p rest) as [[ms r0]|] eqn:Em; [|discriminate].
    destruct Hin as [Hc|Hin]; [discriminate|].
    cbn. rewrite (IH rest _ Hin Em). apply orb_true_r.
  - destruct Hin as [Hc|Hin]; [discriminate|].
    cbn [Re.match_here] in H. revert H. generalize (Re.run cls s) as n.
    induction n as [|n IHn]; intros H; [discriminate|].
    destruct (Re.match_here p (PyStr.drop (S n) s)) as [[ms r0]|] eqn:Em.
    + apply (has_char_drop c (S n)). exact (IH _ _ Hin Em).
    + exact (IHn H).
Qed.

Lemma search_lit c p : forall s r,
  In (Re.Lit c) p -> Re.search p s = Some r -> has_char c s = true.
Proof.
  induction s as [|x s IH]; intros r Hin H.
  - cbn in H. destruct (Re.match_here p EmptyString) eqn:E; [|discriminate].
    exact (match_here_lit c p _ _ Hin E).
  - cbn [Re.search] in H. destruct (Re.match_here p (String x s)) eqn:E.
    + exact (match_here_lit c p _ _ Hin E).
    + cbn. rewrite (IH _ Hin H). apply orb_true_r.
Qed.

(** A text matched by a pattern that starts with a literal word contains
    that word. *)
Lemma match_here_word w p : forall s r,
  Re.match_here (Re.lits w ++ p) s = Some r -> String.prefix w s = true.
Proof.
  induction w as [|c w IH]; intros s r H; [now destruct s|].
  cbn in H. destruct s as [|c' rest]; [discriminate|].
  destruct (Ascii.eqb c c') eqn:E; [|discriminate].
  destruct (Re.match_here (Re.lits w ++ p) rest) as [[ms r0]|] eqn:Em; [|discriminate].
  apply Ascii.eqb_eq in E. subst c'. cbn.
  destruct (ascii_dec c c); [|congruence]. exact (IH _ _ Em).
Qed.

Lemma search_word w p : forall s r,
  Re.search (Re.lits w ++ p) s = Some r -> PyStr.contains w s = true.
Proof.
  induction s as [|x s IH]; intros r H; rewrite contains_unfold.
  - cbn [Re.search] in H.
    destruct (Re.match_here (Re.lits w ++ p) EmptyString) eqn:E; [|discriminate].
    now rewrite (match_here_word w p _ _ E).
  - cbn [Re.search] in H.
    destruct (Re.match_here (Re.lits w ++ p) (String x s)) eqn:E.
    + now rewrite (match_here_word w p _ _ E).
    + rewrite (IH _ H). now destruct (String.prefix w (String x s)).
Qed.

(** Splitting a text at a character it does not contain. *)
Lemma split_without_separator c : forall s,
  has_char c s = false -> PyStr.split c s = [s].
Proof.
  induction s as [|x s IH]; intros H; [reflexivity|].
  cbn in H. apply orb_false_elim in H. destruct H as [Hx Hs].
  cbn. rewrite Hx. now rewrite (IH Hs).
Qed.

(* --------------------------------------------------------------------- *)
(** ** The URL of the image *)

(** X12: an scp URL that names no user, having no ['@'], is not followed:
    once the line is in [fxos_state], [_wait_till_download_complete]
    raises the [AssertionError] that quotes the URL, before any query of
    the download task and whatever the time allowed. *)
Theorem scp_url_without_a_user_is_refused :
  forall (dev : Device) (fuel : nat) (file_url : string) (wait_upto : Z) (l l1 : Line),
    PyStr.startswith file_url "scp" = true ->
    has_char "@" file_url = false ->
    go_to dev "fxos_state" l = Returned tt l1 ->
    _wait_till_download_complete dev fuel file_url wait_upto l =
    Raised (AssertionError ("unknown file_url: " ++ file_url)) l1.
Proof.
  intros dev fuel file_url upto l l1 Hscp Hat Hgo.
  unfold _wait_till_download_complete. unfold bind at 1. rewrite Hgo. rewrite Hscp.
  destruct (Re.search re_scp_url file_url) as [[ms r]|] eqn:E.
  - exfalso. assert (H : has_char "@" file_url = true).
    { apply (search_lit "@" re_scp_url file_url (ms, r)); [|exact E].
      cbn. auto 10. }
    congruence.
  - reflexivity.
Qed.

Lemma scp_url_without_a_user_is_refused_witness :
  _wait_till_download_complete Scenario.failing_download 0
    "scp://172.23.47.63:/tftpboot/cisco-ftd-fp2k.6.2.1-1088.SSA" 1800 Scenario.line0 =
  Raised (AssertionError ("unknown file_url: " ++
                          "scp://172.23.47.63:/tftpboot/cisco-ftd-fp2k.6.2.1-1088.SSA"))
    (went Scenario.failing_download Scenario.line0).
Proof.
  apply (scp_url_without_a_user_is_refused Scenario.failing_download 0
           "scp://172.23.47.63:/tftpboot/cisco-ftd-fp2k.6.2.1-1088.SSA" 1800
           Scenario.line0 (went Scenario.failing_download Scenario.line0)).
  - reflexivity.
  - reflexivity.
  - reflexivity.
Defined.

(** X13: the protocol of the URL is looked at only after the download
    has been started.  When the bundle is neither installed nor in the
    package list and the URL starts with neither [scp] nor [tftp],
    [download_ftd_fp2k] sends ['download image'] with that URL once, runs
    the dialog, and then raises the [RuntimeError] about the protocol. *)
Theorem download_with_another_protocol_is_started_then_refused :
  forall (dev : Device) (fuel : nat) (fxos_url ftd_version file_server_password : string)
         (l l1 l2 l3 l4 : Line) (out : string) (packages : list Package) (fxos : State),
    PyStr.startswith fxos_url "scp" = false ->
    PyStr.startswith fxos_url "tftp" = false ->
    go_to dev "fxos_state" l = Returned tt l1 ->
    is_firmware_fp2k_ready dev ftd_version l1 = Returned false l2 ->
    execute_lines dev ("top" ++ nl ++ "scope firmware") l2 = Returned out l3 ->
    get_packages dev l3 = Returned packages l4 ->
    existsb (String.eqb (PyStr.strip (PyStr.last_item (PyStr.split "/" fxos_url))))
      (map pkg_name packages) = false ->
    get_state (sm l) "fxos_state" = Some fxos ->
    reaches_fxos dev ->
    (forall h c, exists o, on_execute_lines dev h c = Ok o) ->
    (forall h d t, exists o, on_process dev h d t = Ok o) ->
    exists l',
      download_ftd_fp2k dev (S fuel) fxos_url ftd_version file_server_password l =
      Raised (RuntimeError "Incorrect file url download protocol") l' /\
      sent_lines (download_cmd fxos_url) (trace l') =
      S (sent_lines (download_cmd fxos_url) (trace l)).
Proof.
  intros dev fuel fxos_url v pw l l1 l2 l3 l4 out packages fxos
    Hscp Htftp E1 E2 E3 E4 Hnot Hsm Hgo Hlines Hproc.
  assert (G1 : grows quiet l l1)
    by (refine (returned_grows _ _ _ _ _ _ E1); apply adds_go_to; exact I).
  assert (G2 : grows quiet l1 l2)
    by (exact (returned_grows _ _ _ _ _ (quiet_is_firmware_fp2k_ready dev v) E2)).
  assert (G3 : grows quiet l2 l3)
    by (refine (returned_grows _ _ _ _ _ _ E3); apply adds_exchange; exact I).
  assert (G4 : grows quiet l3 l4)
    by (exact (returned_grows _ _ _ _ _ (quiet_get_packages dev) E4)).
  assert (G : grows not_sendline l l4).
  { eapply grows_weaken; [apply quiet_not_sendline|].
    eapply grows_trans; [exact G1|]. eapply grows_trans; [exact G2|].
    eapply grows_trans; [exact G3 | exact G4]. }
  assert (Hsm4 : get_state (sm l4) "fxos_state" = Some fxos).
  { destruct G as (_ & _ & ->). exact Hsm. }
  unfold download_ftd_fp2k. unfold bind at 1. rewrite E1.
  unfold bind at 1. rewrite E2. unfold bind at 1. rewrite E3.
  unfold bind at 1. rewrite E4. rewrite Hnot.
  cbn [download_loop]. change (MAX_RETRY_COUNT >? 0)%Z with true. cbv iota.
  unfold bind at 1. unfold execute_lines at 1, exchange.
  match goal with |- context [on_execute_lines dev ?h ?c] =>
    destruct (Hlines h c) as [o Ho]; rewrite Ho end.
  unfold bind at 1. unfold sendline at 1, emit, update.
  unfold bind at 1. unfold sleep at 1, update.
  unfold bind at 1. unfold get_state_pattern, bind, read.
  cbn [sm with_clock with_trace]. rewrite Hsm4. unfold ret at 1.
  unfold process at 1, exchange.
  match goal with |- context [on_process dev ?h ?d ?t] =>
    destruct (Hproc h d t) as [o' Ho']; rewrite Ho' end.
  match goal with |- context [_wait_till_download_complete dev (S fuel) fxos_url 1800 ?x] =>
    set (lw := x) end.
  unfold _wait_till_download_complete. unfold bind at 1.
  rewrite (go_to_fxos dev lw Hgo). rewrite Hscp, Htftp.
  unfold bind at 1. unfold raise.
  eexists. split; [reflexivity|].
  unfold lw. cbn [sent_lines trace went with_current_state tick with_clock with_trace].
  rewrite String.eqb_refl. f_equal. exact (grows_sent_lines l l4 _ G).
Qed.

Lemma download_with_another_protocol_is_started_then_refused_witness :
  exists l',
    download_ftd_fp2k Scenario.failing_download 1
      "ftp://172.23.47.63/netboot/cisco-ftd-fp2k.6.2.1-1088.SSA" "6.2.1-1088" EmptyString
      Scenario.line0 =
    Raised (RuntimeError "Incorrect file url download protocol") l' /\
    sent_lines (download_cmd "ftp://172.23.47.63/netboot/cisco-ftd-fp2k.6.2.1-1088.SSA")
      (trace l') =
    S (sent_lines (download_cmd "ftp://172.23.47.63/netboot/cisco-ftd-fp2k.6.2.1-1088.SSA")
         (trace Scenario.line0)).
Proof.
  eapply (download_with_another_protocol_is_started_then_refused Scenario.failing_download 0
            "ftp://172.23.47.63/netboot/cisco-ftd-fp2k.6.2.1-1088.SSA" "6.2.1-1088"
            EmptyString Scenario.line0).
  - reflexivity.
  - reflexivity.
  - vm_compute. reflexivity.
  - vm_compute. reflexivity.
  - vm_compute. reflexivity.
  - vm_compute. reflexivity.
  - vm_compute. reflexivity.
  - vm_compute. reflexivity.
  - intros h. eexists. reflexivity.
  - intros h c. eexists. reflexivity.
  - intros h d t. eexists. reflexivity.
Defined.

(* --------------------------------------------------------------------- *)
(** ** is_firmware_fp2k_ready and validate_version: answers they cannot read *)

(** X14: when the answer to the firmware query has no colon,
    [is_firmware_fp2k_ready] raises an [IndexError] instead of answering
    that the firmware is not ready. *)
Theorem firmware_answer_without_a_colon_raises :
  forall (dev : Device) (version : string) (l l1 : Line) (out : string),
    go_to dev "fxos_state" l = Returned tt l1 ->
    on_execute_lines dev (trace l1)
      (block 12 ["top"; "scope system";
                 "show firmware package-version | grep Package-Vers"]
       ++ nl ++ spaces 8) = Ok out ->
    has_char ":" out = false ->
    is_firmware_fp2k_ready dev version l =
    Raised IndexError
      (tick dev (EvExecuteLines
                   (block 12 ["top"; "scope system";
                              "show firmware package-version | grep Package-Vers"]
                    ++ nl ++ spaces 8)) l1).
Proof.
  intros dev version l l1 out Hgo Hout Hcolon.
  unfold is_firmware_fp2k_ready. unfold bind at 1. rewrite Hgo.
  unfold bind at 1. unfold execute_lines, exchange. rewrite Hout.
  rewrite (split_without_separator ":" out Hcolon). reflexivity.
Qed.

Lemma firmware_answer_without_a_colon_raises_witness :
  is_firmware_fp2k_ready MoreScenario.software_error "6.2.1-1088" Scenario.line0 =
  Raised IndexError
    (tick MoreScenario.software_error
       (EvExecuteLines
          (block 12 ["top"; "scope system";
                     "show firmware package-version | grep Package-Vers"]
           ++ nl ++ spaces 8))
       (went MoreScenario.software_error Scenario.line0)).
Proof.
  apply (firmware_answer_without_a_colon_raises MoreScenario.software_error "6.2.1-1088"
           Scenario.line0 (went MoreScenario.software_error Scenario.line0)
           "Software Error").
  - reflexivity.
  - reflexivity.
  - reflexivity.
Defined.

(** X15: when the answer to [show version] is not empty and does not
    contain the word [Build], [validate_version] raises an [IndexError],
    not the [RuntimeError] of a version mismatch, and the line is not moved
    to [fxos_state]. *)
Theorem validate_version_without_a_build_raises :
  forall (dev : Device) (ftd_version : string) (l : Line) (response : string),
    on_execute dev (trace l) "show version" (Some 30%Z) = Ok response ->
    response <> EmptyString ->
    PyStr.contains "Build" response = false ->
    validate_version dev ftd_version l =
    Raised IndexError (tick dev (EvExecute "show version" (Some 30%Z)) l).
Proof.
  intros dev ftd_version l response Hex Hne Hno.
  unfold validate_version, execute, exchange.
  unfold bind at 1. rewrite Hex. apply String.eqb_neq in Hne.
  unfold bind at 1. rewrite Hne. unfold ret at 1.
  unfold bind at 1.
  destruct (Re.search re_Build response) as [[ms r]|] eqn:E; [|reflexivity].
  exfalso. unfold re_Build in E. apply search_word in E. congruence.
Qed.

Lemma validate_version_without_a_build_raises_witness :
  validate_version MoreScenario.no_build "6.2.1-1088" Scenario.line0 =
  Raised IndexError
    (tick MoreScenario.no_build (EvExecute "show version" (Some 30%Z)) Scenario.line0).
Proof.
  apply (validate_version_without_a_build_raises MoreScenario.no_build "6.2.1-1088"
           Scenario.line0 "Cisco Firepower Version 6.2.1").
  - reflexivity.
  - discriminate.
  - reflexivity.
Defined.

(* --------------------------------------------------------------------- *)
(** ** get_packages: reading the table back *)

Lemma prefix_cons a s1 b s2 :
  String.prefix (String a s1) (String b s2) =
  if Ascii.eqb a b then String.prefix s1 s2 else false.
Proof.
  cbn [String.prefix]. destruct (ascii_dec a b) as [E|E].
  - subst. now rewrite Ascii.eqb_refl.
  - apply Ascii.eqb_neq in E. now rewrite E.
Qed.

Lemma prefix_nil s : String.prefix EmptyString s = true.
Proof. now destruct s. Qed.

Lemma prefix_hyphens_other c rest :
  Ascii.eqb c "-" = false -> String.prefix "--" (String c rest) = false.
Proof.
  intros H. rewrite prefix_cons. rewrite Ascii.eqb_sym. now rewrite H.
Qed.

Lemma contains_cons sub c rest :
  PyStr.contains sub (String c rest) = false ->
  String.prefix sub (String c rest) = false /\ PyStr.contains sub rest = false.
Proof.
  rewrite contains_unfold. destruct (String.prefix sub (String c rest)); [discriminate|].
  now split.
Qed.

Lemma no_hyphens_none : forall t,
  PyStr.contains "--" t = false -> after_last_hyphens t = None.
Proof.
  induction t as [|c t IH]; intros H; [reflexivity|].
  apply contains_cons in H. destruct H as [Hp Hc].
  cbn [after_last_hyphens]. rewrite (IH Hc).
  rewrite prefix_cons in Hp. rewrite Ascii.eqb_sym in Hp.
  destruct (Ascii.eqb c "-"); [|reflexivity].
  rewrite Hp. reflexivity.
Qed.

Lemma skip_hyphens_other t : String.prefix "-" t = false -> skip_hyphens t = t.
Proof.
  destruct t as [|d t]; [reflexivity|]. rewrite prefix_cons, prefix_nil.
  rewrite Ascii.eqb_sym. intros H. cbn [skip_hyphens].
  destruct (Ascii.eqb d "-"); [discriminate | reflexivity].
Qed.

Lemma after_the_hyphens t :
  PyStr.contains "--" t = false -> String.prefix "-" t = false ->
  forall head, after_last_hyphens (head ++ "--" ++ t) = Some t.
Proof.
  intros Hc Hp. induction head as [|c head IH].
  - change (EmptyString ++ "--" ++ t) with (String "-" (String "-" t)).
    cbn [after_last_hyphens]. rewrite (no_hyphens_none t Hc). rewrite Hp.
    rewrite Ascii.eqb_refl. cbn [andb]. rewrite prefix_cons, prefix_nil, Ascii.eqb_refl.
    cbn [skip_hyphens]. rewrite Ascii.eqb_refl. now rewrite skip_hyphens_other.
  - change (String c head ++ "--" ++ t) with (String c (head ++ "--" ++ t)).
    cbn [after_last_hyphens]. rewrite IH. reflexivity.
Qed.

Lemma hyphens_after_separator a c b :
  Ascii.eqb c "-" = false ->
  PyStr.contains "--" a = false -> PyStr.contains "--" b = false ->
  PyStr.contains "--" (a ++ String c b) = false.
Proof.
  intros Hc Ha Hb. induction a as [|x a IH].
  - cbn [append]. rewrite contains_unfold. now rewrite prefix_hyphens_other.
  - apply contains_cons in Ha. destruct Ha as [Hp Ha].
    cbn [append]. rewrite contains_unfold. rewrite (IH Ha).
    rewrite prefix_cons in *. destruct (Ascii.eqb "-" x); [|reflexivity].
    destruct a as [|y a]; cbn [append].
    + rewrite prefix_cons. rewrite Ascii.eqb_sym. now rewrite Hc.
    + rewrite prefix_cons in *. destruct (Ascii.eqb "-" y); [|reflexivity].
      rewrite prefix_nil in Hp. discriminate.
Qed.

Lemma hyphens_after_spaces n b :
  PyStr.contains "--" b = false -> PyStr.contains "--" (spaces n ++ b) = false.
Proof.
  intros Hb. induction n as [|n IH]; [exact Hb|].
  change (spaces (S n) ++ b) with (String " " (spaces n ++ b)).
  rewrite contains_unfold. rewrite IH. now rewrite prefix_hyphens_other.
Qed.

Lemma plain_parts s :
  plain s = true ->
  s <> EmptyString /\ no_space s = true /\ PyStr.contains "--" s = false.
Proof.
  unfold plain. intros H. apply andb_prop in H. destruct H as [H H3].
  apply andb_prop in H. destruct H as [H1 H2].
  split; [|split].
  - intros ->. discriminate.
  - exact H2.
  - now destruct (PyStr.contains "--" s).
Qed.

Lemma hyphens_row gap p :
  listed p = true -> PyStr.contains "--" (row gap p) = false.
Proof.
  intros H. apply andb_prop in H. destruct H as [Hn Hv].
  apply plain_parts in Hn, Hv. destruct Hn as (_ & _ & Hn). destruct Hv as (_ & _ & Hv).
  unfold row. change (spaces (S gap) ++ pkg_version p)
    with (String " " (spaces gap ++ pkg_version p)).
  apply hyphens_after_separator; [reflexivity | exact Hn |].
  now apply hyphens_after_spaces.
Qed.

Lemma hyphens_rows : forall table,
  forallb listed (map snd table) = true -> PyStr.contains "--" (rows table) = false.
Proof.
  induction table as [|[gap p] ps IH]; intros H; [reflexivity|].
  cbn [map snd forallb] in H. apply andb_prop in H. destruct H as [Hp Hps].
  destruct ps as [|q ps]; [now apply hyphens_row|].
  change (rows ((gap, p) :: q :: ps)) with (row gap p ++ nl ++ rows (q :: ps)).
  change (nl ++ rows (q :: ps)) with (String (ascii_of_nat 10) (rows (q :: ps))).
  apply hyphens_after_separator; [reflexivity | now apply hyphens_row | now apply IH].
Qed.

Lemma append_assoc a b c : (a ++ b) ++ c = a ++ b ++ c.
Proof. induction a as [|x a IH]; [reflexivity|]. cbn. now rewrite IH. Qed.

Lemma append_nil_r a : a ++ EmptyString = a.
Proof. induction a as [|x a IH]; [reflexivity|]. cbn. now rewrite IH. Qed.

Lemma rstrip_word : forall w, no_space w = true -> PyStr.rstrip w = w.
Proof.
  induction w as [|c w IH]; intros H; [reflexivity|].
  cbn [no_space] in H. apply andb_prop in H. destruct H as [Hc Hw].
  cbn [PyStr.rstrip]. rewrite (IH Hw). destruct w; [|reflexivity].
  now destruct (PyStr.isspace c).
Qed.

Lemma rstrip_app b : PyStr.rstrip b = b -> b <> EmptyString ->
  forall a, PyStr.rstrip (a ++ b) = a ++ b.
Proof.
  intros Hb Hne. induction a as [|x a IH]; [exact Hb|].
  cbn [append PyStr.rstrip]. rewrite IH.
  destruct (a ++ b) eqn:E; [|reflexivity].
  destruct a; [cbn in E; congruence | discriminate].
Qed.

Lemma append_not_empty a b : a <> EmptyString -> a ++ b <> EmptyString.
Proof. destruct a; [congruence | discriminate]. Qed.

Lemma row_not_empty gap p : listed p = true -> row gap p <> EmptyString.
Proof.
  intros H. apply andb_prop in H. destruct H as [Hn _].
  apply plain_parts in Hn. destruct Hn as (Hn & _). now apply append_not_empty.
Qed.

Lemma rstrip_row gap p : listed p = true -> PyStr.rstrip (row gap p) = row gap p.
Proof.
  intros H. apply andb_prop in H. destruct H as [_ Hv].
  apply plain_parts in Hv. destruct Hv as (Hne & Hv & _).
  unfold row. rewrite <- append_assoc.
  apply rstrip_app; [now apply rstrip_word | exact Hne].
Qed.

Lemma rows_cons gap p q ps :
  rows ((gap, p) :: q :: ps) = row gap p ++ String (ascii_of_nat 10) (rows (q :: ps)).
Proof. reflexivity. Qed.

Lemma rows_not_empty gap p ps :
  listed p = true -> rows ((gap, p) :: ps) <> EmptyString.
Proof.
  intros H. destruct ps as [|q ps]; [now apply row_not_empty|].
  rewrite rows_cons. apply append_not_empty. now apply row_not_empty.
Qed.

Lemma rstrip_rows : forall table,
  forallb listed (map snd table) = true -> PyStr.rstrip (rows table) = rows table.
Proof.
  induction table as [|[gap p] ps IH]; intros H; [reflexivity|].
  cbn [map snd forallb] in H. apply andb_prop in H. destruct H as [Hp Hps].
  destruct ps as [|[gap' q] ps]; [now apply rstrip_row|].
  rewrite rows_cons.
  change (row gap p ++ String (ascii_of_nat 10) (rows ((gap', q) :: ps)))
    with (row gap p ++ nl ++ rows ((gap', q) :: ps)).
  rewrite <- append_assoc. apply rstrip_app; [now apply IH|].
  cbn [map snd forallb] in Hps. apply andb_prop in Hps. destruct Hps as [Hq _].
  now apply rows_not_empty.
Qed.

Lemma lstrip_rows gap p ps :
  listed p = true -> PyStr.lstrip (rows ((gap, p) :: ps)) = rows ((gap, p) :: ps).
Proof.
  intros H. apply andb_prop in H. destruct H as [Hn _].
  apply plain_parts in Hn. destruct Hn as (Hne & Hn & _).
  assert (E : exists c rest, rows ((gap, p) :: ps) = String c rest /\ PyStr.isspace c = false).
  { destruct (pkg_name p) as [|c name] eqn:En; [congruence|].
    cbn [no_space] in Hn. apply andb_prop in Hn. destruct Hn as [Hc _].
    apply negb_true_iff in Hc.
    destruct ps as [|q ps]; [|rewrite rows_cons]; cbn [rows fst snd]; unfold row; rewrite En;
      eexists _, _; (split; [reflexivity | exact Hc]). }
  destruct E as (c & rest & -> & Hc). cbn [PyStr.lstrip]. now rewrite Hc.
Qed.

Lemma strip_table table :
  forallb listed (map snd table) = true -> PyStr.strip (nl ++ rows table) = rows table.
Proof.
  intros H. unfold PyStr.strip.
  change (PyStr.lstrip (nl ++ rows table)) with (PyStr.lstrip (rows table)).
  destruct table as [|[gap p] ps]; [reflexivity|].
  pose proof H as H'. cbn [map snd forallb] in H'. apply andb_prop in H'. destruct H' as [Hp _].
  rewrite (lstrip_rows gap p ps Hp). now apply rstrip_rows.
Qed.

Lemma split_at c : forall a b,
  has_char c a = false -> PyStr.split c (a ++ String c b) = a :: PyStr.split c b.
Proof.
  induction a as [|x a IH]; intros b H.
  - cbn. now rewrite Ascii.eqb_refl.
  - cbn in H. apply orb_false_elim in H. destruct H as [Hx Ha].
    cbn [append PyStr.split]. rewrite Hx. now rewrite (IH b Ha).
Qed.

Lemma no_space_no_line_feed : forall w,
  no_space w = true -> has_char (ascii_of_nat 10) w = false.
Proof.
  induction w as [|c w IH]; intros H; [reflexivity|].
  cbn [no_space] in H. apply andb_prop in H. destruct H as [Hc Hw].
  cbn [has_char]. rewrite (IH Hw). rewrite orb_false_r.
  destruct (Ascii.eqb c (ascii_of_nat 10)) eqn:E; [|reflexivity].
  apply Ascii.eqb_eq in E. subst c. discriminate.
Qed.

Lemma spaces_no_line_feed n : has_char (ascii_of_nat 10) (spaces n) = false.
Proof. induction n as [|n IH]; [reflexivity|]. exact IH. Qed.

Lemma row_no_line_feed gap p :
  listed p = true -> has_char (ascii_of_nat 10) (row gap p) = false.
Proof.
  intros H. apply andb_prop in H. destruct H as [Hn Hv].
  apply plain_parts in Hn, Hv. destruct Hn as (_ & Hn & _). destruct Hv as (_ & Hv & _).
  unfold row. rewrite !has_char_app.
  rewrite (no_space_no_line_feed _ Hn), (no_space_no_line_feed _ Hv).
  now rewrite spaces_no_line_feed.
Qed.

Lemma split_rows : forall gp table,
  forallb listed (map snd (gp :: table)) = true ->
  PyStr.split (ascii_of_nat 10) (rows (gp :: table)) =
  map (fun gp => row (fst gp) (snd gp)) (gp :: table).
Proof.
  intros gp ps. revert gp. induction ps as [|q ps IH]; intros [gap p] H;
    cbn [map snd forallb] in H; apply andb_prop in H; destruct H as [Hp Hps].
  - cbn [rows map fst snd]. apply split_without_separator. now apply row_no_line_feed.
  - rewrite rows_cons. rewrite split_at by now apply row_no_line_feed.
    rewrite (IH q Hps). reflexivity.
Qed.

Lemma words_aux_word s : forall w cur,
  no_space w = true ->
  PyStr.words_aux cur (w ++ s) = PyStr.words_aux (rev (list_ascii_of_string w) ++ cur) s.
Proof.
  induction w as [|c w IH]; intros cur H; [reflexivity|].
  cbn [no_space] in H. apply andb_prop in H. destruct H as [Hc Hw].
  apply negb_true_iff in Hc.
  cbn [append PyStr.words_aux]. rewrite Hc. rewrite (IH _ Hw).
  cbn [list_ascii_of_string rev]. now rewrite <- app_assoc.
Qed.

Lemma words_aux_spaces s : forall n, PyStr.words_aux [] (spaces n ++ s) = PyStr.words_aux [] s.
Proof.
  induction n as [|n IH]; [reflexivity|].
  change (spaces (S n) ++ s) with (String " " (spaces n ++ s)).
  cbn [PyStr.words_aux]. change (PyStr.isspace " ") with true. cbv iota.
  cbn [app]. exact IH.
Qed.

Lemma flush_word w :
  w <> EmptyString ->
  match (rev (list_ascii_of_string w) ++ [])%list with
  | [] => []
  | _ => [string_of_list_ascii (rev (rev (list_ascii_of_string w) ++ []))]
  end = [w].
Proof.
  intros Hne. rewrite app_nil_r. rewrite rev_involutive.
  rewrite string_of_list_ascii_of_string.
  destruct (rev (list_ascii_of_string w)) eqn:E; [|reflexivity].
  exfalso. apply Hne. apply (f_equal (@rev ascii)) in E. rewrite rev_involutive in E.
  cbn in E. destruct w; [reflexivity | discriminate].
Qed.

Lemma words_aux_last_word w :
  w <> EmptyString -> no_space w = true -> PyStr.words_aux [] w = [w].
Proof.
  intros Hne Hw. rewrite <- (append_nil_r w) at 1.
  rewrite (words_aux_word _ _ [] Hw). cbn [PyStr.words_aux]. now apply flush_word.
Qed.

Lemma words_row gap p :
  listed p = true -> PyStr.words (row gap p) = [pkg_name p; pkg_version p].
Proof.
  intros H. apply andb_prop in H. destruct H as [Hn Hv].
  apply plain_parts in Hn, Hv.
  destruct Hn as (Hne & Hn & _). destruct Hv as (Hve & Hv & _).
  unfold PyStr.words, row. rewrite (words_aux_word _ _ [] Hn).
  change (spaces (S gap) ++ pkg_version p) with (String " " (spaces gap ++ pkg_version p)).
  cbn [PyStr.words_aux]. change (PyStr.isspace " ") with true. cbv iota.
  rewrite words_aux_spaces. rewrite (words_aux_last_word _ Hve Hv).
  now rewrite flush_word.
Qed.

Lemma parse_rows : forall table l,
  forallb listed (map snd table) = true ->
  parse_packages (map (fun gp => row (fst gp) (snd gp)) table) l =
  Returned (map snd table) l.
Proof.
  induction table as [|[gap p] ps IH]; intros l H; [reflexivity|].
  cbn [map snd forallb] in H. apply andb_prop in H. destruct H as [Hp Hps].
  cbn [map parse_packages fst snd]. rewrite (words_row gap p Hp).
  unfold bind. rewrite (IH l Hps). now destruct p.
Qed.

(** X16: [get_packages] reads back a package table.  When the answer
    to [show package] ends with a line of hyphens followed by one row per
    package, a name and a version separated by blanks, as many as the row
    needs to bring its version to its column, and no name or version is
    empty or contains white space or two hyphens in a row, the call
    returns exactly these packages, in the order of the rows; with no row
    it returns the empty list. *)
Theorem get_packages_reads_the_table :
  forall (dev : Device) (l l1 l2 : Line) (out head : string)
         (table : list (nat * Package)),
    go_to dev "fxos_state" l = Returned tt l1 ->
    execute_lines dev ("top" ++ nl ++ "scope firmware") l1 = Returned out l2 ->
    on_execute dev (trace l2) "show package" None =
    Ok (head ++ "--" ++ nl ++ rows table) ->
    forallb listed (map snd table) = true ->
    get_packages dev l =
    Returned (map snd table) (tick dev (EvExecute "show package" None) l2).
Proof.
  intros dev l l1 l2 out head ps Hgo Hlines Hout Hps.
  unfold get_packages. unfold bind at 1. rewrite Hgo.
  unfold bind at 1. rewrite Hlines.
  unfold bind at 1. unfold execute, exchange. rewrite Hout.
  rewrite after_the_hyphens;
    [| change (nl ++ rows ps) with (String (ascii_of_nat 10) (rows ps));
       rewrite contains_unfold; rewrite (hyphens_rows ps Hps);
       now rewrite prefix_hyphens_other
     | reflexivity].
  rewrite (strip_table ps Hps).
  destruct ps as [|[gap p] ps]; [reflexivity|].
  pose proof Hps as H'. cbn [map snd forallb] in H'. apply andb_prop in H'.
  destruct H' as [Hp _].
  pose proof (rows_not_empty gap p ps Hp) as Hne. apply String.eqb_neq in Hne. rewrite Hne.
  rewrite (split_rows (gap, p) ps Hps). now apply parse_rows.
Qed.

Lemma get_packages_reads_the_table_witness :
  exists l2,
  get_packages MoreScenario.two_packages Scenario.line0 =
  Returned [{| pkg_name := "cisco-ftd-fp2k.6.2.1-1088.SSA"; pkg_version := "6.2.1-1088" |};
            {| pkg_name := "fxos-k8-fp2k-lfbff.82.2.1.386i.SSA";
               pkg_version := "82.2(1.386i)" |}]
    (tick MoreScenario.two_packages (EvExecute "show package" None) l2).
Proof.
  eexists.
  eapply (get_packages_reads_the_table MoreScenario.two_packages Scenario.line0 _ _ _
            ("Name                                          Package-Vers" ++ nl ++
             "--------------------------------------------- ----------")
            [(16, {| pkg_name := "cisco-ftd-fp2k.6.2.1-1088.SSA";
                     pkg_version := "6.2.1-1088" |});
             (11, {| pkg_name := "fxos-k8-fp2k-lfbff.82.2.1.386i.SSA";
                     pkg_version := "82.2(1.386i)" |})]).
  - reflexivity.
  - reflexivity.
  - reflexivity.
  - reflexivity.
Defined.

Lemma lstrip_spaces w : forall k, PyStr.lstrip (spaces k ++ w) = PyStr.lstrip w.
Proof. induction k as [|k IH]; [reflexivity|]. exact IH. Qed.

Lemma lstrip_word w : no_space w = true -> PyStr.lstrip w = w.
Proof.
  destruct w as [|c w]; [reflexivity|]. cbn [no_space]. intros H.
  apply andb_prop in H. destruct H as [Hc _]. apply negb_true_iff in Hc.
  cbn [PyStr.lstrip]. now rewrite Hc.
Qed.

Lemma strip_padded_word k w :
  no_space w = true -> PyStr.strip (spaces k ++ w) = w.
Proof.
  intros H. unfold PyStr.strip. rewrite lstrip_spaces. rewrite (lstrip_word w H).
  now apply rstrip_word.
Qed.

(** X23: [is_firmware_fp2k_ready] reads the version back from an answer
    of the form label, colon, blanks, version: when neither the label nor
    the version shown has a colon and the version shown has no white
    space, the call answers whether the version shown is the version
    asked for. *)
Theorem firmware_is_ready_when_the_shown_version_is_the_one_asked :
  forall (dev : Device) (version : string) (l l1 : Line) (label shown : string) (k : nat),
    go_to dev "fxos_state" l = Returned tt l1 ->
    on_execute_lines dev (trace l1)
      (block 12 ["top"; "scope system";
                 "show firmware package-version | grep Package-Vers"]
       ++ nl ++ spaces 8) = Ok (label ++ ":" ++ spaces k ++ shown) ->
    has_char ":" label = false ->
    has_char ":" shown = false ->
    no_space shown = true ->
    is_firmware_fp2k_ready dev version l =
    Returned (String.eqb shown version)
      (tick dev (EvExecuteLines
                   (block 12 ["top"; "scope system";
                              "show firmware package-version | grep Package-Vers"]
                    ++ nl ++ spaces 8)) l1).
Proof.
  intros dev version l l1 label shown k Hgo Hout Hl Hs Hw.
  unfold is_firmware_fp2k_ready. unfold bind at 1. rewrite Hgo.
  unfold bind at 1. unfold execute_lines, exchange. rewrite Hout.
  change (label ++ ":" ++ spaces k ++ shown) with (label ++ String ":" (spaces k ++ shown)).
  rewrite (split_at ":" label _ Hl).
  rewrite split_without_separator.
  - rewrite (strip_padded_word k shown Hw).
    destruct (String.eqb shown version); reflexivity.
  - rewrite has_char_app. rewrite Hs. rewrite orb_false_r.
    clear. induction k as [|k IH]; [reflexivity | exact IH].
Qed.

Lemma firmware_is_ready_when_the_shown_version_is_the_one_asked_witness :
  is_firmware_fp2k_ready Scenario.installed_device "6.2.1-1088" Scenario.line0 =
  Returned (String.eqb "6.2.1-1088" "6.2.1-1088")
    (tick Scenario.installed_device
       (EvExecuteLines
          (block 12 ["top"; "scope system";
                     "show firmware package-version | grep Package-Vers"]
           ++ nl ++ spaces 8))
       (went Scenario.installed_device Scenario.line0)).
Proof.
  apply (firmware_is_ready_when_the_shown_version_is_the_one_asked
           Scenario.installed_device "6.2.1-1088" Scenario.line0
           (went Scenario.installed_device Scenario.line0) "Package-Vers" "6.2.1-1088" 1).
  - reflexivity.
  - reflexivity.
  - reflexivity.
  - reflexivity.
  - reflexivity.
Defined.

(** X24: when the answer to the query of the download task does not
    contain [State: ], [_get_download_status] raises an [AttributeError]
    instead of returning a state. *)
Theorem download_status_without_a_state_raises :
  forall (dev : Device) (image_name : string) (l l1 : Line) (out : string),
    go_to dev "fxos_state" l = Returned tt l1 ->
    on_execute dev (trace l1) (download_task_cmd image_name) None = Ok out ->
    PyStr.contains "State: " out = false ->
    _get_download_status dev image_name l =
    Raised AttributeError (tick dev (EvExecute (download_task_cmd image_name) None) l1).
Proof.
  intros dev image_name l l1 out Hgo Hout Hno.
  unfold _get_download_status. unfold bind at 1. rewrite Hgo.
  unfold bind at 1. unfold execute, exchange. rewrite Hout.
  destruct (Re.search re_State out) as [[ms r]|] eqn:E; [|reflexivity].
  exfalso. unfold re_State in E. apply search_word in E. congruence.
Qed.

Lemma download_status_without_a_state_raises_witness :
  _get_download_status MoreScenario.no_such_task Scenario.image Scenario.line0 =
  Raised AttributeError
    (tick MoreScenario.no_such_task (EvExecute (download_task_cmd Scenario.image) None)
       (went MoreScenario.no_such_task Scenario.line0)).
Proof.
  apply (download_status_without_a_state_raises MoreScenario.no_such_task Scenario.image
           Scenario.line0 (went MoreScenario.no_such_task Scenario.line0)
           "Error: Managed object does not exist").
  - reflexivity.
  - reflexivity.
  - reflexivity.
Defined.

(** X22: when [ftd_version] has no hyphen, so that no version with a
    build number can be read in it, [upgrade_bundle_package_fp2k] raises an
    [AttributeError] after entering the auto-install scope and before the
    [install security-pack] command is sent. *)
Theorem upgrade_without_a_build_number_installs_nothing :
  forall (dev : Device)
    (bundle_package_name ftd_version uut_hostname uut_password
     uut_ip uut_netmask uut_gateway dns_servers search_domains mode : string)
    (uut_ip6 uut_prefix uut_gateway6 : PyStr.t) (firewall_mode : string) (timeout : Z)
    (l l1 : Line) (out : string),
    go_to dev "fxos_state" l = Returned tt l1 ->
    on_execute_lines dev (trace l1)
      (block 12 ["top"; "scope firmware"; "scope auto-install"] ++ nl ++ spaces 8) = Ok out ->
    has_char "-" ftd_version = false ->
    upgrade_bundle_package_fp2k dev bundle_package_name ftd_version uut_hostname
      uut_password uut_ip uut_netmask uut_gateway dns_servers search_domains mode
      uut_ip6 uut_prefix uut_gateway6 firewall_mode timeout l =
    Raised AttributeError
      (tick dev (EvExecuteLines
                   (block 12 ["top"; "scope firmware"; "scope auto-install"]
                    ++ nl ++ spaces 8)) l1).
Proof.
  intros dev bundle ftd_version uut_hostname uut_password uut_ip uut_netmask uut_gateway
    dns_servers search_domains mode uut_ip6 uut_prefix uut_gateway6 firewall_mode timeout
    l l1 out Hgo Hout Hd.
  assert (Hs : Re.search re_version_build ftd_version = None).
  { destruct (Re.search re_version_build ftd_version) as [r|] eqn:E; [|reflexivity].
    exfalso. assert (H : has_char "-" ftd_version = true).
    { apply (search_lit "-" re_version_build ftd_version r); [|exact E]. cbn. auto. }
    congruence. }
  unfold upgrade_bundle_package_fp2k. unfold bind at 1. rewrite Hgo.
  unfold bind at 1. unfold execute_lines at 1, exchange. rewrite Hout.
  unfold bind at 1. rewrite Hs. reflexivity.
Qed.

Lemma upgrade_without_a_build_number_installs_nothing_witness :
  upgrade_bundle_package_fp2k Scenario.installed_device "cisco-ftd-fp2k.6.2.1.SSA" "6.2.1"
    "firepower" "Admin123" "10.0.0.2" "255.255.255.0" "10.0.0.1" "10.0.0.53" "cisco.com"
    "local" None None None "routed" 3600 Scenario.line0 =
  Raised AttributeError
    (tick Scenario.installed_device
       (EvExecuteLines
          (block 12 ["top"; "scope firmware"; "scope auto-install"] ++ nl ++ spaces 8))
       (went Scenario.installed_device Scenario.line0)).
Proof.
  apply (upgrade_without_a_build_number_installs_nothing Scenario.installed_device
           "cisco-ftd-fp2k.6.2.1.SSA" "6.2.1" "firepower" "Admin123" "10.0.0.2"
           "255.255.255.0" "10.0.0.1" "10.0.0.53" "cisco.com" "local" None None None
           "routed" 3600 Scenario.line0
           (went Scenario.installed_device Scenario.line0)
           ("Package-Vers: " ++ "6.2.1-1088")).
  - reflexivity.
  - reflexivity.
  - reflexivity.
Defined.

(** X21: a device whose [show version] shows the version and the build
    of the target passes [validate_version]: for the target written as
    version, hyphen, build, the call goes on to [fxos_state] and raises
    nothing of its own. *)
Theorem validate_version_accepts_the_target :
  forall (dev : Device) (l : Line) (response version build : string),
    on_execute dev (trace l) "show version" (Some 30%Z) = Ok response ->
    response <> EmptyString ->
    shown_build response = Some build ->
    shown_version response = Some version ->
    validate_version dev (version ++ "-" ++ build) l =
    go_to dev "fxos_state" (tick dev (EvExecute "show version" (Some 30%Z)) l).
Proof.
  intros dev l response version build Hex Hne Hb Hv.
  rewrite (validate_version_tests_containment dev (version ++ "-" ++ build) l response
             build version Hex Hne Hb Hv).
  destruct (target_version_and_build_pass version build) as [E1 E2].
  rewrite E1, E2. reflexivity.
Qed.

Lemma validate_version_accepts_the_target_witness :
  validate_version Scenario.installed_device ("6.2.1" ++ "-" ++ "1088") Scenario.line0 =
  go_to Scenario.installed_device "fxos_state"
    (tick Scenario.installed_device (EvExecute "show version" (Some 30%Z)) Scenario.line0).
Proof.
  apply (validate_version_accepts_the_target Scenario.installed_device Scenario.line0
           "Version 6.2.1 (Build 1088)" "6.2.1" "1088").
  - reflexivity.
  - discriminate.
  - reflexivity.
  - reflexivity.
Defined.

(* --------------------------------------------------------------------- *)
(** ** wait_till *)

Lemma wait_till_loop_round stop_func message start upto step fuel elapsed l :
  wait_till_loop (S fuel) stop_func message start upto step elapsed l =
  if (elapsed <? upto)%Z then
    match stop_func l with
    | Returned true l1 => Returned tt l1
    | Returned false l1 =>
        if (step <? 0)%Z then Raised ValueError l1
        else wait_till_loop fuel stop_func message start upto step
               (clock l1 + step - start)%Z (slept step l1)
    | Raised e l1 => Raised e l1
    | Unfinished => Unfinished
    end
  else Raised (RuntimeError message) l.
Proof.
  cbn [wait_till_loop]. destruct (elapsed <? upto)%Z; [|reflexivity].
  unfold bind at 1. destruct (stop_func l) as [[|] l1|e l1|]; try reflexivity.
  unfold bind at 1. unfold bind at 1. destruct (step <? 0)%Z; reflexivity.
Qed.

Lemma wait_till_loop_ends stop_func message upto step l :
  (1 <= step)%Z ->
  (forall l0, exists b l1, stop_func l0 = Returned b l1 /\ (clock l0 <= clock l1)%Z) ->
  forall fuel n lcur,
    Z.to_nat (upto - (clock lcur - clock l)) < fuel ->
    nth_test stop_func step n l = Some lcur ->
    exists n' l0 l',
      nth_test stop_func step n' l = Some l0 /\
      (clock lcur <= clock l')%Z /\
      ((stop_func l0 = Returned true l' /\
        (clock l0 - clock l < upto)%Z /\
        wait_till_loop fuel stop_func message (clock l) upto step (clock lcur - clock l) lcur
        = Returned tt l') \/
       (l' = l0 /\
        (upto <= clock l0 - clock l)%Z /\
        wait_till_loop fuel stop_func message (clock l) upto step (clock lcur - clock l) lcur
        = Raised (RuntimeError message) l0)).
Proof.
  intros Hstep Hstop. induction fuel as [|fuel IH]; intros n lcur Hfuel Hn; [lia|].
  rewrite wait_till_loop_round. destruct (clock lcur - clock l <? upto)%Z eqn:Hlt.
  - apply Z.ltb_lt in Hlt. destruct (Hstop lcur) as (b & l1 & E & Hc).
    rewrite E. destruct b.
    + exists n, lcur, l1. split; [exact Hn|]. split; [exact Hc|]. left.
      split; [exact E|]. split; [exact Hlt | reflexivity].
    + assert (Hneg : (step <? 0)%Z = false) by (apply Z.ltb_ge; lia).
      rewrite Hneg.
      assert (Hnext : nth_test stop_func step (S n) l = Some (slept step l1)).
      { cbn [nth_test]. rewrite Hn, E. reflexivity. }
      destruct (IH (S n) (slept step l1)) as (n' & l0 & l' & Hn' & Hc' & Hout).
      * cbn [slept clock with_clock with_trace]. lia.
      * exact Hnext.
      * exists n', l0, l'. split; [exact Hn'|].
        split; [cbn [slept clock with_clock with_trace] in Hc'; lia|].
        replace (clock l1 + step - clock l)%Z with (clock (slept step l1) - clock l)%Z
          by reflexivity.
        exact Hout.
  - apply Z.ltb_ge in Hlt. exists n, lcur, lcur. split; [exact Hn|]. split; [lia|].
    right. split; [reflexivity|]. split; [exact Hlt | reflexivity].
Qed.

(** X17: with a step of one second at least and a condition that always
    gives an answer and does not turn the clock back, [wait_till] ends
    within [wait_upto] rounds, and how it ends is read off the answers of
    the condition.  The condition is tested at the start and again after
    every sleep of [sleep_step] seconds, as long as the tests answer
    false.  The call returns at the first test that answers true, on the
    line this test leaves, and less than [wait_upto] seconds after the
    call was this test started.  Or every test made has answered false and
    [wait_upto] seconds at least have passed since the call when the next
    test would start: then it raises the [RuntimeError] that names the
    condition, without another test. *)
Theorem wait_till_ends :
  forall (stop_func : M bool) (shown : string * string) (wait_upto sleep_step : Z)
         (fuel : nat) (l : Line),
    (1 <= sleep_step)%Z ->
    (forall l0, exists b l1, stop_func l0 = Returned b l1 /\ (clock l0 <= clock l1)%Z) ->
    Z.to_nat wait_upto < fuel ->
    exists (n : nat) (l0 l' : Line),
      nth_test stop_func sleep_step n l = Some l0 /\
      (clock l <= clock l')%Z /\
      ((stop_func l0 = Returned true l' /\
        (clock l0 - clock l < wait_upto)%Z /\
        wait_till fuel stop_func shown wait_upto sleep_step l = Returned tt l') \/
       (l' = l0 /\
        (wait_upto <= clock l0 - clock l)%Z /\
        wait_till fuel stop_func shown wait_upto sleep_step l =
        Raised (RuntimeError (fst shown ++ "(" ++ snd shown ++
                              ") took too long to return True")) l0)).
Proof.
  intros stop_func shown upto step fuel l Hstep Hstop Hfuel.
  unfold wait_till. unfold bind, now, read.
  replace 0%Z with (clock l - clock l)%Z by lia.
  apply (wait_till_loop_ends stop_func _ upto step l Hstep Hstop fuel 0 l).
  - replace (clock l - clock l)%Z with 0%Z by lia. now rewrite Z.sub_0_r.
  - reflexivity.
Qed.

Lemma wait_till_ends_witness :
  exists (n : nat) (l0 l' : Line),
    nth_test MoreScenario.after_25_seconds 10 n Scenario.line0 = Some l0 /\
    (clock Scenario.line0 <= clock l')%Z /\
    ((MoreScenario.after_25_seconds l0 = Returned true l' /\
      (clock l0 - clock Scenario.line0 < 30)%Z /\
      wait_till 31 MoreScenario.after_25_seconds ("ready", "1") 30 10 Scenario.line0 =
      Returned tt l') \/
     (l' = l0 /\
      (30 <= clock l0 - clock Scenario.line0)%Z /\
      wait_till 31 MoreScenario.after_25_seconds ("ready", "1") 30 10 Scenario.line0 =
      Raised (RuntimeError (fst ("ready", "1") ++ "(" ++ snd ("ready", "1") ++
                            ") took too long to return True")) l0)).
Proof.
  apply (wait_till_ends MoreScenario.after_25_seconds ("ready", "1") 30 10 31
           Scenario.line0).
  - lia.
  - intros l0. eexists _, l0. split; [reflexivity | lia].
  - cbn. lia.
Defined.

End KpMoreFacts.

(* ===================================================================== *)
(** * The baseline and the manager *)
(* ===================================================================== *)

Module KpManager.
Import Dialogs StateMachine Console Notions MoreNotions ConsoleFacts Kp KpFrames.
Local Open Scope line_scope.

(** One step of a proof that a call registers no manager. *)
Ltac calm_step :=
  lazymatch goal with
  | |- adds _ (bind _ _) => apply adds_bind; [| intros ?]
  | |- adds _ (ret _) => apply adds_ret
  | |- adds _ (raise _) => apply adds_raise
  | |- adds _ (read _) => apply adds_read
  | |- adds _ now => apply adds_read
  | |- adds _ (fun _ => Unfinished) => apply adds_unfinished
  | |- adds _ (update (with_current_state _)) => apply adds_update_state
  | |- adds _ (update_cur_state _) => apply adds_update_state
  | |- adds _ (update (with_change_password_flag _)) => apply adds_update_flag
  | |- adds _ (set_power_bar _ _ _ _) => apply adds_update_power_bar
  | |- adds _ (update (with_power_bar _ _ _ _)) => apply adds_update_power_bar
  | |- adds _ (get_state_pattern _) => apply adds_get_state_pattern
  | |- adds _ (go_to _ _) => apply adds_go_to; reflexivity
  | |- adds _ (exchange _ _ _) => apply adds_exchange; reflexivity
  | |- adds _ (execute _ _ _) => apply adds_exchange; reflexivity
  | |- adds _ (execute_lines _ _) => apply adds_exchange; reflexivity
  | |- adds _ (execute_only _ _) => apply adds_exchange; reflexivity
  | |- adds _ (expect _ _ _) => apply adds_exchange; reflexivity
  | |- adds _ (process _ _ _) => apply adds_exchange; reflexivity
  | |- adds _ (power_cycle_all_ports _ _ _ _ _) => apply adds_exchange; reflexivity
  | |- adds _ (emit _) => apply adds_emit; reflexivity
  | |- adds _ (sendline _) => apply adds_emit; reflexivity
  | |- adds _ (publish_kick_metric _ _) => apply adds_emit; reflexivity
  | |- adds _ (sleep _) => apply adds_sleep; [reflexivity | lia]
  | |- adds _ (try_except _ _ _) => apply adds_try
  | |- adds _ (if ?b then _ else _) => destruct b
  | |- adds _ (match ?x with _ => _ end) => destruct x
  end.

Ltac calm := repeat calm_step.

Section Calm.
Variable dev : Device.

Lemma calm_init_terminal b : adds no_manager (init_terminal dev b).
Proof.
  unfold init_terminal. calm; try (apply adds_init_cmds; intros; reflexivity).
Qed.

Lemma calm_wait_until_device_on t : adds no_manager (wait_until_device_on dev t).
Proof. unfold wait_until_device_on, process. calm; try apply calm_init_terminal. Qed.

Lemma calm_power_cycle a b w t u p : adds no_manager (power_cycle dev a b w t u p).
Proof.
  unfold power_cycle, set_power_bar, power_cycle_all_ports. calm;
    try apply calm_wait_until_device_on.
Qed.

Lemma calm_parse_packages lines : adds no_manager (parse_packages lines).
Proof. induction lines as [|line lines IH]; cbn; calm; try exact IH. Qed.

Lemma calm_get_packages : adds no_manager (get_packages dev).
Proof. unfold get_packages, execute_lines, execute. calm; try apply calm_parse_packages. Qed.

Lemma calm_get_download_status img : adds no_manager (_get_download_status dev img).
Proof. unfold _get_download_status, execute. calm. Qed.

Lemma calm_wait_loop img start upto : forall fuel elapsed,
  adds no_manager (wait_loop dev fuel img start upto elapsed).
Proof.
  induction fuel as [|fuel IH]; intros elapsed; cbn; [apply adds_unfinished|].
  unfold now. calm; try apply calm_get_download_status; try apply IH.
Qed.

Lemma calm_wait_till_download_complete fuel file_url upto :
  adds no_manager (_wait_till_download_complete dev fuel file_url upto).
Proof. unfold _wait_till_download_complete, now. calm; try apply calm_wait_loop. Qed.

Lemma calm_is_firmware_fp2k_ready v : adds no_manager (is_firmware_fp2k_ready dev v).
Proof. unfold is_firmware_fp2k_ready, execute_lines. calm. Qed.

Lemma calm_download_loop wait_fuel fxos_url pw : forall fuel retry_count,
  adds no_manager (download_loop dev fuel wait_fuel fxos_url pw retry_count).
Proof.
  induction fuel as [|fuel IH]; intros retry_count; cbn; [apply adds_unfinished|].
  unfold execute_lines, sendline, process. calm;
    try apply calm_wait_till_download_complete;
    try (apply adds_for_range; unfold sendline; calm);
    try apply IH.
Qed.

Lemma calm_download_ftd_fp2k fuel fxos_url v pw :
  adds no_manager (download_ftd_fp2k dev fuel fxos_url v pw).
Proof.
  unfold download_ftd_fp2k, execute_lines. calm;
    try apply calm_is_firmware_fp2k_ready;
    try apply calm_get_packages;
    try apply calm_download_loop.
Qed.

Lemma calm_wait_for_rommon t : adds no_manager (wait_for_rommon dev t).
Proof. unfold wait_for_rommon, process, update_cur_state. calm. Qed.

Lemma calm_validate_version v : adds no_manager (validate_version dev v).
Proof. unfold validate_version, execute. calm. Qed.

Lemma calm_format_goto_rommon t : adds no_manager (format_goto_rommon dev t).
Proof. unfold format_goto_rommon, sendline, process. calm; try apply calm_wait_for_rommon. Qed.

Lemma calm_power_cycle_goto_rommon t a b c d :
  adds no_manager (power_cycle_goto_rommon dev t a b c d).
Proof.
  unfold power_cycle_goto_rommon. calm;
    try apply calm_power_cycle; try apply calm_wait_for_rommon.
Qed.

Lemma calm_change_password : adds no_manager (__change_password dev).
Proof. unfold __change_password, process. calm. Qed.

Lemma calm_rommon_factory_reset_and_format bt ft :
  adds no_manager (rommon_factory_reset_and_format dev bt ft).
Proof.
  unfold rommon_factory_reset_and_format, sendline, process. calm;
    try apply calm_power_cycle_goto_rommon;
    try apply calm_change_password;
    try apply calm_init_terminal;
    try apply calm_format_goto_rommon.
Qed.

Lemma calm_expect_and_sendline es t : adds no_manager (expect_and_sendline dev es t).
Proof.
  induction es as [|[[pat send] third] es IH]; cbn; unfold sendline, expect; calm;
    try exact IH.
Qed.

Lemma calm_ping_loop server : forall n, adds no_manager (ping_loop dev n server).
Proof. induction n as [|n IH]; cbn; unfold sendline, expect; calm; try exact IH. Qed.

Lemma calm_rommon_configure a b c d e : adds no_manager (rommon_configure dev a b c d e).
Proof.
  unfold rommon_configure. calm; try apply calm_expect_and_sendline; try apply calm_ping_loop.
Qed.

Lemma calm_rommon_tftp_download a b c t : adds no_manager (rommon_tftp_download dev a b c t).
Proof.
  unfold rommon_tftp_download, sendline, process. calm; try apply calm_change_password.
Qed.

Lemma calm_install_rommon_build_fp2k a b c d e f t :
  adds no_manager (install_rommon_build_fp2k dev a b c d e f t).
Proof.
  unfold install_rommon_build_fp2k. calm;
    try apply calm_format_goto_rommon;
    try apply calm_rommon_factory_reset_and_format;
    try apply calm_rommon_configure;
    try apply calm_rommon_tftp_download;
    try apply calm_init_terminal.
Qed.

Lemma calm_upgrade_bundle_package_fp2k a b c d e f g h i j k m n o t :
  adds no_manager (upgrade_bundle_package_fp2k dev a b c d e f g h i j k m n o t).
Proof. unfold upgrade_bundle_package_fp2k, execute_lines, sendline, process. calm. Qed.
End Calm.

(** The steps of the baseline. *)
Ltac calm_call :=
  lazymatch goal with
  | |- adds _ (validate_version _ _) => apply calm_validate_version
  | |- adds _ (upgrade_bundle_package_fp2k _ _ _ _ _ _ _ _ _ _ _ _ _ _ _ _) =>
      apply calm_upgrade_bundle_package_fp2k
  | |- adds _ (download_ftd_fp2k _ _ _ _ _) => apply calm_download_ftd_fp2k
  | |- adds _ (install_rommon_build_fp2k _ _ _ _ _ _ _ _) =>
      apply calm_install_rommon_build_fp2k
  | |- adds _ (power_cycle_goto_rommon _ _ _ _ _ _) => apply calm_power_cycle_goto_rommon
  | |- adds _ (rommon_factory_reset_and_format _ _ _) =>
      apply calm_rommon_factory_reset_and_format
  end.

Lemma registrations_app evs h :
  Forall no_manager evs -> registrations (evs ++ h) = registrations h.
Proof.
  unfold registrations. induction 1 as [|e evs He Hevs IH]; [reflexivity|].
  cbn [app filter]. unfold no_manager in He. now rewrite He.
Qed.

(** X18: in local mode, or when no manager is given, the baseline never
    registers the device with a manager: however the call ends, no
    [configure manager add] command has been executed on the way, even
    when a manager was passed along with the local mode. *)
Theorem baseline_in_local_mode_registers_no_manager :
  forall (dev : Device) (fuel : nat)
    (tftp_server rommon_file uut_hostname uut_username uut_password
     uut_ip uut_netmask uut_gateway dns_servers search_domains
     fxos_url ftd_version file_server_password : string)
    (power_cycle_flag : bool) (mode : string)
    (uut_ip6 uut_prefix uut_gateway6 manager manager_key manager_nat_id : PyStr.t)
    (firewall_mode : string) (timeout reboot_timeout : Z) (l l' : Line),
    mode = "local" \/ manager = None ->
    final (baseline_fp2k_ftd dev fuel tftp_server rommon_file uut_hostname uut_username
             uut_password uut_ip uut_netmask uut_gateway dns_servers search_domains
             fxos_url ftd_version file_server_password power_cycle_flag mode
             uut_ip6 uut_prefix uut_gateway6 manager manager_key manager_nat_id
             firewall_mode timeout reboot_timeout l) = Some l' ->
    registrations (trace l') = registrations (trace l).
Proof.
  intros dev fuel tftp_server rommon_file uut_hostname uut_username uut_password
    uut_ip uut_netmask uut_gateway dns_servers search_domains
    fxos_url ftd_version file_server_password power_cycle_flag mode
    uut_ip6 uut_prefix uut_gateway6 manager manager_key manager_nat_id
    firewall_mode timeout reboot_timeout l l' Hmode Hfinal.
  assert (H : adds no_manager
                (baseline_fp2k_ftd dev fuel tftp_server rommon_file uut_hostname
                   uut_username uut_password uut_ip uut_netmask uut_gateway dns_servers
                   search_domains fxos_url ftd_version file_server_password
                   power_cycle_flag mode uut_ip6 uut_prefix uut_gateway6 manager
                   manager_key manager_nat_id firewall_mode timeout reboot_timeout)).
  { unfold baseline_fp2k_ftd. cbv zeta.
    assert (Hskip : adds no_manager
              (match manager with
               | Some _ =>
                   if negb (String.eqb mode "local")
                   then configure_manager dev manager manager_key manager_nat_id
                   else ret tt
               | None => ret tt
               end)).
    { destruct Hmode as [->| ->]; [|apply adds_ret].
      destruct manager; apply adds_ret. }
    repeat (first [exact Hskip | calm_call | calm_step]). }
  destruct (adds_final _ _ _ _ H Hfinal) as [(evs & -> & F) _].
  now apply registrations_app.
Qed.

Lemma baseline_in_local_mode_registers_no_manager_witness :
  exists l',
    final (baseline_fp2k_ftd Scenario.silent_device 0 "10.89.23.80"
             "fxos-k8-fp2k-lfbff.82.5.1.893i.SSB" "firepower" "admin" "Admin123"
             "10.0.0.2" "255.255.255.0" "10.0.0.1" "10.0.0.53" "cisco.com" Scenario.url
             "6.2.1-1088" EmptyString false "local" None None None
             (Some "10.0.0.100") (Some "key") None "routed" 3600 300 Scenario.line0)
    = Some l' /\
    registrations (trace l') = registrations (trace Scenario.line0).
Proof.
  eexists. split.
  - vm_compute. reflexivity.
  - apply (baseline_in_local_mode_registers_no_manager Scenario.silent_device 0
             "10.89.23.80" "fxos-k8-fp2k-lfbff.82.5.1.893i.SSB" "firepower" "admin"
             "Admin123" "10.0.0.2" "255.255.255.0" "10.0.0.1" "10.0.0.53" "cisco.com"
             Scenario.url "6.2.1-1088" EmptyString false "local" None None None
             (Some "10.0.0.100") (Some "key") None "routed" 3600 300 Scenario.line0).
    + left. reflexivity.
    + vm_compute. reflexivity.
Defined.

End KpManager.

(* ===================================================================== *)
(** * Baseline by branch and version: the files *)
(* ===================================================================== *)

Module ByBranchFacts.
Import Dialogs StateMachine Console Notions MoreNotions Kp KpMore.
Import KpMoreFacts.
Local Open Scope line_scope.

Lemma filter_none {A} (f : A -> bool) : forall xs,
  (forall x, In x xs -> f x = false) -> filter f xs = [].
Proof.
  induction xs as [|x xs IH]; intros H; [reflexivity|].
  cbn. rewrite (H x (or_introl eq_refl)). apply IH. intros y Hy. apply H. now right.
Qed.

Section Files.
Variable dev : Device.
Variable KICK_EXTERNAL : bool.
Variable prepare_installation_files :
  string -> string -> string -> string -> Reply (string * string * string * list string).
Variables site branch version uut_ip uut_netmask uut_gateway : string.
Variables dns_server serverIp tftpPrefix scpPrefix : string.
Variable docs : list string.
Variable kwargs : Kwargs.
Variable fuel : nat.
Variables server_ip tftp_prefix scp_prefix : string.
Variable files : list string.

(** The files the call works with: the arguments, or what the file
    server has prepared. *)
Hypothesis Hfiles : forall device,
  (if KICK_EXTERNAL then Ok (serverIp, tftpPrefix, scpPrefix, docs)
   else prepare_installation_files site device branch version) =
  Ok (server_ip, tftp_prefix, scp_prefix, files).

Let kp_call : M unit :=
  KpMore.baseline_by_branch_and_version dev KICK_EXTERNAL prepare_installation_files fuel
    site branch version uut_ip uut_netmask uut_gateway dns_server serverIp tftpPrefix
    scpPrefix docs kwargs.

Let wm_call : M unit :=
  WmMore.baseline_by_branch_and_version dev KICK_EXTERNAL prepare_installation_files fuel
    site branch version uut_ip uut_netmask uut_gateway dns_server serverIp tftpPrefix
    scpPrefix docs kwargs.

Lemma kp_prepared l :
  (if KICK_EXTERNAL then ret (serverIp, tftpPrefix, scpPrefix, docs)
   else match prepare_installation_files site "Kp" branch version with
        | Ok r => ret r
        | Fails e => raise e
        end) l = Returned (server_ip, tftp_prefix, scp_prefix, files) l.
Proof.
  pose proof (Hfiles "Kp") as H. destruct KICK_EXTERNAL.
  - inversion H. reflexivity.
  - rewrite H. reflexivity.
Qed.

Lemma wm_prepared l :
  (if KICK_EXTERNAL then ret (serverIp, tftpPrefix, scpPrefix, docs)
   else match prepare_installation_files site "wm" branch version with
        | Ok r => ret r
        | Fails e => raise e
        end) l = Returned (server_ip, tftp_prefix, scp_prefix, files) l.
Proof.
  pose proof (Hfiles "wm") as H. destruct KICK_EXTERNAL.
  - inversion H. reflexivity.
  - rewrite H. reflexivity.
Qed.

Lemma without_fxos_file l :
  (forall f, In f files -> PyStr.startswith f "fxos-k8-fp2k-lfbff" = false) ->
  kp_call l = Raised (OtherError "Got list index out of range while getting fxos file") l /\
  wm_call l = Raised (OtherError "Got list index out of range while getting fxos file") l.
Proof.
  intros H. unfold kp_call, wm_call, KpMore.baseline_by_branch_and_version,
    WmMore.baseline_by_branch_and_version.
  split; unfold bind at 1; [rewrite kp_prepared | rewrite wm_prepared];
    rewrite (filter_none _ files H); reflexivity.
Qed.

Lemma with_the_fxos_file_alone l f :
  files = [f] -> PyStr.startswith f "fxos-k8-fp2k-lfbff" = true ->
  kp_call l = Raised IndexError l /\ wm_call l = Raised IndexError l.
Proof.
  intros E H. unfold kp_call, wm_call, KpMore.baseline_by_branch_and_version,
    WmMore.baseline_by_branch_and_version.
  split; unfold bind at 1; [rewrite kp_prepared | rewrite wm_prepared];
    rewrite E; cbn [filter]; rewrite H; unfold bind at 1; unfold ret at 1;
    cbn [list_remove]; rewrite String.eqb_refl; reflexivity.
Qed.

Lemma without_a_build_number l rommon more pkg others :
  filter (fun file => PyStr.startswith file "fxos-k8-fp2k-lfbff") files = rommon :: more ->
  list_remove rommon files = Some (pkg :: others) ->
  PyStr.truthy (kw_ftd_version kwargs) = false ->
  has_char "-" version = false ->
  kp_call l = Raised IndexError l /\ wm_call l = Raised IndexError l.
Proof.
  intros Hf Hr Hv Hd.
  assert (Hs : Re.search re_version_build version = None).
  { destruct (Re.search re_version_build version) as [r|] eqn:E; [|reflexivity].
    exfalso. assert (H : has_char "-" version = true).
    { apply (search_lit "-" re_version_build version r); [|exact E]. cbn. auto. }
    congruence. }
  unfold kp_call, wm_call, KpMore.baseline_by_branch_and_version,
    WmMore.baseline_by_branch_and_version.
  split; unfold bind at 1; [rewrite kp_prepared | rewrite wm_prepared];
    rewrite Hf; unfold bind at 1; unfold ret at 1; rewrite Hr;
    unfold bind at 1; unfold ret at 1; unfold bind at 1; unfold ret at 1;
    unfold bind at 1; rewrite Hv; cbn [negb]; rewrite Hs; reflexivity.
Qed.

Lemma ftd_version_chosen v l :
  chosen_ftd_version kwargs version = Some v ->
  (if negb (PyStr.truthy (kw_ftd_version kwargs)) then
     match Re.search re_version_build version with
     | Some (ms, _) => ret (re_version_build_group0 ms)
     | None => raise IndexError
     end
   else ret (fmt (kw_ftd_version kwargs))) l = Returned v l.
Proof.
  unfold chosen_ftd_version. destruct (PyStr.truthy (kw_ftd_version kwargs)); cbn [negb].
  - intros H. inversion H. reflexivity.
  - destruct (Re.search re_version_build version) as [[ms r]|]; [|discriminate].
    intros H. inversion H. reflexivity.
Qed.

Lemma startswith_append a b c :
  PyStr.startswith a (String c EmptyString) = true ->
  PyStr.startswith (a ++ b) (String c EmptyString) = true.
Proof.
  unfold PyStr.startswith. destruct a as [|x a]; [discriminate|].
  cbn [append]. rewrite !prefix_cons, !prefix_nil. tauto.
Qed.

Lemma join_absolute path a b :
  PyStr.startswith a "/" = true -> PyStr.startswith b "/" = false ->
  os_path_join path [a; b] = join_step a b /\
  PyStr.startswith (join_step a b) "/" = true.
Proof.
  intros Ha Hb. split.
  - cbn [os_path_join fold_left]. unfold join_step at 2. now rewrite Ha.
  - unfold join_step. rewrite Hb.
    destruct (String.eqb a EmptyString || ends_with "/" a); now apply startswith_append.
Qed.

Lemma ends_with_append c b : b <> EmptyString ->
  forall a, ends_with c (a ++ b) = ends_with c b.
Proof.
  intros Hb. induction a as [|x a IH]; [reflexivity|].
  cbn [append ends_with]. destruct (a ++ b) eqn:E; [|exact IH].
  destruct a; [cbn in E; congruence | discriminate].
Qed.

Lemma join_relative path b :
  path <> EmptyString -> ends_with "/" path = false -> PyStr.startswith b "/" = false ->
  join_step path b = path ++ "/" ++ b.
Proof.
  intros Hne He Hb. unfold join_step. rewrite Hb, He.
  apply String.eqb_neq in Hne. now rewrite Hne.
Qed.

Lemma fxos_file_is_relative fs rommon more :
  filter (fun file => PyStr.startswith file "fxos-k8-fp2k-lfbff") fs = rommon :: more ->
  PyStr.startswith rommon "/" = false.
Proof.
  intros H.
  assert (Hin : In rommon (filter (fun file => PyStr.startswith file "fxos-k8-fp2k-lfbff")
                             fs)) by (rewrite H; now left).
  apply filter_In in Hin. destruct Hin as [_ Hs]. unfold PyStr.startswith in *.
  destruct rommon as [|c r]; [discriminate|].
  rewrite prefix_cons in Hs. rewrite prefix_cons, prefix_nil.
  destruct (Ascii.eqb "f" c) eqn:E; [|discriminate].
  apply Ascii.eqb_eq in E. now subst c.
Qed.

Lemma with_a_relative_prefix l rommon more pkg others v :
  filter (fun file => PyStr.startswith file "fxos-k8-fp2k-lfbff") files = rommon :: more ->
  list_remove rommon files = Some (pkg :: others) ->
  chosen_ftd_version kwargs version = Some v ->
  server_ip <> EmptyString -> ends_with "/" server_ip = false ->
  tftp_prefix <> EmptyString -> ends_with "/" tftp_prefix = false ->
  PyStr.startswith tftp_prefix "/" = false ->
  PyStr.startswith pkg "/" = false ->
  kp_call l =
  baseline_fp2k_ftd_kwargs dev fuel server_ip (tftp_prefix ++ "/" ++ rommon)
    (get (kw_uut_hostname kwargs) "firepower") (get (kw_uut_username kwargs) "admin")
    (get (kw_uut_password kwargs) "Admin123") uut_ip uut_netmask uut_gateway dns_server
    (get (kw_search_domains kwargs) "cisco.com")
    ("tftp://" ++ server_ip ++ "/" ++ tftp_prefix ++ "/" ++ pkg) v kwargs l /\
  wm_call l =
  WmMore.baseline_kwargs dev fuel server_ip (tftp_prefix ++ "/" ++ rommon)
    (get (kw_uut_hostname kwargs) "firepower") (get (kw_uut_username kwargs) "admin")
    (get (kw_uut_password kwargs) "Admin123") uut_ip uut_netmask uut_gateway dns_server
    (get (kw_search_domains kwargs) "cisco.com")
    ("tftp://" ++ server_ip ++ "/" ++ tftp_prefix ++ "/" ++ pkg) v kwargs l.
Proof.
  intros Hf Hr Hv Hip Hipe Hpre Hpree Hp Hk.
  assert (Er : os_path_join tftp_prefix [rommon] = tftp_prefix ++ "/" ++ rommon).
  { cbn [os_path_join fold_left]. apply join_relative; try assumption.
    exact (fxos_file_is_relative files rommon more Hf). }
  assert (Eu : os_path_join ("tftp://" ++ server_ip) [tftp_prefix; pkg] =
               "tftp://" ++ server_ip ++ "/" ++ tftp_prefix ++ "/" ++ pkg).
  { cbn [os_path_join fold_left]. set (p1 := "tftp://" ++ server_ip).
    assert (N1 : p1 <> EmptyString) by (apply append_not_empty; discriminate).
    assert (E1 : join_step p1 tftp_prefix = p1 ++ "/" ++ tftp_prefix).
    { apply join_relative; [exact N1 | | exact Hp].
      unfold p1. now rewrite (ends_with_append "/" server_ip Hip). }
    rewrite E1.
    assert (E2 : join_step (p1 ++ "/" ++ tftp_prefix) pkg =
                 (p1 ++ "/" ++ tftp_prefix) ++ "/" ++ pkg).
    { apply join_relative; [now apply append_not_empty | | exact Hk].
      rewrite <- (append_assoc p1 "/" tftp_prefix).
      now rewrite (ends_with_append "/" tftp_prefix Hpre). }
    rewrite E2. unfold p1. now rewrite !append_assoc. }
  unfold kp_call, wm_call, KpMore.baseline_by_branch_and_version,
    WmMore.baseline_by_branch_and_version.
  split; unfold bind at 1; [rewrite kp_prepared | rewrite wm_prepared];
    rewrite Hf; unfold bind at 1; unfold ret at 1; rewrite Hr;
    unfold bind at 1; unfold ret at 1; unfold bind at 1; unfold ret at 1;
    unfold bind at 1; rewrite (ftd_version_chosen v l Hv);
    rewrite Er, Eu; reflexivity.
Qed.

Lemma with_an_absolute_prefix l rommon more pkg others v :
  filter (fun file => PyStr.startswith file "fxos-k8-fp2k-lfbff") files = rommon :: more ->
  list_remove rommon files = Some (pkg :: others) ->
  chosen_ftd_version kwargs version = Some v ->
  PyStr.startswith tftp_prefix "/" = true ->
  PyStr.startswith pkg "/" = false ->
  PyStr.startswith (join_step tftp_prefix pkg) "/" = true /\
  kp_call l =
  baseline_fp2k_ftd_kwargs dev fuel server_ip (os_path_join tftp_prefix [rommon])
    (get (kw_uut_hostname kwargs) "firepower") (get (kw_uut_username kwargs) "admin")
    (get (kw_uut_password kwargs) "Admin123") uut_ip uut_netmask uut_gateway dns_server
    (get (kw_search_domains kwargs) "cisco.com") (join_step tftp_prefix pkg) v kwargs l /\
  wm_call l =
  WmMore.baseline_kwargs dev fuel server_ip (os_path_join tftp_prefix [rommon])
    (get (kw_uut_hostname kwargs) "firepower") (get (kw_uut_username kwargs) "admin")
    (get (kw_uut_password kwargs) "Admin123") uut_ip uut_netmask uut_gateway dns_server
    (get (kw_search_domains kwargs) "cisco.com") (join_step tftp_prefix pkg) v kwargs l.
Proof.
  intros Hf Hr Hv Hp Hk.
  destruct (join_absolute ("tftp://" ++ server_ip) tftp_prefix pkg Hp Hk) as [Ej Hs].
  split; [exact Hs|].
  unfold kp_call, wm_call, KpMore.baseline_by_branch_and_version,
    WmMore.baseline_by_branch_and_version.
  split; unfold bind at 1; [rewrite kp_prepared | rewrite wm_prepared];
    rewrite Hf; unfold bind at 1; unfold ret at 1; rewrite Hr;
    unfold bind at 1; unfold ret at 1; unfold bind at 1; unfold ret at 1;
    unfold bind at 1; rewrite (ftd_version_chosen v l Hv);
    rewrite Ej; reflexivity.
Qed.
End Files.

(** X19: [baseline_by_branch_and_version], of [KpLine] and of [WmLine],
    gives up before anything is done on the line when the files do not
    fit: without a file whose name starts with [fxos-k8-fp2k-lfbff] it
    raises the exception that says so; when that file is the only one it
    raises the bare [IndexError] of the missing package; and when no
    [ftd_version] is given and [version] has no hyphen it raises the
    [IndexError] of the failed search. *)
Theorem baseline_by_branch_fails_before_touching_the_line :
  forall (dev : Device) (KICK_EXTERNAL : bool)
    (prepare_installation_files :
       string -> string -> string -> string -> Reply (string * string * string * list string))
    (site branch version uut_ip uut_netmask uut_gateway
     dns_server serverIp tftpPrefix scpPrefix : string) (docs : list string)
    (kwargs : Kwargs) (fuel : nat) (server_ip tftp_prefix scp_prefix : string)
    (files : list string) (l : Line),
    (forall device,
        (if KICK_EXTERNAL then Ok (serverIp, tftpPrefix, scpPrefix, docs)
         else prepare_installation_files site device branch version) =
        Ok (server_ip, tftp_prefix, scp_prefix, files)) ->
    let kp_call :=
      KpMore.baseline_by_branch_and_version dev KICK_EXTERNAL prepare_installation_files
        fuel site branch version uut_ip uut_netmask uut_gateway dns_server serverIp
        tftpPrefix scpPrefix docs kwargs in
    let wm_call :=
      WmMore.baseline_by_branch_and_version dev KICK_EXTERNAL prepare_installation_files
        fuel site branch version uut_ip uut_netmask uut_gateway dns_server serverIp
        tftpPrefix scpPrefix docs kwargs in
    ((forall f, In f files -> PyStr.startswith f "fxos-k8-fp2k-lfbff" = false) ->
     kp_call l =
     Raised (OtherError "Got list index out of range while getting fxos file") l /\
     wm_call l =
     Raised (OtherError "Got list index out of range while getting fxos file") l) /\
    (forall f, files = [f] -> PyStr.startswith f "fxos-k8-fp2k-lfbff" = true ->
     kp_call l = Raised IndexError l /\ wm_call l = Raised IndexError l) /\
    (forall rommon more pkg others,
     filter (fun file => PyStr.startswith file "fxos-k8-fp2k-lfbff") files = rommon :: more ->
     list_remove rommon files = Some (pkg :: others) ->
     PyStr.truthy (kw_ftd_version kwargs) = false ->
     has_char "-" version = false ->
     kp_call l = Raised IndexError l /\ wm_call l = Raised IndexError l).
Proof.
  intros dev KE prep site branch version uut_ip uut_netmask uut_gateway dns_server
    serverIp tftpPrefix scpPrefix docs kwargs fuel server_ip tftp_prefix scp_prefix files l
    Hfiles kp_call wm_call.
  split; [|split].
  - intros H.
    exact (without_fxos_file dev KE prep site branch version uut_ip uut_netmask uut_gateway
             dns_server serverIp tftpPrefix scpPrefix docs kwargs fuel server_ip
             tftp_prefix scp_prefix files Hfiles l H).
  - intros f E H.
    exact (with_the_fxos_file_alone dev KE prep site branch version uut_ip uut_netmask
             uut_gateway dns_server serverIp tftpPrefix scpPrefix docs kwargs fuel
             server_ip tftp_prefix scp_prefix files Hfiles l f E H).
  - intros rommon more pkg others Hf Hr Hv Hd.
    exact (without_a_build_number dev KE prep site branch version uut_ip uut_netmask
             uut_gateway dns_server serverIp tftpPrefix scpPrefix docs kwargs fuel
             server_ip tftp_prefix scp_prefix files Hfiles l rommon more pkg others
             Hf Hr Hv Hd).
Qed.

Lemma baseline_by_branch_fails_before_touching_the_line_witness :
  KpMore.baseline_by_branch_and_version Scenario.silent_device true
    MoreScenario.no_file_server 0 "ful" "Release" "6.2.3-623" "10.0.0.2" "255.255.255.0"
    "10.0.0.1" "10.0.0.53" "10.89.23.30" "netboot" "scp" ["cisco-ftd-fp2k.6.2.3-623.SSA"]
    MoreScenario.no_kwargs Scenario.line0 =
  Raised (OtherError "Got list index out of range while getting fxos file") Scenario.line0 /\
  WmMore.baseline_by_branch_and_version Scenario.silent_device true
    MoreScenario.no_file_server 0 "ful" "Release" "6.2.3-623" "10.0.0.2" "255.255.255.0"
    "10.0.0.1" "10.0.0.53" "10.89.23.30" "netboot" "scp" ["cisco-ftd-fp2k.6.2.3-623.SSA"]
    MoreScenario.no_kwargs Scenario.line0 =
  Raised (OtherError "Got list index out of range while getting fxos file") Scenario.line0.
Proof.
  apply (baseline_by_branch_fails_before_touching_the_line Scenario.silent_device true
           MoreScenario.no_file_server "ful" "Release" "6.2.3-623" "10.0.0.2"
           "255.255.255.0" "10.0.0.1" "10.0.0.53" "10.89.23.30" "netboot" "scp"
           ["cisco-ftd-fp2k.6.2.3-623.SSA"] MoreScenario.no_kwargs 0
           "10.89.23.30" "netboot" "scp" ["cisco-ftd-fp2k.6.2.3-623.SSA"] Scenario.line0).
  - reflexivity.
  - intros f [<-|[]]. reflexivity.
Defined.

(** X20: when the tftp prefix is an absolute path, the URL that
    [baseline_by_branch_and_version], of [KpLine] and of [WmLine], hands to
    the baseline has lost the protocol and the server: [os.path.join]
    starts again at the prefix, and the baseline is run with the path of
    the package, which starts with a slash, as its [fxos_url], and with
    the [ftd_version] that is given or, when none is given, the one read
    from [version]. *)
Theorem an_absolute_tftp_prefix_drops_the_server_from_the_url :
  forall (dev : Device) (KICK_EXTERNAL : bool)
    (prepare_installation_files :
       string -> string -> string -> string -> Reply (string * string * string * list string))
    (site branch version uut_ip uut_netmask uut_gateway
     dns_server serverIp tftpPrefix scpPrefix : string) (docs : list string)
    (kwargs : Kwargs) (fuel : nat) (server_ip tftp_prefix scp_prefix : string)
    (files : list string) (l : Line) (rommon : string) (more : list string)
    (pkg : string) (others : list string) (v : string),
    (forall device,
        (if KICK_EXTERNAL then Ok (serverIp, tftpPrefix, scpPrefix, docs)
         else prepare_installation_files site device branch version) =
        Ok (server_ip, tftp_prefix, scp_prefix, files)) ->
    filter (fun file => PyStr.startswith file "fxos-k8-fp2k-lfbff") files = rommon :: more ->
    list_remove rommon files = Some (pkg :: others) ->
    chosen_ftd_version kwargs version = Some v ->
    PyStr.startswith tftp_prefix "/" = true ->
    PyStr.startswith pkg "/" = false ->
    PyStr.startswith (join_step tftp_prefix pkg) "/" = true /\
    KpMore.baseline_by_branch_and_version dev KICK_EXTERNAL prepare_installation_files
      fuel site branch version uut_ip uut_netmask uut_gateway dns_server serverIp
      tftpPrefix scpPrefix docs kwargs l =
    baseline_fp2k_ftd_kwargs dev fuel server_ip (os_path_join tftp_prefix [rommon])
      (get (kw_uut_hostname kwargs) "firepower") (get (kw_uut_username kwargs) "admin")
      (get (kw_uut_password kwargs) "Admin123") uut_ip uut_netmask uut_gateway dns_server
      (get (kw_search_domains kwargs) "cisco.com") (join_step tftp_prefix pkg) v kwargs l /\
    WmMore.baseline_by_branch_and_version dev KICK_EXTERNAL prepare_installation_files
      fuel site branch version uut_ip uut_netmask uut_gateway dns_server serverIp
      tftpPrefix scpPrefix docs kwargs l =
    WmMore.baseline_kwargs dev fuel server_ip (os_path_join tftp_prefix [rommon])
      (get (kw_uut_hostname kwargs) "firepower") (get (kw_uut_username kwargs) "admin")
      (get (kw_uut_password kwargs) "Admin123") uut_ip uut_netmask uut_gateway dns_server
      (get (kw_search_domains kwargs) "cisco.com") (join_step tftp_prefix pkg) v kwargs l.
Proof.
  intros dev KE prep site branch version uut_ip uut_netmask uut_gateway dns_server
    serverIp tftpPrefix scpPrefix docs kwargs fuel server_ip tftp_prefix scp_prefix files l
    rommon more pkg others v Hfiles Hf Hr Hv Hp Hk.
  exact (with_an_absolute_prefix dev KE prep site branch version uut_ip uut_netmask
           uut_gateway dns_server serverIp tftpPrefix scpPrefix docs kwargs fuel
           server_ip tftp_prefix scp_prefix files Hfiles l rommon more pkg others v
           Hf Hr Hv Hp Hk).
Qed.

Lemma an_absolute_tftp_prefix_drops_the_server_from_the_url_witness :
  PyStr.startswith (join_step "/netboot/ims" "cisco-ftd-fp2k.6.2.3-623.SSA") "/" = true /\
  KpMore.baseline_by_branch_and_version Scenario.silent_device true
    MoreScenario.no_file_server 0 "ful" "Release" "6.2.3-623" "10.0.0.2" "255.255.255.0"
    "10.0.0.1" "10.0.0.53" "10.89.23.30" "/netboot/ims" "scp"
    ["cisco-ftd-fp2k.6.2.3-623.SSA"; "fxos-k8-fp2k-lfbff.82.2.1.386i.SSA"]
    MoreScenario.no_kwargs Scenario.line0 =
  baseline_fp2k_ftd_kwargs Scenario.silent_device 0 "10.89.23.30"
    (os_path_join "/netboot/ims" ["fxos-k8-fp2k-lfbff.82.2.1.386i.SSA"])
    (get (kw_uut_hostname MoreScenario.no_kwargs) "firepower")
    (get (kw_uut_username MoreScenario.no_kwargs) "admin")
    (get (kw_uut_password MoreScenario.no_kwargs) "Admin123")
    "10.0.0.2" "255.255.255.0" "10.0.0.1" "10.0.0.53"
    (get (kw_search_domains MoreScenario.no_kwargs) "cisco.com")
    (join_step "/netboot/ims" "cisco-ftd-fp2k.6.2.3-623.SSA") "6.2.3-623"
    MoreScenario.no_kwargs Scenario.line0 /\
  WmMore.baseline_by_branch_and_version Scenario.silent_device true
    MoreScenario.no_file_server 0 "ful" "Release" "6.2.3-623" "10.0.0.2" "255.255.255.0"
    "10.0.0.1" "10.0.0.53" "10.89.23.30" "/netboot/ims" "scp"
    ["cisco-ftd-fp2k.6.2.3-623.SSA"; "fxos-k8-fp2k-lfbff.82.2.1.386i.SSA"]
    MoreScenario.no_kwargs Scenario.line0 =
  WmMore.baseline_kwargs Scenario.silent_device 0 "10.89.23.30"
    (os_path_join "/netboot/ims" ["fxos-k8-fp2k-lfbff.82.2.1.386i.SSA"])
    (get (kw_uut_hostname MoreScenario.no_kwargs) "firepower")
    (get (kw_uut_username MoreScenario.no_kwargs) "admin")
    (get (kw_uut_password MoreScenario.no_kwargs) "Admin123")
    "10.0.0.2" "255.255.255.0" "10.0.0.1" "10.0.0.53"
    (get (kw_search_domains MoreScenario.no_kwargs) "cisco.com")
    (join_step "/netboot/ims" "cisco-ftd-fp2k.6.2.3-623.SSA") "6.2.3-623"
    MoreScenario.no_kwargs Scenario.line0.
Proof.
  apply (an_absolute_tftp_prefix_drops_the_server_from_the_url Scenario.silent_device true
           MoreScenario.no_file_server "ful" "Release" "6.2.3-623" "10.0.0.2"
           "255.255.255.0" "10.0.0.1" "10.0.0.53" "10.89.23.30" "/netboot/ims" "scp"
           ["cisco-ftd-fp2k.6.2.3-623.SSA"; "fxos-k8-fp2k-lfbff.82.2.1.386i.SSA"]
           MoreScenario.no_kwargs 0 "10.89.23.30" "/netboot/ims" "scp"
           ["cisco-ftd-fp2k.6.2.3-623.SSA"; "fxos-k8-fp2k-lfbff.82.2.1.386i.SSA"]
           Scenario.line0 "fxos-k8-fp2k-lfbff.82.2.1.386i.SSA" []
           "cisco-ftd-fp2k.6.2.3-623.SSA" [] "6.2.3-623").
  - reflexivity.
  - reflexivity.
  - reflexivity.
  - vm_compute. reflexivity.
  - reflexivity.
  - reflexivity.
Defined.

(** X25: with a server that is not empty and a tftp prefix that is a
    relative path, neither ending with a slash, [baseline_by_branch_and_version],
    of [KpLine] and of [WmLine], runs the baseline with the first file
    named [fxos-k8-fp2k-lfbff...] under the prefix as the rommon file and
    with the URL [tftp://server/prefix/package] of the first of the other
    files, and with the [ftd_version] that is given or, when none is
    given, the one read from [version]; keyword arguments that are not
    given take the values [firepower], [admin], [Admin123] and
    [cisco.com]. *)
Theorem baseline_by_branch_builds_the_tftp_url :
  forall (dev : Device) (KICK_EXTERNAL : bool)
    (prepare_installation_files :
       string -> string -> string -> string -> Reply (string * string * string * list string))
    (site branch version uut_ip uut_netmask uut_gateway
     dns_server serverIp tftpPrefix scpPrefix : string) (docs : list string)
    (kwargs : Kwargs) (fuel : nat) (server_ip tftp_prefix scp_prefix : string)
    (files : list string) (l : Line) (rommon : string) (more : list string)
    (pkg : string) (others : list string) (v : string),
    (forall device,
        (if KICK_EXTERNAL then Ok (serverIp, tftpPrefix, scpPrefix, docs)
         else prepare_installation_files site device branch version) =
        Ok (server_ip, tftp_prefix, scp_prefix, files)) ->
    filter (fun file => PyStr.startswith file "fxos-k8-fp2k-lfbff") files = rommon :: more ->
    list_remove rommon files = Some (pkg :: others) ->
    chosen_ftd_version kwargs version = Some v ->
    server_ip <> EmptyString -> ends_with "/" server_ip = false ->
    tftp_prefix <> EmptyString -> ends_with "/" tftp_prefix = false ->
    PyStr.startswith tftp_prefix "/" = false ->
    PyStr.startswith pkg "/" = false ->
    KpMore.baseline_by_branch_and_version dev KICK_EXTERNAL prepare_installation_files
      fuel site branch version uut_ip uut_netmask uut_gateway dns_server serverIp
      tftpPrefix scpPrefix docs kwargs l =
    baseline_fp2k_ftd_kwargs dev fuel server_ip (tftp_prefix ++ "/" ++ rommon)
      (get (kw_uut_hostname kwargs) "firepower") (get (kw_uut_username kwargs) "admin")
      (get (kw_uut_password kwargs) "Admin123") uut_ip uut_netmask uut_gateway dns_server
      (get (kw_search_domains kwargs) "cisco.com")
      ("tftp://" ++ server_ip ++ "/" ++ tftp_prefix ++ "/" ++ pkg) v kwargs l /\
    WmMore.baseline_by_branch_and_version dev KICK_EXTERNAL prepare_installation_files
      fuel site branch version uut_ip uut_netmask uut_gateway dns_server serverIp
      tftpPrefix scpPrefix docs kwargs l =
    WmMore.baseline_kwargs dev fuel server_ip (tftp_prefix ++ "/" ++ rommon)
      (get (kw_uut_hostname kwargs) "firepower") (get (kw_uut_username kwargs) "admin")
      (get (kw_uut_password kwargs) "Admin123") uut_ip uut_netmask uut_gateway dns_server
      (get (kw_search_domains kwargs) "cisco.com")
      ("tftp://" ++ server_ip ++ "/" ++ tftp_prefix ++ "/" ++ pkg) v kwargs l.
Proof.
  intros dev KE prep site branch version uut_ip uut_netmask uut_gateway dns_server
    serverIp tftpPrefix scpPrefix docs kwargs fuel server_ip tftp_prefix scp_prefix files l
    rommon more pkg others v Hfiles Hf Hr Hv Hip Hipe Hpre Hpree Hp Hk.
  exact (with_a_relative_prefix dev KE prep site branch version uut_ip uut_netmask
           uut_gateway dns_server serverIp tftpPrefix scpPrefix docs kwargs fuel
           server_ip tftp_prefix scp_prefix files Hfiles l rommon more pkg others v
           Hf Hr Hv Hip Hipe Hpre Hpree Hp Hk).
Qed.

Lemma baseline_by_branch_builds_the_tftp_url_witness :
  KpMore.baseline_by_branch_and_version Scenario.silent_device true
    MoreScenario.no_file_server 0 "ful" "Release" "6.2.3-623" "10.0.0.2" "255.255.255.0"
    "10.0.0.1" "10.0.0.53" "10.89.23.30" "netboot/ims" "scp"
    ["cisco-ftd-fp2k.6.2.3-623.SSA"; "fxos-k8-fp2k-lfbff.82.2.1.386i.SSA"]
    MoreScenario.no_kwargs Scenario.line0 =
  baseline_fp2k_ftd_kwargs Scenario.silent_device 0 "10.89.23.30"
    ("netboot/ims" ++ "/" ++ "fxos-k8-fp2k-lfbff.82.2.1.386i.SSA")
    (get (kw_uut_hostname MoreScenario.no_kwargs) "firepower")
    (get (kw_uut_username MoreScenario.no_kwargs) "admin")
    (get (kw_uut_password MoreScenario.no_kwargs) "Admin123")
    "10.0.0.2" "255.255.255.0" "10.0.0.1" "10.0.0.53"
    (get (kw_search_domains MoreScenario.no_kwargs) "cisco.com")
    ("tftp://" ++ "10.89.23.30" ++ "/" ++ "netboot/ims" ++ "/" ++
     "cisco-ftd-fp2k.6.2.3-623.SSA") "6.2.3-623"
    MoreScenario.no_kwargs Scenario.line0 /\
  WmMore.baseline_by_branch_and_version Scenario.silent_device true
    MoreScenario.no_file_server 0 "ful" "Release" "6.2.3-623" "10.0.0.2" "255.255.255.0"
    "10.0.0.1" "10.0.0.53" "10.89.23.30" "netboot/ims" "scp"
    ["cisco-ftd-fp2k.6.2.3-623.SSA"; "fxos-k8-fp2k-lfbff.82.2.1.386i.SSA"]
    MoreScenario.no_kwargs Scenario.line0 =
  WmMore.baseline_kwargs Scenario.silent_device 0 "10.89.23.30"
    ("netboot/ims" ++ "/" ++ "fxos-k8-fp2k-lfbff.82.2.1.386i.SSA")
    (get (kw_uut_hostname MoreScenario.no_kwargs) "firepower")
    (get (kw_uut_username MoreScenario.no_kwargs) "admin")
    (get (kw_uut_password MoreScenario.no_kwargs) "Admin123")
    "10.0.0.2" "255.255.255.0" "10.0.0.1" "10.0.0.53"
    (get (kw_search_domains MoreScenario.no_kwargs) "cisco.com")
    ("tftp://" ++ "10.89.23.30" ++ "/" ++ "netboot/ims" ++ "/" ++
     "cisco-ftd-fp2k.6.2.3-623.SSA") "6.2.3-623"
    MoreScenario.no_kwargs Scenario.line0.
Proof.
  apply (baseline_by_branch_builds_the_tftp_url Scenario.silent_device true
           MoreScenario.no_file_server "ful" "Release" "6.2.3-623" "10.0.0.2"
           "255.255.255.0" "10.0.0.1" "10.0.0.53" "10.89.23.30" "netboot/ims" "scp"
           ["cisco-ftd-fp2k.6.2.3-623.SSA"; "fxos-k8-fp2k-lfbff.82.2.1.386i.SSA"]
           MoreScenario.no_kwargs 0 "10.89.23.30" "netboot/ims" "scp"
           ["cisco-ftd-fp2k.6.2.3-623.SSA"; "fxos-k8-fp2k-lfbff.82.2.1.386i.SSA"]
           Scenario.line0 "fxos-k8-fp2k-lfbff.82.2.1.386i.SSA" []
           "cisco-ftd-fp2k.6.2.3-623.SSA" [] "6.2.3-623").
  - reflexivity.
  - reflexivity.
  - reflexivity.
  - vm_compute. reflexivity.
  - discriminate.
  - reflexivity.
  - discriminate.
  - reflexivity.
  - reflexivity.
  - reflexivity.
Defined.

End ByBranchFacts.
